(** * The analytics core of the OSS traction dashboard

    A shallow embedding of [database.py] (the snapshot ledger and the growth
    calculator) and of [analysis.py] (the text classifiers and the two
    scorers), followed by the properties the specification states about
    them.

    Python values are modelled as follows.
    - [int] is [Z]; [None] or an absent dictionary key is [None] of an
      option type.
    - [float] is the kernel's binary64 [float]; integer true division and
      [round(x, 2)] are written out below with the rounding CPython performs.
    - [str] is a list of Unicode code points; [str.lower] and
      [datetime.fromisoformat] are interfaces of the Python runtime and are
      taken as parameters.
    - An exception is a value [Exc e] of the result type [py]. *)

From Stdlib Require Import ZArith NArith List Bool Lia String Ascii.
From Stdlib Require Import Sorting.Permutation Sorting.Sorted.
From Stdlib Require Import Floats.
From Stdlib Require Uint63.
Import ListNotations.
Open Scope Z_scope.

(** * The Python runtime *)

Module Py.

Inductive exn := ZeroDivisionError | OverflowError | AttributeError | ValueError.

Inductive py (A : Type) : Type :=
| Ret (a : A)
| Exc (e : exn).
Arguments Ret {A} a.
Arguments Exc {A} e.

Definition bind {A B : Type} (c : py A) (k : A -> py B) : py B :=
  match c with
  | Ret a => k a
  | Exc e => Exc e
  end.

(** [try: ... except: pass] around a block that updates [score]. *)
Definition try_except_pass {A : Type} (body : py A) (otherwise : A) : A :=
  match body with
  | Ret a => a
  | Exc _ => otherwise
  end.

(** ** Strings *)

Definition str := list N.

Definition lit (s : string) : str :=
  List.map N_of_ascii (list_ascii_of_string s).

Fixpoint str_eqb (a b : str) : bool :=
  match a, b with
  | [], [] => true
  | x :: a', y :: b' => N.eqb x y && str_eqb a' b'
  | _, _ => false
  end.

(** Truth value of a string: the empty string is false. *)
Definition truthy_str (s : str) : bool :=
  match s with [] => false | _ :: _ => true end.

Definition truthy_opt_str (o : option str) : bool :=
  match o with Some s => truthy_str s | None => false end.

(** [s or ''], and the string itself where it is known to be given. *)
Definition str_or_empty (o : option str) : str :=
  match o with Some s => s | None => [] end.

Fixpoint startswith (pat text : str) : bool :=
  match pat, text with
  | [], _ => true
  | _ :: _, [] => false
  | p :: pat', t :: text' => N.eqb p t && startswith pat' text'
  end.

(** [pat in text]: substring test. *)
Fixpoint contains (pat text : str) : bool :=
  startswith pat text ||
  match text with
  | [] => false
  | _ :: text' => contains pat text'
  end.

(** Number of positions of [text] at which [pat] occurs. *)
Fixpoint occurrences (pat text : str) : nat :=
  ((if startswith pat text then 1 else 0) +
   match text with
   | [] => 0
   | _ :: text' => occurrences pat text'
   end)%nat.

(** [sep.join(parts)]. *)
Fixpoint join (sep : str) (parts : list str) : str :=
  match parts with
  | [] => []
  | [p] => p
  | p :: rest => p ++ sep ++ join sep rest
  end.

(** [s.replace(old, new)] for a one-character [old]. *)
Definition replace_char (old : N) (new : str) (s : str) : str :=
  List.flat_map (fun c => if N.eqb c old then new else [c]) s.

(** [str.lower] restricted to ASCII input, where it only moves
    [A..Z] to [a..z]; used to evaluate the model on concrete ASCII text. *)
Definition ascii_lower (s : str) : str :=
  List.map (fun c => if (N.leb 65 c && N.leb c 90)%bool then (c + 32)%N else c) s.

(** Pairwise distinct strings, as a check that computes. *)
Fixpoint distinct_strs (l : list str) : bool :=
  match l with
  | [] => true
  | x :: rest => List.forallb (fun y => negb (str_eqb x y)) rest && distinct_strs rest
  end.

(** [sum] of a list of integers. *)
Definition py_sum (l : list Z) : Z := List.fold_left Z.add l 0.

(** ** Floats *)

(** The binary64 number nearest to [num / den] (ties to even), with sign
    [s]. The quotient is taken with enough extra bits, and a sticky bit
    records a nonzero remainder, so one rounding gives the correctly rounded
    result. *)
Definition nearest_SF (s : bool) (num den : positive) : spec_float :=
  let k := Z.max 0 (56 + Z.log2 (Zpos den) - Z.log2 (Zpos num)) in
  let a := Zpos num * 2 ^ k in
  let q := a / Zpos den in
  let r := a mod Zpos den in
  match 2 * q + (if r =? 0 then 0 else 1) with
  | Zpos m => binary_round prec emax s m (- k - 1)
  | _ => S754_zero s
  end.

Definition nearest_float (s : bool) (num : Z) (den : positive) : float :=
  match num with
  | Z0 => SF2Prim (S754_zero s)
  | Zpos p | Zneg p => SF2Prim (nearest_SF s p den)
  end.

(** Exact conversion of an integer below [2^53] in magnitude. *)
Definition float_of_small (a : Z) : float :=
  let f := of_uint63 (Uint63.of_Z (Z.abs a)) in
  if a <? 0 then (- f)%float else f.

(** [a / b] on two [int]s: a correctly rounded [float]. Operands that fit
    the mantissa are converted and divided directly; larger ones go through
    the exact quotient, which may be too large for a float. *)
Definition int_true_divide (a b : Z) : py float :=
  if b =? 0 then Exc ZeroDivisionError
  else if (Z.abs a <? 2 ^ 53) && (Z.abs b <? 2 ^ 53)
  then Ret (float_of_small a / float_of_small b)%float
  else
    let negate := xorb (a <? 0) (b <? 0) in
    let f := nearest_float negate (Z.abs a) (Z.to_pos (Z.abs b)) in
    if is_infinity f then Exc OverflowError else Ret f.

Definition round_half_even (num den : Z) : Z :=
  let q := num / den in
  let r := num mod den in
  match 2 * r ?= den with
  | Lt => q
  | Gt => q + 1
  | Eq => if Z.even q then q else q + 1
  end.

(** [round(x, 2)] on a [float]: the exact binary value of [x] is rounded to
    two decimals (ties to even) and the decimal is converted back to the
    nearest float; zeros, infinities and nan round to themselves. *)
Definition py_round2 (x : float) : float :=
  match Prim2SF x with
  | S754_finite s m e =>
      let n := if 0 <=? e then Zpos m * 2 ^ e * 100
               else round_half_even (Zpos m * 100) (2 ^ (- e)) in
      nearest_float s n 100
  | _ => x
  end.

(** [v or 0] for an optional float: [None] and both zeros give [0]. *)
Definition float_or_zero (o : option float) : float :=
  match o with
  | Some f => if is_zero f then zero else f
  | None => zero
  end.

(** [v or 0] for an optional integer. *)
Definition int_or_zero (o : option Z) : Z :=
  match o with Some v => v | None => 0 end.

End Py.
Import Py.

Declare Scope py_scope.
Notation "x <- c ;; k" := (bind c (fun x => k))
  (at level 61, c at next level, right associativity) : py_scope.
Open Scope py_scope.

(** The metric record that the fetch layer hands over: the keys of the
    [metrics] dictionary read by [save_snapshot] and by the scorers. *)
Record metrics := {
  m_stars : option Z;
  m_forks : option Z;
  m_contributors : option Z;
  m_dependents : option Z;
  m_downloads : option Z;
  m_download_source : option str;
  m_commits_3mo : option Z;
  m_prs_30d : option Z;
  m_issues_30d : option Z
}.

(** * database.py *)

Module Database.

(** A calendar day, as its ordinal; [d - timedelta(days=n)] is [d - n]. *)
Definition date := Z.

(** What one call reads from the clocks: [datetime.now().date()] and
    SQLite's [CURRENT_TIMESTAMP]. *)
Record clock := {
  today : date;
  current_timestamp : Z
}.

(** A row of table [snapshots]. *)
Record snapshot_row := {
  s_id : Z;
  s_repo_id : Z;
  s_snapshot_date : date;
  s_stars : option Z;
  s_forks : option Z;
  s_contributors : option Z;
  s_dependents : option Z;
  s_downloads : option Z;
  s_download_source : option str;
  s_open_issues : option Z;
  s_commits_30d : option Z;
  s_prs_30d : option Z;
  s_issues_30d : option Z;
  s_watchers : option Z;
  s_created_at : Z
}.

(** A row of table [growth_metrics]. *)
Record growth_row := {
  g_id : Z;
  g_repo_id : Z;
  g_calculated_at : date;
  g_stars_wow : option float;
  g_stars_mom : option float;
  g_stars_acceleration : option float;
  g_forks_wow : option float;
  g_forks_mom : option float;
  g_downloads_wow : option float;
  g_downloads_mom : option float;
  g_contributors_wow : option float;
  g_contributors_mom : option float;
  g_traction_score : option Z;
  g_investability_score : option Z
}.

(** The two tables, each with its AUTOINCREMENT counter. *)
Record db := {
  snapshots : list snapshot_row;
  snapshots_seq : Z;
  growth_metrics : list growth_row;
  growth_metrics_seq : Z
}.

Definition snapshot_key (repo_id : Z) (d : date) (r : snapshot_row) : bool :=
  (s_repo_id r =? repo_id) && (s_snapshot_date r =? d).

Definition growth_key (repo_id : Z) (d : date) (r : growth_row) : bool :=
  (g_repo_id r =? repo_id) && (g_calculated_at r =? d).

(** [INSERT OR REPLACE] under [UNIQUE(repo_id, snapshot_date)]: the rows
    that conflict with the new one are deleted, then the new row is
    inserted under a fresh id. Columns the statement does not list take
    their default. *)
Definition save_snapshot (clk : clock) (repo_id : Z) (m : metrics) (d : db) : db :=
  let today := today clk in
  let id := snapshots_seq d + 1 in
  let row := {|
    s_id := id;
    s_repo_id := repo_id;
    s_snapshot_date := today;
    s_stars := m_stars m;
    s_forks := m_forks m;
    s_contributors := m_contributors m;
    s_dependents := m_dependents m;
    s_downloads := m_downloads m;
    s_download_source := m_download_source m;
    s_open_issues := None;
    s_commits_30d := m_commits_3mo m;
    s_prs_30d := m_prs_30d m;
    s_issues_30d := m_issues_30d m;
    s_watchers := None;
    s_created_at := current_timestamp clk
  |} in
  {| snapshots :=
       List.filter (fun r => negb (snapshot_key repo_id today r)) (snapshots d) ++ [row];
     snapshots_seq := id;
     growth_metrics := growth_metrics d;
     growth_metrics_seq := growth_metrics_seq d |}.

Definition calculate_growth_rate (current previous : option Z) : py (option float) :=
  match previous with
  | None => Ret None
  | Some previous =>
      if previous =? 0 then Ret None
      else
        match current with
        | None => Ret None
        | Some current =>
            q <- int_true_divide (current - previous) previous ;;
            Ret (Some (py_round2 (q * 100)%float))
        end
  end.

(** [SELECT * FROM snapshots WHERE repo_id = ? AND snapshot_date <= ?
    ORDER BY snapshot_date DESC LIMIT 1]. *)
Fixpoint select_snapshot_near (repo_id : Z) (d : date) (rows : list snapshot_row)
  : option snapshot_row :=
  match rows with
  | [] => None
  | r :: rest =>
      let best := select_snapshot_near repo_id d rest in
      if (s_repo_id r =? repo_id) && (s_snapshot_date r <=? d) then
        match best with
        | Some b => if s_snapshot_date r <? s_snapshot_date b then Some b else Some r
        | None => Some r
        end
      else best
  end.

Definition get_snapshot_near (t : db) (repo_id : Z) (d : date) : option snapshot_row :=
  select_snapshot_near repo_id d (snapshots t).

(** The dictionary [calculate_growth_metrics] returns. *)
Record growth_dict := {
  repo_id_of : Z;
  calculated_at : date;
  stars_wow : option float;
  stars_mom : option float;
  stars_acceleration : option float;
  forks_wow : option float;
  forks_mom : option float;
  downloads_wow : option float;
  downloads_mom : option float;
  contributors_wow : option float;
  contributors_mom : option float
}.

(** A float bound to a REAL column; sqlite3 stores nan as NULL. *)
Definition sql_real (o : option float) : option float :=
  match o with
  | Some f => if is_nan f then None else Some f
  | None => None
  end.

(** The four growth rates of [cur] against an earlier snapshot, [None]
    each when there is no earlier snapshot. *)
Definition growth_against (cur : snapshot_row) (earlier : option snapshot_row)
  : py (option float * option float * option float * option float) :=
  match earlier with
  | Some e =>
      st <- calculate_growth_rate (s_stars cur) (s_stars e) ;;
      fk <- calculate_growth_rate (s_forks cur) (s_forks e) ;;
      dl <- calculate_growth_rate (s_downloads cur) (s_downloads e) ;;
      ct <- calculate_growth_rate (s_contributors cur) (s_contributors e) ;;
      Ret (st, fk, dl, ct)
  | None => Ret (None, None, None, None)
  end.

Definition calculate_growth_metrics (clk : clock) (repo_id : Z) (t : db)
  : py (option growth_dict * db) :=
  let today := today clk in
  let week_ago := today - 7 in
  let two_weeks_ago := today - 14 in
  let month_ago := today - 30 in
  let two_months_ago := today - 60 in
  let current := get_snapshot_near t repo_id today in
  let week_ago_snap := get_snapshot_near t repo_id week_ago in
  let two_weeks_snap := get_snapshot_near t repo_id two_weeks_ago in
  let month_ago_snap := get_snapshot_near t repo_id month_ago in
  let two_months_snap := get_snapshot_near t repo_id two_months_ago in
  match current with
  | None => Ret (None, t)
  | Some current =>
      (* Week over week *)
      wow <- growth_against current week_ago_snap ;;
      let '(stars_wow, forks_wow, downloads_wow, contributors_wow) := wow in
      (* Month over month *)
      mom <- growth_against current month_ago_snap ;;
      let '(stars_mom, forks_mom, downloads_mom, contributors_mom) := mom in
      (* Acceleration: this week's growth against last week's growth *)
      stars_acceleration <-
        match week_ago_snap, two_weeks_snap with
        | Some w, Some w2 =>
            prev_wow <- calculate_growth_rate (s_stars w) (s_stars w2) ;;
            match stars_wow, prev_wow with
            | Some a, Some b => Ret (Some (py_round2 (a - b)%float))
            | _, _ => Ret None
            end
        | _, _ => Ret None
        end ;;
      let metrics := {|
        repo_id_of := repo_id;
        calculated_at := today;
        stars_wow := stars_wow;
        stars_mom := stars_mom;
        stars_acceleration := stars_acceleration;
        forks_wow := forks_wow;
        forks_mom := forks_mom;
        downloads_wow := downloads_wow;
        downloads_mom := downloads_mom;
        contributors_wow := contributors_wow;
        contributors_mom := contributors_mom
      |} in
      (* INSERT OR REPLACE INTO growth_metrics, scores not listed *)
      let id := growth_metrics_seq t + 1 in
      let row := {|
        g_id := id;
        g_repo_id := repo_id;
        g_calculated_at := today;
        g_stars_wow := sql_real stars_wow;
        g_stars_mom := sql_real stars_mom;
        g_stars_acceleration := sql_real stars_acceleration;
        g_forks_wow := sql_real forks_wow;
        g_forks_mom := sql_real forks_mom;
        g_downloads_wow := sql_real downloads_wow;
        g_downloads_mom := sql_real downloads_mom;
        g_contributors_wow := sql_real contributors_wow;
        g_contributors_mom := sql_real contributors_mom;
        g_traction_score := None;
        g_investability_score := None
      |} in
      Ret (Some metrics,
           {| snapshots := snapshots t;
              snapshots_seq := snapshots_seq t;
              growth_metrics :=
                List.filter (fun r => negb (growth_key repo_id today r)) (growth_metrics t)
                ++ [row];
              growth_metrics_seq := id |})
  end.

(** [SELECT MAX(calculated_at) FROM growth_metrics WHERE repo_id = ?]. *)
Fixpoint max_calculated_at (repo_id : Z) (rows : list growth_row) : option date :=
  match rows with
  | [] => None
  | r :: rest =>
      let best := max_calculated_at repo_id rest in
      if g_repo_id r =? repo_id then
        match best with
        | Some b => Some (Z.max (g_calculated_at r) b)
        | None => Some (g_calculated_at r)
        end
      else best
  end.

(** The statement [analyze_and_store_repo] (dashboard_v2.py) runs after
    the growth calculation: [UPDATE growth_metrics SET traction_score = ?,
    investability_score = ? WHERE repo_id = ? AND calculated_at = (SELECT
    MAX(calculated_at) ...)]. *)
Definition update_growth_scores (repo_id traction investability : Z) (t : db) : db :=
  let latest := max_calculated_at repo_id (growth_metrics t) in
  let set (r : growth_row) : growth_row :=
    match latest with
    | Some d =>
        if growth_key repo_id d r then
          {| g_id := g_id r;
             g_repo_id := g_repo_id r;
             g_calculated_at := g_calculated_at r;
             g_stars_wow := g_stars_wow r;
             g_stars_mom := g_stars_mom r;
             g_stars_acceleration := g_stars_acceleration r;
             g_forks_wow := g_forks_wow r;
             g_forks_mom := g_forks_mom r;
             g_downloads_wow := g_downloads_wow r;
             g_downloads_mom := g_downloads_mom r;
             g_contributors_wow := g_contributors_wow r;
             g_contributors_mom := g_contributors_mom r;
             g_traction_score := Some traction;
             g_investability_score := Some investability |}
        else r
    | None => r
    end in
  {| snapshots := snapshots t;
     snapshots_seq := snapshots_seq t;
     growth_metrics := List.map set (growth_metrics t);
     growth_metrics_seq := growth_metrics_seq t |}.

(** [SELECT * FROM snapshots WHERE repo_id = ? AND snapshot_date >= ?
    ORDER BY snapshot_date ASC]: the rows in the window, sorted by insertion
    into an ascending list. *)
Fixpoint insert_by_date (r : snapshot_row) (sorted : list snapshot_row)
  : list snapshot_row :=
  match sorted with
  | [] => [r]
  | x :: rest =>
      if s_snapshot_date r <? s_snapshot_date x then r :: sorted
      else x :: insert_by_date r rest
  end.

Definition order_by_date (rows : list snapshot_row) : list snapshot_row :=
  List.fold_right insert_by_date [] rows.

Definition get_snapshots (clk : clock) (repo_id : Z) (days : Z) (t : db)
  : list snapshot_row :=
  let since := today clk - days in
  order_by_date
    (List.filter (fun r => (s_repo_id r =? repo_id) && (since <=? s_snapshot_date r))
       (snapshots t)).

(** [SELECT * FROM growth_metrics WHERE repo_id = ? ORDER BY calculated_at
    DESC LIMIT 1]. *)
Fixpoint select_latest_growth (repo_id : Z) (rows : list growth_row) : option growth_row :=
  match rows with
  | [] => None
  | r :: rest =>
      let best := select_latest_growth repo_id rest in
      if g_repo_id r =? repo_id then
        match best with
        | Some b => if g_calculated_at r <? g_calculated_at b then Some b else Some r
        | None => Some r
        end
      else best
  end.

Definition get_latest_growth_metrics (t : db) (repo_id : Z) : option growth_row :=
  select_latest_growth repo_id (growth_metrics t).

Definition get_snapshot_count (t : db) : Z :=
  Z.of_nat (List.length (snapshots t)).

(** A row of table [repos]. *)
Record repo_row := {
  r_id : Z;
  r_owner : str;
  r_name : str;
  r_full_name : str;
  r_description : option str;
  r_language : option str;
  r_category : option str;
  r_funding_status : option str;
  r_funding_amount : option str;
  r_is_big_tech : option bool;
  r_is_excluded : option bool;
  r_founder_contact : option str;
  r_notes : option str;
  r_first_seen_at : Z;
  r_updated_at : Z
}.

(** Table [repos] with its AUTOINCREMENT counter. *)
Record repos_table := {
  repos : list repo_row;
  repos_seq : Z
}.

(** What a call on table [repos] reads from the clocks: [datetime.now()]
    and SQLite's [CURRENT_TIMESTAMP]. *)
Record repo_clock := {
  now : Z;
  sql_timestamp : Z
}.

(** [UPDATE repos SET ... WHERE id = ?] with [set] the assignment. *)
Definition update_repo (repo_id : Z) (set : repo_row -> repo_row) (t : repos_table)
  : repos_table :=
  {| repos := List.map (fun r => if r_id r =? repo_id then set r else r) (repos t);
     repos_seq := repos_seq t |}.

Definition get_or_create_repo (clk : repo_clock) (owner name : str)
  (description language : option str) (t : repos_table) : Z * repos_table :=
  let full_name := owner ++ lit "/" ++ name in
  match List.find (fun r => str_eqb (r_full_name r) full_name) (repos t) with
  | Some row =>
      let repo_id := r_id row in
      (repo_id,
       update_repo repo_id
         (fun r =>
            {| r_id := r_id r; r_owner := r_owner r; r_name := r_name r;
               r_full_name := r_full_name r; r_description := r_description r;
               r_language := r_language r; r_category := r_category r;
               r_funding_status := r_funding_status r;
               r_funding_amount := r_funding_amount r;
               r_is_big_tech := r_is_big_tech r; r_is_excluded := r_is_excluded r;
               r_founder_contact := r_founder_contact r; r_notes := r_notes r;
               r_first_seen_at := r_first_seen_at r;
               r_updated_at := now clk |})
         t)
  | None =>
      let repo_id := repos_seq t + 1 in
      (repo_id,
       {| repos :=
            repos t ++
            [{| r_id := repo_id; r_owner := owner; r_name := name;
                r_full_name := full_name; r_description := description;
                r_language := language; r_category := None;
                r_funding_status := None; r_funding_amount := None;
                r_is_big_tech := Some false; r_is_excluded := Some false;
                r_founder_contact := None; r_notes := None;
                r_first_seen_at := sql_timestamp clk;
                r_updated_at := sql_timestamp clk |}];
          repos_seq := repo_id |})
  end.

Definition update_repo_category (repo_id : Z) (category : option str) (t : repos_table)
  : repos_table :=
  update_repo repo_id
    (fun r =>
       {| r_id := r_id r; r_owner := r_owner r; r_name := r_name r;
          r_full_name := r_full_name r; r_description := r_description r;
          r_language := r_language r; r_category := category;
          r_funding_status := r_funding_status r;
          r_funding_amount := r_funding_amount r;
          r_is_big_tech := r_is_big_tech r; r_is_excluded := r_is_excluded r;
          r_founder_contact := r_founder_contact r; r_notes := r_notes r;
          r_first_seen_at := r_first_seen_at r; r_updated_at := r_updated_at r |})
    t.

Definition update_repo_funding (repo_id : Z) (funding_status funding_amount : option str)
  (t : repos_table) : repos_table :=
  update_repo repo_id
    (fun r =>
       {| r_id := r_id r; r_owner := r_owner r; r_name := r_name r;
          r_full_name := r_full_name r; r_description := r_description r;
          r_language := r_language r; r_category := r_category r;
          r_funding_status := funding_status;
          r_funding_amount := funding_amount;
          r_is_big_tech := r_is_big_tech r; r_is_excluded := r_is_excluded r;
          r_founder_contact := r_founder_contact r; r_notes := r_notes r;
          r_first_seen_at := r_first_seen_at r; r_updated_at := r_updated_at r |})
    t.

Definition mark_as_big_tech (repo_id : Z) (is_big_tech : option bool) (t : repos_table)
  : repos_table :=
  update_repo repo_id
    (fun r =>
       {| r_id := r_id r; r_owner := r_owner r; r_name := r_name r;
          r_full_name := r_full_name r; r_description := r_description r;
          r_language := r_language r; r_category := r_category r;
          r_funding_status := r_funding_status r;
          r_funding_amount := r_funding_amount r;
          r_is_big_tech := is_big_tech; r_is_excluded := is_big_tech;
          r_founder_contact := r_founder_contact r; r_notes := r_notes r;
          r_first_seen_at := r_first_seen_at r; r_updated_at := r_updated_at r |})
    t.

(** [v if arg is not None else column]: the effect of an assignment that is
    added to the UPDATE only when its argument is given. *)
Definition given {A : Type} (arg : option A) (column : option A) : option A :=
  match arg with
  | Some v => Some v
  | None => column
  end.

Definition is_given {A : Type} (arg : option A) : bool :=
  match arg with Some _ => true | None => false end.

Definition update_repo_metadata (clk : repo_clock) (repo_id : Z)
  (category funding_status funding_amount : option str) (is_big_tech : option bool)
  (description language : option str) (t : repos_table) : repos_table :=
  let updates :=
    is_given category || is_given funding_status || is_given funding_amount ||
    is_given is_big_tech || is_given description || is_given language in
  if updates then
    update_repo repo_id
      (fun r =>
         {| r_id := r_id r; r_owner := r_owner r; r_name := r_name r;
            r_full_name := r_full_name r;
            r_description := given description (r_description r);
            r_language := given language (r_language r);
            r_category := given category (r_category r);
            r_funding_status := given funding_status (r_funding_status r);
            r_funding_amount := given funding_amount (r_funding_amount r);
            r_is_big_tech := given is_big_tech (r_is_big_tech r);
            r_is_excluded := r_is_excluded r;
            r_founder_contact := r_founder_contact r; r_notes := r_notes r;
            r_first_seen_at := r_first_seen_at r;
            r_updated_at := now clk |})
      t
  else t.

End Database.

(** * analysis.py *)

Module Analysis.

Definition CATEGORY_KEYWORDS : list (str * list str) := [
  (lit "ai-ml", List.map lit [
     "llm"; "gpt"; "transformer"; "neural"; "deep learning"; "machine learning";
     "ml"; "ai"; "artificial intelligence"; "nlp"; "computer vision"; "cv";
     "embedding"; "vector"; "rag"; "agent"; "chatbot"; "generative";
     "diffusion"; "stable diffusion"; "language model"; "fine-tun";
     "inference"; "training"; "model"; "pytorch"; "tensorflow"; "hugging"
   ]%string);
  (lit "devtools", List.map lit [
     "developer"; "ide"; "editor"; "debugger"; "profiler"; "linter";
     "formatter"; "cli"; "command line"; "terminal"; "shell"; "sdk";
     "api"; "framework"; "library"; "toolkit"; "devtool"; "dx";
     "code generation"; "copilot"; "autocomplete"; "snippet"
   ]%string);
  (lit "infrastructure", List.map lit [
     "kubernetes"; "k8s"; "docker"; "container"; "orchestration";
     "infrastructure"; "infra"; "cloud"; "serverless"; "lambda";
     "terraform"; "pulumi"; "ansible"; "helm"; "gitops"; "ci/cd";
     "pipeline"; "deployment"; "scaling"; "load balancer"; "proxy";
     "service mesh"; "istio"; "envoy"; "ingress"
   ]%string);
  (lit "data", List.map lit [
     "database"; "sql"; "nosql"; "postgres"; "mysql"; "redis";
     "elasticsearch"; "kafka"; "streaming"; "etl"; "pipeline";
     "data warehouse"; "analytics"; "olap"; "oltp"; "timeseries";
     "graph database"; "vector database"; "data lake"; "spark";
     "flink"; "airflow"; "dagster"; "dbt"; "data engineering"
   ]%string);
  (lit "security", List.map lit [
     "security"; "auth"; "authentication"; "authorization"; "oauth";
     "sso"; "identity"; "iam"; "rbac"; "encryption"; "cryptography";
     "vulnerability"; "scanner"; "pentest"; "penetration"; "siem";
     "firewall"; "waf"; "devsecops"; "secrets"; "vault"; "compliance"
   ]%string);
  (lit "observability", List.map lit [
     "monitoring"; "observability"; "logging"; "tracing"; "metrics";
     "apm"; "alerting"; "dashboard"; "grafana"; "prometheus";
     "opentelemetry"; "jaeger"; "zipkin"; "elk"; "log aggregation"
   ]%string);
  (lit "frontend", List.map lit [
     "react"; "vue"; "angular"; "svelte"; "frontend"; "ui"; "ux";
     "component"; "design system"; "css"; "tailwind"; "styled";
     "animation"; "web"; "browser"; "dom"; "javascript"; "typescript"
   ]%string);
  (lit "backend", List.map lit [
     "backend"; "server"; "rest"; "graphql"; "grpc"; "websocket";
     "microservice"; "monolith"; "api gateway"; "rate limit";
     "caching"; "queue"; "message broker"; "event driven"
   ]%string);
  (lit "fintech", List.map lit [
     "payment"; "fintech"; "banking"; "trading"; "crypto"; "blockchain";
     "defi"; "wallet"; "transaction"; "ledger"; "invoice"; "billing"
   ]%string)
].

(** [NON_INVESTABLE_PATTERNS['name_patterns']]. *)
Definition name_patterns : list str := List.map lit [
  "awesome-"; "awesome_"; "-awesome"; "_awesome";
  "cheatsheet"; "cheat-sheet"; "cheat_sheet";
  "interview"; "leetcode"; "algorithm"; "data-structure";
  "tutorial"; "learn-"; "learning-"; "-tutorial";
  "example"; "sample"; "demo"; "boilerplate"; "starter";
  "course"; "roadmap"; "guide"; "handbook"; "book";
  "dotfiles"; "config"; "setup"
]%string.

(** [NON_INVESTABLE_PATTERNS['description_patterns']]. *)
Definition description_patterns : list str := List.map lit [
  "curated list"; "awesome list"; "collection of";
  "interview prep"; "coding interview"; "system design interview";
  "cheat sheet"; "cheatsheet"; "quick reference";
  "learning resource"; "study guide"; "course material";
  "my personal"; "my dotfiles"; "my config"
]%string.

Definition pricing_keywords : list str := List.map lit [
  "pricing"; "plans"; "enterprise"; "pro version"; "premium";
  "subscription"; "license"; "commercial"; "paid"; "free tier";
  "contact sales"; "book a demo"; "request demo"; "talk to sales"
]%string.

Definition enterprise_keywords : list str := List.map lit [
  "enterprise"; "sso"; "saml"; "ldap"; "audit log";
  "role-based"; "rbac"; "compliance"; "soc 2"; "hipaa";
  "gdpr"; "on-premise"; "self-hosted"; "air-gapped"
]%string.

Definition cloud_keywords : list str := List.map lit [
  "cloud"; "hosted"; "saas"; "managed"; "our platform";
  "sign up"; "get started"; "try for free"; "start free"
]%string.

Definition company_keywords : list str := List.map lit [
  "our team"; "about us"; "careers"; "we are"; "our company";
  "founded"; "investors"; "backed by"; "raised"; "funding"
]%string.

Definition hot_categories : list str :=
  List.map lit ["ai-ml"; "security"; "infrastructure"; "devtools"]%string.

(** A [datetime]: its wall-clock reading in microseconds and its [tzinfo]
    (the UTC offset when the value is timezone-aware). *)
Record datetime := {
  wall : Z;
  tzinfo : option Z
}.

(** The [created_at] argument: an ISO-8601 string or a [datetime]. *)
Inductive created_arg :=
| CreatedStr (s : str)
| CreatedDatetime (d : datetime).

Definition truthy_created (c : option created_arg) : bool :=
  match c with
  | Some (CreatedStr s) => truthy_str s
  | Some (CreatedDatetime _) => true
  | None => false
  end.

(** [(now - created_date.replace(tzinfo=None)).days]. *)
Definition days_between (now : Z) (created_date : datetime) : Z :=
  (now - wall created_date) / 86400000000.

(** The dictionary returned by [detect_commercial_signals]. *)
Record signals := {
  has_company : bool;
  has_pricing : bool;
  has_enterprise : bool;
  has_cloud : bool;
  has_docs_site : bool;
  commercial_score : Z
}.

(** A dictionary from strings to integers in insertion order. *)
Definition dict := list (str * Z).

Fixpoint dict_set (k : str) (v : Z) (d : dict) : dict :=
  match d with
  | [] => [(k, v)]
  | (k', v') :: rest =>
      if str_eqb k' k then (k', v) :: rest else (k', v') :: dict_set k v rest
  end.

(** [max] keeps the first of several largest entries. *)
Fixpoint max_from (best : str * Z) (rest : dict) : str :=
  match rest with
  | [] => fst best
  | kv :: rest' =>
      if snd best <? snd kv then max_from kv rest' else max_from best rest'
  end.

(** [sum(1 for kw in keywords if kw in text)]. *)
Definition keyword_score (keywords : list str) (text : str) : Z :=
  py_sum (List.map (fun _ => 1) (List.filter (fun kw => contains kw text) keywords)).

(** The loop of [categorize_repo] that fills [scores]. *)
Fixpoint category_scores (table : list (str * list str)) (text : str) (scores : dict) : dict :=
  match table with
  | [] => scores
  | (category, keywords) :: rest =>
      let score := keyword_score keywords text in
      category_scores rest text
        (if 0 <? score then dict_set category score scores else scores)
  end.

Section Runtime.

(** [str.lower] and [datetime.fromisoformat] ([None] for [ValueError]). *)
Variable lower : str -> str.
Variable fromisoformat : str -> option datetime.

Definition is_non_investable_repo (name : str) (description : option str)
  : bool * option str :=
  let name_lower := lower name in
  let desc_lower := lower (str_or_empty description) in
  match List.find (fun pattern => contains pattern name_lower) name_patterns with
  | Some pattern => (true, Some (lit "name matches '" ++ pattern ++ lit "'"))
  | None =>
      match List.find (fun pattern => contains pattern desc_lower) description_patterns with
      | Some pattern => (true, Some (lit "description matches '" ++ pattern ++ lit "'"))
      | None => (false, None)
      end
  end.

(** The text [categorize_repo] scans. *)
Definition category_text (description : option str) (topics : option (list str))
  (readme : option str) : str :=
  let description := str_or_empty description in
  let text := lower description in
  let text :=
    match topics with
    | Some [] | None => text
    | Some topics => text ++ lit " " ++ lower (join (lit " ") topics)
    end in
  if truthy_opt_str readme
  then text ++ lit " " ++ List.firstn 2000 (lower (str_or_empty readme))
  else text.

Definition categorize_repo (description : option str) (topics : option (list str))
  (readme : option str) : str :=
  let text := category_text description topics readme in
  let scores := category_scores CATEGORY_KEYWORDS text [] in
  match scores with
  | [] => lit "other"
  | first :: rest => max_from first rest
  end.

(** The text [detect_commercial_signals] scans. *)
Definition commercial_text (description readme : option str) : str :=
  let text := [] in
  let text :=
    if truthy_opt_str description
    then text ++ lower (str_or_empty description) ++ lit " "
    else text in
  if truthy_opt_str readme
  then text ++ List.firstn 5000 (lower (str_or_empty readme)) ++ lit " "
  else text.

Definition detect_commercial_signals (description readme homepage : option str) : signals :=
  let text := commercial_text description readme in
  let score := 0 in
  (* pricing / commercial indicators *)
  let has_pricing := List.existsb (fun kw => contains kw text) pricing_keywords in
  let score := if has_pricing then score + 2 else score in
  (* enterprise features *)
  let enterprise_count := keyword_score enterprise_keywords text in
  let has_enterprise := 2 <=? enterprise_count in
  let score := if has_enterprise then score + 3 else score in
  (* cloud / hosted offering *)
  let has_cloud := List.existsb (fun kw => contains kw text) cloud_keywords in
  let score := if has_cloud then score + 2 else score in
  (* company indicators *)
  let has_company := List.existsb (fun kw => contains kw text) company_keywords in
  let score := if has_company then score + 2 else score in
  (* documentation site *)
  let has_docs_site :=
    if truthy_opt_str homepage then
      let homepage_lower := lower (str_or_empty homepage) in
      truthy_str homepage_lower && negb (contains (lit "github.com") homepage_lower)
    else false in
  let score := if has_docs_site then score + 1 else score in
  {| has_company := has_company;
     has_pricing := has_pricing;
     has_enterprise := has_enterprise;
     has_cloud := has_cloud;
     has_docs_site := has_docs_site;
     commercial_score := score |}.

(** The [created_date] both scorers compute at the head of a [try] block. *)
Definition parse_created (created_at : created_arg) : py datetime :=
  match created_at with
  | CreatedStr s =>
      match fromisoformat (replace_char 90 (lit "+00:00") s) with
      | Some d => Ret d
      | None => Exc ValueError
      end
  | CreatedDatetime d => Ret d
  end.

(** ** calculate_investability_score *)

(** Base traction from stars (up to 15 points). *)
Definition star_points (stars : Z) : Z :=
  if 10000 <=? stars then 15
  else if 5000 <=? stars then 12
  else if 1000 <=? stars then 9
  else if 500 <=? stars then 6
  else 0.

(** Downloads / usage (up to 20 points). *)
Definition download_points (downloads : Z) : Z :=
  if 100000 <=? downloads then 20
  else if 10000 <=? downloads then 15
  else if 1000 <=? downloads then 10
  else if 0 <? downloads then 5
  else 0.

(** Dependents (up to 25 points). *)
Definition dependent_points (dependents : Z) : Z :=
  if 500 <=? dependents then 25
  else if 100 <=? dependents then 20
  else if 50 <=? dependents then 15
  else if 10 <=? dependents then 10
  else if 0 <? dependents then 5
  else 0.

(** Team size (up to 10 points). *)
Definition contributor_points (contributors : Z) : Z :=
  if 50 <=? contributors then 10
  else if 20 <=? contributors then 7
  else if 5 <=? contributors then 5
  else if 1 <? contributors then 2
  else 0.

(** Activity: PRs and commits (up to 10 points). *)
Definition activity_points (prs commits : Z) : Z :=
  if (50 <=? prs) || (200 <=? commits) then 10
  else if (20 <=? prs) || (100 <=? commits) then 7
  else if (5 <=? prs) || (30 <=? commits) then 4
  else 0.

(** Growth / velocity, read from the growth dictionary when one is given. *)
Definition growth_points (growth_metrics : option Database.growth_dict) : Z :=
  match growth_metrics with
  | None => 0
  | Some g =>
      let stars_mom := float_or_zero (Database.stars_mom g) in
      let acceleration := float_or_zero (Database.stars_acceleration g) in
      let downloads_mom := float_or_zero (Database.downloads_mom g) in
      (if (100 <=? stars_mom)%float then 12
       else if (50 <=? stars_mom)%float then 10
       else if (20 <=? stars_mom)%float then 7
       else if (10 <=? stars_mom)%float then 4
       else 0)
      +
      (if (10 <? acceleration)%float then 8
       else if (5 <? acceleration)%float then 6
       else if (0 <? acceleration)%float then 3
       else 0)
      +
      (if (50 <=? downloads_mom)%float then 5
       else if (20 <=? downloads_mom)%float then 3
       else 0)
  end.

(** [funding_status in ('unknown', 'unfunded')]. *)
Definition unknown_or_unfunded (funding_status : option str) : bool :=
  match funding_status with
  | Some f => str_eqb f (lit "unknown") || str_eqb f (lit "unfunded")
  | None => false
  end.

(** Funding gap bonus (up to 5 points). *)
Definition funding_gap_points (funding_status : option str) (stars downloads : Z) : Z :=
  match funding_status with
  | Some f =>
      if str_eqb f (lit "unfunded") || str_eqb f (lit "unknown") then
        if (5000 <=? stars) || (10000 <=? downloads) then 5
        else if 1000 <=? stars then 3
        else 0
      else 0
  | None => 0
  end.

(** Hot category bonus. *)
Definition hot_category_points (category : option str) : Z :=
  match category with
  | Some c => if List.existsb (str_eqb c) hot_categories then 5 else 0
  | None => 0
  end.

(** Non-investable repo penalty, guarded by [if repo_name and description]. *)
Definition non_investable_penalty (repo_name description : option str) : Z :=
  if truthy_opt_str repo_name && truthy_opt_str description then
    let '(is_non_inv, reason) :=
      is_non_investable_repo (str_or_empty repo_name) description in
    if is_non_inv then -30 else 0
  else 0.

(** Single maintainer with low activity penalty. *)
Definition single_maintainer_penalty (contributors prs commits : Z) : Z :=
  if (contributors <=? 1) && (prs <? 5) && (commits <? 20) then -15 else 0.

(** Old unfunded project penalty: the first [try] block. The first
    statement that computes [age_days] reads [.days] of a [datetime] when
    [created_date] is timezone-aware, which raises [AttributeError]. *)
Definition age_penalty (utcnow : Z) (funding_status : option str)
  (created_at : option created_arg) : Z :=
  match created_at with
  | Some c =>
      if truthy_created created_at && unknown_or_unfunded funding_status then
        try_except_pass
          (created_date <- parse_created c ;;
           _ <- match tzinfo created_date with
                | Some _ => Exc AttributeError
                | None => Ret tt
                end ;;
           let age_days := days_between utcnow created_date in
           Ret (if 730 <? age_days then -10
                else if 1095 <? age_days then -15
                else 0))
          0
      else 0
  | None => 0
  end.

(** Recency bonus for young breakout projects: the second [try] block. *)
Definition recency_bonus (utcnow : Z) (metrics : metrics)
  (created_at : option created_arg) : Z :=
  match created_at with
  | Some c =>
      if truthy_created created_at then
        try_except_pass
          (created_date <- parse_created c ;;
           let age_days := days_between utcnow created_date in
           let stars := int_or_zero (m_stars metrics) in
           let dependents := int_or_zero (m_dependents metrics) in
           Ret (if age_days <? 180 then
                  if (1000 <=? stars) || (20 <=? dependents) then 10
                  else if (500 <=? stars) || (10 <=? dependents) then 5
                  else 0
                else 0))
          0
      else 0
  | None => 0
  end.

(** The value of [score] just before the final clamp. [utcnow1] and
    [utcnow2] are the two readings of [datetime.utcnow()] the call makes. *)
Definition investability_points (utcnow1 utcnow2 : Z) (metrics : metrics)
  (growth_metrics : option Database.growth_dict) (funding_status category : option str)
  (repo_name description : option str) (created_at : option created_arg) : Z :=
  let score := 0 in
  let stars := int_or_zero (m_stars metrics) in
  let score := score + star_points stars in
  let downloads := int_or_zero (m_downloads metrics) in
  let score := score + download_points downloads in
  let dependents := int_or_zero (m_dependents metrics) in
  let score := score + dependent_points dependents in
  let contributors := int_or_zero (m_contributors metrics) in
  let score := score + contributor_points contributors in
  let prs := int_or_zero (m_prs_30d metrics) in
  let commits := int_or_zero (m_commits_3mo metrics) in
  let score := score + activity_points prs commits in
  let score := score + growth_points growth_metrics in
  let score := score + funding_gap_points funding_status stars downloads in
  let score := score + hot_category_points category in
  let score := score + non_investable_penalty repo_name description in
  let score := score + single_maintainer_penalty contributors prs commits in
  let score := score + age_penalty utcnow1 funding_status created_at in
  let score := score + recency_bonus utcnow2 metrics created_at in
  score.

Definition calculate_investability_score (utcnow1 utcnow2 : Z) (metrics : metrics)
  (growth_metrics : option Database.growth_dict) (funding_status category : option str)
  (repo_name description : option str) (created_at : option created_arg) : Z :=
  let max_score := 100 in
  Z.max 0 (Z.min
    (investability_points utcnow1 utcnow2 metrics growth_metrics funding_status
       category repo_name description created_at)
    max_score).

(** ** calculate_series_a_fit *)

Definition star_range_points (stars : Z) : Z :=
  if (1000 <=? stars) && (stars <=? 30000) then 15
  else if (500 <=? stars) && (stars <? 1000) then 10
  else if (30000 <? stars) && (stars <=? 50000) then 5
  else if 50000 <? stars then -15
  else if stars <? 200 then -10
  else 0.

Definition team_size_points (contributors : Z) : Z :=
  if (5 <=? contributors) && (contributors <=? 50) then 10
  else if 50 <? contributors then 5
  else if contributors <=? 2 then -15
  else 0.

Definition usage_points (dependents downloads : Z) : Z :=
  if (50 <=? dependents) || (10000 <=? downloads) then 15
  else if (10 <=? dependents) || (1000 <=? downloads) then 10
  else if (0 <? dependents) || (0 <? downloads) then 5
  else 0.

(** Age sweet spot, in months of 30 days: the [try] block. *)
Definition age_points (utcnow : Z) (created_at : option created_arg) : Z :=
  match created_at with
  | Some c =>
      if truthy_created created_at then
        try_except_pass
          (created_date <- parse_created c ;;
           let age_days := days_between utcnow created_date in
           age_months <- int_true_divide age_days 30 ;;
           Ret (if (6 <=? age_months)%float && (age_months <=? 24)%float then 10
                else if (3 <=? age_months)%float && (age_months <? 6)%float then 5
                else if (24 <? age_months)%float && (age_months <=? 36)%float then 0
                else if (36 <? age_months)%float then -10
                else 0))
          0
      else 0
  | None => 0
  end.

Definition funding_points (funding_status : option str) : Z :=
  match funding_status with
  | Some f =>
      if str_eqb f (lit "seed") then 15
      else if str_eqb f (lit "unknown") then 10
      else if List.existsb (str_eqb f)
                (List.map lit ["series-a"; "series-b"; "series-c"; "series-d"]%string)
      then -20
      else 0
  | None => 0
  end.

Definition commercial_points (commercial_signals : option signals) : Z :=
  match commercial_signals with
  | Some cs =>
      commercial_score cs
      + (if has_pricing cs then 5 else 0)
      + (if has_enterprise cs then 5 else 0)
  | None => 0
  end.

(** The value of [score] just before the final clamp. *)
Definition series_a_points (utcnow : Z) (metrics : metrics) (funding_status : option str)
  (created_at : option created_arg) (commercial_signals : option signals) : Z :=
  let score := 50 in
  let stars := int_or_zero (m_stars metrics) in
  let contributors := int_or_zero (m_contributors metrics) in
  let dependents := int_or_zero (m_dependents metrics) in
  let downloads := int_or_zero (m_downloads metrics) in
  let score := score + star_range_points stars in
  let score := score + team_size_points contributors in
  let score := score + usage_points dependents downloads in
  let score := score + age_points utcnow created_at in
  let score := score + funding_points funding_status in
  let score := score + commercial_points commercial_signals in
  score.

Definition calculate_series_a_fit (utcnow : Z) (metrics : metrics)
  (funding_status : option str) (created_at : option created_arg)
  (commercial_signals : option signals) : Z :=
  Z.max 0 (Z.min 100
    (series_a_points utcnow metrics funding_status created_at commercial_signals)).

(** ** is_big_tech, detect_funding_status *)

(** The set [BIG_TECH_ORGS], as the list of its members. *)
Definition BIG_TECH_ORGS : list str := List.map lit [
  "microsoft"; "google"; "facebook"; "meta"; "amazon"; "apple"; "netflix";
  "alphabet"; "aws"; "azure"; "googlecloud";
  "googlechrome"; "chromedevtools"; "chromium"; "googleapis"; "googlefonts";
  "googlecloudplatform"; "google-research"; "tensorflow"; "angular";
  "microsoftdocs"; "dotnet"; "azure-samples"; "vscode"; "typescript";
  "oracle"; "ibm"; "salesforce"; "adobe"; "vmware"; "cisco"; "intel";
  "nvidia"; "amd"; "qualcomm"; "samsung"; "huawei"; "alibaba"; "tencent";
  "baidu"; "bytedance"; "jd"; "meituan";
  "samsungsailmontreal"; "samsungresearch";
  "uber"; "lyft"; "airbnb"; "stripe"; "paypal"; "square"; "block";
  "twitter"; "x"; "snap"; "snapchat"; "pinterest"; "linkedin";
  "spotify"; "dropbox"; "slack"; "zoom"; "twilio"; "datadog";
  "snowflake"; "databricks"; "confluent"; "mongodb"; "elastic";
  "digitalocean"; "cloudflare"; "fastly"; "vercel"; "netlify";
  "github"; "gitlab"; "atlassian"; "jetbrains"; "hashicorp";
  "openai"; "anthropic"; "anthropics"; "deepmind"; "cohere";
  "deepseek-ai"; "qwenlm"; "mistralai";
  "tongyi-mai"; "alibabaresearch";
  "redhat"; "canonical"; "suse"; "cloudera"; "palantir"; "splunk"
]%string.

Definition is_big_tech (owner : str) : bool :=
  List.existsb (str_eqb (lower owner)) BIG_TECH_ORGS.

(** The dictionary [known_funded]: owner to (status, amount, source). *)
Definition known_funded : list (str * (str * str * str)) :=
  List.map (fun e => (lit (fst e),
                      (lit (fst (fst (snd e))), lit (snd (fst (snd e))), lit (snd (snd e)))))
  [ ("langchain-ai", ("series-a", "$25M", "Sequoia"));
    ("huggingface", ("series-d", "$235M", "Known"));
    ("vercel", ("series-d", "$250M", "Known"));
    ("supabase", ("series-c", "$116M", "Known"));
    ("prisma", ("series-b", "$40M", "Known"));
    ("planetscale", ("series-c", "$50M", "Known"));
    ("neon", ("series-b", "$104M", "Known"));
    ("airbyte", ("series-b", "$150M", "Known"));
    ("temporal", ("series-b", "$103M", "Known"));
    ("dagster", ("series-b", "$33M", "Known"));
    ("prefect", ("series-b", "$32M", "Known"));
    ("posthog", ("series-b", "$15M", "Known"));
    ("cal.com", ("series-a", "$25M", "Known"));
    ("dagger", ("series-a", "$20M", "Known"));
    ("infisical", ("seed", "$2.8M", "Known"));
    ("trigger.dev", ("seed", "$3M", "Known"));
    ("composio", ("seed", "$2M", "Known")) ]%string.

(** [known_funded[key]] when [key in known_funded]. *)
Definition known_funded_get (key : str) : option (str * str * str) :=
  match List.find (fun e => str_eqb (fst e) key) known_funded with
  | Some e => Some (snd e)
  | None => None
  end.

(** Returns (status, amount, source). *)
Definition detect_funding_status (owner repo : str) (description : option str)
  : str * option str * option str :=
  let owner_lower := lower owner in
  match known_funded_get owner_lower with
  | Some (status, amount, source) => (status, Some amount, Some source)
  | None =>
      let yc :=
        if truthy_opt_str description then
          let desc_lower := lower (str_or_empty description) in
          contains (lit "y combinator") desc_lower || contains (lit "(yc") desc_lower
        else false in
      if yc then (lit "seed", Some (lit "YC-backed"), Some (lit "YC"))
      else (lit "unknown", None, None)
  end.

(** ** enrich_repo_data *)

(** The keys of [repo_data] that [enrich_repo_data] reads; [rd_metrics]
    stands for the metric keys the scorers read from the same dictionary. *)
Record repo_data := {
  rd_owner : str;
  rd_name : str;
  rd_description : option str;
  rd_readme : option str;
  rd_topics : option (list str);
  rd_homepage : option str;
  rd_growth_metrics : option Database.growth_dict;
  rd_created_at : option created_arg;
  rd_metrics : metrics
}.

(** The keys [enrich_repo_data] sets. *)
Record enriched := {
  e_is_big_tech : bool;
  e_readme : option str;
  e_category : str;
  e_funding_status : str;
  e_funding_amount : option str;
  e_funding_source : option str;
  e_is_non_investable : bool;
  e_non_investable_reason : option str;
  e_commercial_signals : signals;
  e_commercial_score : Z;
  e_has_pricing : bool;
  e_has_enterprise : bool;
  e_investability_score : Z;
  e_series_a_fit : Z
}.

(** [fetched_readme] is what [get_repo_readme] returns if it is called;
    [utcnow1], [utcnow2] and [utcnow3] are the readings of the UTC clock the
    two scorers make. *)
Definition enrich_repo_data (fetched_readme : option str) (utcnow1 utcnow2 utcnow3 : Z)
  (repo_data : repo_data) : enriched :=
  let owner := rd_owner repo_data in
  let name := rd_name repo_data in
  let description := rd_description repo_data in
  let big := is_big_tech owner in
  let readme :=
    if truthy_opt_str (rd_readme repo_data) then rd_readme repo_data
    else fetched_readme in
  let topics := rd_topics repo_data in
  let category := categorize_repo description topics readme in
  let '(funding_status, funding_amount, funding_source) :=
    detect_funding_status owner name description in
  let '(is_non_inv, non_inv_reason) := is_non_investable_repo name description in
  let homepage := rd_homepage repo_data in
  let commercial_signals := detect_commercial_signals description readme homepage in
  let investability :=
    calculate_investability_score utcnow1 utcnow2 (rd_metrics repo_data)
      (rd_growth_metrics repo_data) (Some funding_status) (Some category)
      (Some name) description (rd_created_at repo_data) in
  let series_a :=
    calculate_series_a_fit utcnow3 (rd_metrics repo_data) (Some funding_status)
      (rd_created_at repo_data) (Some commercial_signals) in
  {| e_is_big_tech := big;
     e_readme := readme;
     e_category := category;
     e_funding_status := funding_status;
     e_funding_amount := funding_amount;
     e_funding_source := funding_source;
     e_is_non_investable := is_non_inv;
     e_non_investable_reason := non_inv_reason;
     e_commercial_signals := commercial_signals;
     e_commercial_score := commercial_score commercial_signals;
     e_has_pricing := has_pricing commercial_signals;
     e_has_enterprise := has_enterprise commercial_signals;
     e_investability_score := investability;
     e_series_a_fit := series_a |}.

End Runtime.

End Analysis.

(** * dashboard_v2.py: analyze_and_store_repo *)

Module Dashboard.
Import Database Analysis.

(** A Python number: the traction score is an [int] until a download count
    is divided into it, and a [float] from then on. *)
Inductive num :=
| Int (z : Z)
| Float (f : float).

(** [float(z)] as an addition of an [int] to a [float] performs it:
    correctly rounded, [OverflowError] beyond the float range. *)
Definition float_of_int (z : Z) : py float :=
  if Z.abs z <? 2 ^ 53 then Ret (float_of_small z)
  else
    let f := nearest_float (z <? 0) (Z.abs z) 1 in
    if is_infinity f then Exc OverflowError else Ret f.

Definition num_add (a b : num) : py num :=
  match a, b with
  | Int x, Int y => Ret (Int (x + y))
  | Int x, Float g => f <- float_of_int x ;; Ret (Float (f + g)%float)
  | Float f, Int y => g <- float_of_int y ;; Ret (Float (f + g)%float)
  | Float f, Float g => Ret (Float (f + g)%float)
  end.

(** [int(x)]: truncation toward zero. *)
Definition int_of_num (x : num) : py Z :=
  match x with
  | Int z => Ret z
  | Float f =>
      match Prim2SF f with
      | S754_nan => Exc ValueError
      | S754_infinity _ => Exc OverflowError
      | S754_zero _ => Ret 0
      | S754_finite s m e =>
          let a := if 0 <=? e then Zpos m * 2 ^ e else Zpos m / 2 ^ (- e) in
          Ret (if s then - a else a)
      end
  end.

(** [if v: score += v * weight] for an optional integer [v]. *)
Definition add_weighted (v : option Z) (weight : Z) (score : num) : py num :=
  match v with
  | Some v => if v =? 0 then Ret score else num_add score (Int (v * weight))
  | None => Ret score
  end.

(** The traction score computed at the end of [analyze_and_store_repo]. *)
Definition traction_score (metrics : metrics) : py Z :=
  let score := Int 0 in
  score <- add_weighted (m_dependents metrics) 10 score ;;
  score <-
    match m_downloads metrics with
    | Some d =>
        if d =? 0 then Ret score
        else q <- int_true_divide d 100 ;; num_add score (Float q)
    | None => Ret score
    end ;;
  score <- add_weighted (m_commits_3mo metrics) 5 score ;;
  score <- add_weighted (m_contributors metrics) 20 score ;;
  score <- add_weighted (m_prs_30d metrics) 50 score ;;
  int_of_num score.

(** The clock readings of one run, in the order the calls make them. *)
Record run_clocks := {
  c_enrich1 : Z;
  c_enrich2 : Z;
  c_enrich3 : Z;
  c_repo : repo_clock;
  c_snapshot : clock;
  c_metadata : repo_clock;
  c_growth : clock
}.

(** The database: table [repos] and the two metric tables. *)
Record store := {
  st_repos : repos_table;
  st_db : db
}.

(** What the run returns: the keys set by the enrichment, the growth
    record, and the final values of [investability_score] and
    [traction_score]. *)
Record analysis := {
  a_repo_id : Z;
  a_enriched : enriched;
  a_growth : option growth_dict;
  a_investability_score : Z;
  a_traction_score : Z
}.

Section Runtime.

Variable lower : str -> str.
Variable fromisoformat : str -> option datetime.

(** [analyze_and_store_repo] from [metrics = enrich_repo_data(metrics)] on.
    The metric record assembled from the network before that line is the
    argument [fetched], with its [language]; [fetched_readme] is the README
    the enrichment downloads. The second call of the investability scorer
    passes no creation date and reads no clock. *)
Definition analyze_and_store_repo (clk : run_clocks) (fetched_readme : option str)
  (fetched : repo_data) (language : option str) (st : store) : py (analysis * store) :=
  let owner := rd_owner fetched in
  let name := rd_name fetched in
  let metrics := rd_metrics fetched in
  (* Enrich with analysis *)
  let e := enrich_repo_data lower fromisoformat fetched_readme
             (c_enrich1 clk) (c_enrich2 clk) (c_enrich3 clk) fetched in
  (* Store in database *)
  let '(repo_id, repos1) :=
    get_or_create_repo (c_repo clk) owner name (rd_description fetched) language
      (st_repos st) in
  let db1 := save_snapshot (c_snapshot clk) repo_id metrics (st_db st) in
  (* Save metadata to repos table *)
  let repos2 :=
    update_repo_metadata (c_metadata clk) repo_id
      (Some (e_category e)) (Some (e_funding_status e)) (e_funding_amount e)
      (Some (e_is_big_tech e)) (rd_description fetched) language repos1 in
  (* Calculate growth metrics *)
  r <- calculate_growth_metrics (c_growth clk) repo_id db1 ;;
  let '(growth, db2) := r in
  let investability :=
    match growth with
    | Some g =>
        calculate_investability_score lower fromisoformat (c_enrich1 clk) (c_enrich2 clk)
          metrics (Some g) (Some (e_funding_status e)) (Some (e_category e))
          None None None
    | None => e_investability_score e
    end in
  (* Calculate traction score *)
  traction <- traction_score metrics ;;
  (* Save scores to growth_metrics table *)
  let db3 := update_growth_scores repo_id traction investability db2 in
  Ret ({| a_repo_id := repo_id;
          a_enriched := e;
          a_growth := growth;
          a_investability_score := investability;
          a_traction_score := traction |},
       {| st_repos := repos2; st_db := db3 |}).

End Runtime.

End Dashboard.

(** The week-over-week star growth as of day [d], in the words of the
    specification: the snapshot nearest on or before [d] compared against the
    snapshot nearest on or before [d - 7]; undefined when either is missing. *)
Definition spec_stars_wow (t : Database.db) (repo_id : Z) (d : Database.date)
  : py (option float) :=
  match Database.get_snapshot_near t repo_id d,
        Database.get_snapshot_near t repo_id (d - 7) with
  | Some a, Some b => Database.calculate_growth_rate (Database.s_stars a) (Database.s_stars b)
  | _, _ => Ret None
  end.

(** The snapshot nearest on or before [d], stated on the table. *)
Definition nearest_on_or_before (t : Database.db) (repo_id : Z) (d : Database.date)
  (o : option Database.snapshot_row) : Prop :=
  match o with
  | Some r =>
      In r (Database.snapshots t) /\ Database.s_repo_id r = repo_id /\
      Database.s_snapshot_date r <= d /\
      forall r', In r' (Database.snapshots t) -> Database.s_repo_id r' = repo_id ->
                 Database.s_snapshot_date r' <= d ->
                 Database.s_snapshot_date r' <= Database.s_snapshot_date r
  | None =>
      forall r', In r' (Database.snapshots t) -> Database.s_repo_id r' = repo_id ->
                 ~ Database.s_snapshot_date r' <= d
  end.

(** A metric value that fits the float mantissa with room for a difference. *)
Definition small (o : option Z) : Prop :=
  forall v, o = Some v -> Z.abs v < 2 ^ 52.

(** Every tracked metric of every stored snapshot is [small]. *)
Definition small_metrics (t : Database.db) : Prop :=
  Forall (fun r => small (Database.s_stars r) /\ small (Database.s_forks r) /\
                   small (Database.s_downloads r) /\ small (Database.s_contributors r))
         (Database.snapshots t).

(** The entries [categorize_repo] stores in [scores]: the categories with a
    positive score, in the order of the table. *)
Definition positive_scores (table : list (str * list str)) (text : str) : Analysis.dict :=
  List.flat_map
    (fun ck =>
       if 0 <? Analysis.keyword_score (snd ck) text
       then [(fst ck, Analysis.keyword_score (snd ck) text)]
       else [])
    table.

(** The (entity, date) keys of the two metric tables, and the UNIQUE
    constraints of the schema as a property of a database value. *)
Definition snapshot_keys (t : Database.db) : list (Z * Z) :=
  List.map (fun r => (Database.s_repo_id r, Database.s_snapshot_date r))
    (Database.snapshots t).

Definition growth_keys (t : Database.db) : list (Z * Z) :=
  List.map (fun r => (Database.g_repo_id r, Database.g_calculated_at r))
    (Database.growth_metrics t).

Definition unique_keys (t : Database.db) : Prop :=
  NoDup (snapshot_keys t) /\ NoDup (growth_keys t).

(** The row [INSERT OR REPLACE INTO growth_metrics] writes for a record. *)
Definition growth_row_of (id : Z) (g : Database.growth_dict) : Database.growth_row :=
  {| Database.g_id := id;
     Database.g_repo_id := Database.repo_id_of g;
     Database.g_calculated_at := Database.calculated_at g;
     Database.g_stars_wow := Database.sql_real (Database.stars_wow g);
     Database.g_stars_mom := Database.sql_real (Database.stars_mom g);
     Database.g_stars_acceleration := Database.sql_real (Database.stars_acceleration g);
     Database.g_forks_wow := Database.sql_real (Database.forks_wow g);
     Database.g_forks_mom := Database.sql_real (Database.forks_mom g);
     Database.g_downloads_wow := Database.sql_real (Database.downloads_wow g);
     Database.g_downloads_mom := Database.sql_real (Database.downloads_mom g);
     Database.g_contributors_wow := Database.sql_real (Database.contributors_wow g);
     Database.g_contributors_mom := Database.sql_real (Database.contributors_mom g);
     Database.g_traction_score := None;
     Database.g_investability_score := None |}.

(** Snapshots in ascending date order, weakly and strictly. *)
Definition date_le (a b : Database.snapshot_row) : Prop :=
  Database.s_snapshot_date a <= Database.s_snapshot_date b.

Definition date_lt (a b : Database.snapshot_row) : Prop :=
  Database.s_snapshot_date a < Database.s_snapshot_date b.

(** The constraints of table [repos]: UNIQUE full names, distinct ids, and
    ids handed out below the AUTOINCREMENT counter. *)
Definition unique_repos (t : Database.repos_table) : Prop :=
  NoDup (List.map Database.r_full_name (Database.repos t)) /\
  NoDup (List.map Database.r_id (Database.repos t)) /\
  (forall r, In r (Database.repos t) -> Database.r_id r <= Database.repos_seq t).

Definition sample_repo_clock : Database.repo_clock :=
  {| Database.now := 1700000100; Database.sql_timestamp := 1700000000 |}.

Definition empty_repos : Database.repos_table :=
  {| Database.repos := []; Database.repos_seq := 0 |}.

(** Table [repos] after the first sight of [acme/db]. *)
Definition sample_repos : Database.repos_table :=
  snd (Database.get_or_create_repo sample_repo_clock (lit "acme") (lit "db")
         (Some (lit "A database")) None empty_repos).

(** The closed sets of category names and of funding stages that the
    classifiers can answer. *)
Definition category_names : list str :=
  List.map lit ["ai-ml"; "devtools"; "infrastructure"; "data"; "security";
                "observability"; "frontend"; "backend"; "fintech"; "other"]%string.

Definition detected_stages : list str :=
  List.map lit ["seed"; "series-a"; "series-b"; "series-c"; "series-d"; "unknown"]%string.

(** One metric record is at most another, key by key, on the keys the
    investability scorer reads. *)
Definition metrics_le (a b : metrics) : Prop :=
  int_or_zero (m_stars a) <= int_or_zero (m_stars b) /\
  int_or_zero (m_downloads a) <= int_or_zero (m_downloads b) /\
  int_or_zero (m_dependents a) <= int_or_zero (m_dependents b) /\
  int_or_zero (m_contributors a) <= int_or_zero (m_contributors b) /\
  int_or_zero (m_prs_30d a) <= int_or_zero (m_prs_30d b) /\
  int_or_zero (m_commits_3mo a) <= int_or_zero (m_commits_3mo b).

(** The tracked metrics of a fetched record fit the float mantissa, and the
    record has no download count. *)
Definition small_record (m : metrics) : Prop :=
  small (m_stars m) /\ small (m_forks m) /\ small (m_downloads m) /\
  small (m_contributors m).

Definition no_downloads (m : metrics) : Prop :=
  m_downloads m = None \/ m_downloads m = Some 0.

(** ** Sample data *)

Definition sample_clock : Database.clock :=
  {| Database.today := 739000; Database.current_timestamp := 1700000000 |}.

Definition sample_snapshot (id : Z) (d : Database.date) (stars : Z) : Database.snapshot_row :=
  {| Database.s_id := id; Database.s_repo_id := 1; Database.s_snapshot_date := d;
     Database.s_stars := Some stars; Database.s_forks := Some 10;
     Database.s_contributors := Some 4; Database.s_dependents := None;
     Database.s_downloads := Some 0; Database.s_download_source := None;
     Database.s_open_issues := None; Database.s_commits_30d := None;
     Database.s_prs_30d := None; Database.s_issues_30d := None;
     Database.s_watchers := None; Database.s_created_at := 0 |}.

(** A growth record for today that already carries both scores. *)
Definition sample_growth_row : Database.growth_row :=
  {| Database.g_id := 1; Database.g_repo_id := 1; Database.g_calculated_at := 739000;
     Database.g_stars_wow := None; Database.g_stars_mom := None;
     Database.g_stars_acceleration := None; Database.g_forks_wow := None;
     Database.g_forks_mom := None; Database.g_downloads_wow := None;
     Database.g_downloads_mom := None; Database.g_contributors_wow := None;
     Database.g_contributors_mom := None;
     Database.g_traction_score := Some 500; Database.g_investability_score := Some 42 |}.

(** Stars 1000, 1080 and 1296 two weeks ago, a week ago and today: a
    week-over-week growth of 8.0 followed by one of 20.0. *)
Definition sample_db : Database.db :=
  {| Database.snapshots :=
       [sample_snapshot 1 738986 1000; sample_snapshot 2 738993 1080;
        sample_snapshot 3 739000 1296];
     Database.snapshots_seq := 3;
     Database.growth_metrics := [sample_growth_row];
     Database.growth_metrics_seq := 1 |}.

(** An unfunded project with 10000 stars and five contributors. *)
Definition sample_metrics : metrics :=
  {| m_stars := Some 10000; m_forks := Some 800; m_contributors := Some 5;
     m_dependents := None; m_downloads := None; m_download_source := None;
     m_commits_3mo := None; m_prs_30d := None; m_issues_30d := None |}.

(** A reading of the UTC clock, in microseconds, and creation dates 1200
    and 800 days before it, without and with a timezone. *)
Definition sample_utcnow : Z := 63900000000 * 1000000.

Definition created_days_ago (days : Z) (tz : option Z) : Analysis.datetime :=
  {| Analysis.wall := sample_utcnow - days * 86400000000; Analysis.tzinfo := tz |}.

(** A parser that knows no string: every string raises [ValueError]. *)
Definition no_fromisoformat (s : str) : option Analysis.datetime := None.

(** Metrics at the top of every bucket, with growth to match. *)
Definition top_metrics : metrics :=
  {| m_stars := Some 20000; m_forks := None; m_contributors := Some 60;
     m_dependents := Some 600; m_downloads := Some 200000; m_download_source := None;
     m_commits_3mo := Some 300; m_prs_30d := Some 60; m_issues_30d := None |}.

Definition top_growth : Database.growth_dict :=
  {| Database.repo_id_of := 1; Database.calculated_at := 739000;
     Database.stars_wow := None; Database.stars_mom := Some 150%float;
     Database.stars_acceleration := Some 11%float;
     Database.forks_wow := None; Database.forks_mom := None;
     Database.downloads_wow := None; Database.downloads_mom := Some 60%float;
     Database.contributors_wow := None; Database.contributors_mom := None |}.

Definition no_metrics : metrics :=
  {| m_stars := None; m_forks := None; m_contributors := None;
     m_dependents := None; m_downloads := None; m_download_source := None;
     m_commits_3mo := None; m_prs_30d := None; m_issues_30d := None |}.

(** The snapshot [save_snapshot] writes under id [id]. *)
Definition sample_snapshot_of (clk : Database.clock) (id repo_id : Z) (m : metrics)
  : Database.snapshot_row :=
  {| Database.s_id := id; Database.s_repo_id := repo_id;
     Database.s_snapshot_date := Database.today clk;
     Database.s_stars := m_stars m; Database.s_forks := m_forks m;
     Database.s_contributors := m_contributors m;
     Database.s_dependents := m_dependents m;
     Database.s_downloads := m_downloads m;
     Database.s_download_source := m_download_source m;
     Database.s_open_issues := None; Database.s_commits_30d := m_commits_3mo m;
     Database.s_prs_30d := m_prs_30d m; Database.s_issues_30d := m_issues_30d m;
     Database.s_watchers := None;
     Database.s_created_at := Database.current_timestamp clk |}.

(** A fetched record for [acme/db], and the clocks of a run on day 739003. *)
Definition sample_fetched : Analysis.repo_data :=
  {| Analysis.rd_owner := lit "acme"; Analysis.rd_name := lit "awesome-db";
     Analysis.rd_description := Some (lit "A curated list of databases");
     Analysis.rd_readme := Some (lit "Readme");
     Analysis.rd_topics := None; Analysis.rd_homepage := None;
     Analysis.rd_growth_metrics := None; Analysis.rd_created_at := None;
     Analysis.rd_metrics := sample_metrics |}.

Definition sample_run_clocks : Dashboard.run_clocks :=
  {| Dashboard.c_enrich1 := sample_utcnow; Dashboard.c_enrich2 := sample_utcnow;
     Dashboard.c_enrich3 := sample_utcnow;
     Dashboard.c_repo := sample_repo_clock;
     Dashboard.c_snapshot :=
       {| Database.today := 739003; Database.current_timestamp := 1700000200 |};
     Dashboard.c_metadata := sample_repo_clock;
     Dashboard.c_growth :=
       {| Database.today := 739003; Database.current_timestamp := 1700000300 |} |}.

Definition sample_store : Dashboard.store :=
  {| Dashboard.st_repos := empty_repos; Dashboard.st_db := sample_db |}.

(** * Properties of the snapshot ledger and the growth calculator *)

Section DatabaseProperties.
Import Database.

Lemma filter_negb_disjoint {A} (f : A -> bool) (l : list A) :
  filter f (filter (fun x => negb (f x)) l) = [].
Proof.
  induction l as [|x l IH]; simpl; auto.
  destruct (f x) eqn:E; simpl; auto.
  rewrite E. exact IH.
Qed.

Lemma filter_negb_frame {A} (f g : A -> bool) (l : list A) :
  (forall x, g x = true -> f x = false) ->
  filter g (filter (fun x => negb (f x)) l) = filter g l.
Proof.
  intros H. induction l as [|x l IH]; simpl; auto.
  destruct (f x) eqn:E; simpl.
  - destruct (g x) eqn:G; auto. apply H in G. congruence.
  - rewrite IH. reflexivity.
Qed.

Lemma snapshot_key_refl (repo_id : Z) (d : date) (r : snapshot_row) :
  s_repo_id r = repo_id -> s_snapshot_date r = d -> snapshot_key repo_id d r = true.
Proof.
  intros <- <-. unfold snapshot_key. now rewrite !Z.eqb_refl.
Qed.

Lemma snapshot_key_other (repo_id repo_id' : Z) (d d' : date) (r : snapshot_row) :
  (repo_id', d') <> (repo_id, d) ->
  snapshot_key repo_id' d' r = true -> snapshot_key repo_id d r = false.
Proof.
  unfold snapshot_key. intros N H.
  apply andb_true_iff in H as [H1 H2].
  apply Z.eqb_eq in H1, H2.
  apply andb_false_iff.
  destruct (Z.eqb_spec (s_repo_id r) repo_id); [|now left].
  destruct (Z.eqb_spec (s_snapshot_date r) d); [|now right].
  exfalso. apply N. congruence.
Qed.

(** C1. Writing a snapshot leaves exactly one row for (entity, date), and
    that row holds the metric values just written, whatever the table held
    for that key before; rows of every other key are untouched. Hence a
    second write for the same date replaces the first. *)
Theorem save_snapshot_upsert (clk : clock) (repo_id : Z) (m : metrics) (t : db) :
  let t' := save_snapshot clk repo_id m t in
  (exists r,
      filter (snapshot_key repo_id (today clk)) (snapshots t') = [r] /\
      s_stars r = m_stars m /\ s_forks r = m_forks m /\
      s_contributors r = m_contributors m /\ s_dependents r = m_dependents m /\
      s_downloads r = m_downloads m /\ s_download_source r = m_download_source m /\
      s_commits_30d r = m_commits_3mo m /\ s_prs_30d r = m_prs_30d m /\
      s_issues_30d r = m_issues_30d m) /\
  (forall repo_id' d', (repo_id', d') <> (repo_id, today clk) ->
      filter (snapshot_key repo_id' d') (snapshots t') =
      filter (snapshot_key repo_id' d') (snapshots t)) /\
  (forall clk0 m0,
      today clk0 = today clk ->
      let t2 := save_snapshot clk repo_id m (save_snapshot clk0 repo_id m0 t) in
      List.length (filter (snapshot_key repo_id (today clk)) (snapshots t2)) = 1%nat /\
      forall r, In r (snapshots t2) -> snapshot_key repo_id (today clk) r = true ->
                s_stars r = m_stars m /\ s_forks r = m_forks m /\
                s_contributors r = m_contributors m /\ s_dependents r = m_dependents m /\
                s_downloads r = m_downloads m /\ s_download_source r = m_download_source m /\
                s_commits_30d r = m_commits_3mo m /\ s_prs_30d r = m_prs_30d m /\
                s_issues_30d r = m_issues_30d m).
Proof.
  assert (One : forall t0,
    filter (snapshot_key repo_id (today clk)) (snapshots (save_snapshot clk repo_id m t0)) =
    [ {| s_id := snapshots_seq t0 + 1; s_repo_id := repo_id;
         s_snapshot_date := today clk; s_stars := m_stars m; s_forks := m_forks m;
         s_contributors := m_contributors m; s_dependents := m_dependents m;
         s_downloads := m_downloads m; s_download_source := m_download_source m;
         s_open_issues := None; s_commits_30d := m_commits_3mo m;
         s_prs_30d := m_prs_30d m; s_issues_30d := m_issues_30d m;
         s_watchers := None; s_created_at := current_timestamp clk |} ]).
  { intros t0. unfold save_snapshot. cbn [snapshots].
    rewrite filter_app, filter_negb_disjoint. cbn [filter app].
    rewrite snapshot_key_refl by reflexivity. reflexivity. }
  cbv zeta. split; [|split].
  - eexists. split; [apply One|]. cbn. repeat split.
  - intros repo_id' d' N. unfold save_snapshot. cbn [snapshots].
    rewrite filter_app.
    rewrite filter_negb_frame by (intros x; apply snapshot_key_other; exact N).
    cbn [filter].
    destruct (snapshot_key repo_id' d' _) eqn:K.
    + exfalso. unfold snapshot_key in K. cbn in K.
      apply andb_true_iff in K as [K1 K2]. apply Z.eqb_eq in K1, K2.
      apply N. congruence.
    + apply app_nil_r.
  - intros clk0 m0 Hd. rewrite One. split; [reflexivity|].
    intros r Hin Hk.
    assert (Hf : In r (filter (snapshot_key repo_id (today clk))
                         (snapshots (save_snapshot clk repo_id m
                                       (save_snapshot clk0 repo_id m0 t))))).
    { apply filter_In. split; assumption. }
    rewrite One in Hf. destruct Hf as [<-|[]]. cbn. repeat split.
Qed.

(** The ledger holds one value per key after two writes on the same day
    with different values. *)
Lemma save_snapshot_upsert_witness :
  let clk := {| today := 738000; current_timestamp := 0 |} in
  let m0 := {| m_stars := Some 100; m_forks := None; m_contributors := None;
               m_dependents := None; m_downloads := None; m_download_source := None;
               m_commits_3mo := None; m_prs_30d := None; m_issues_30d := None |} in
  let m := {| m_stars := Some 120; m_forks := Some 3; m_contributors := None;
              m_dependents := None; m_downloads := None; m_download_source := None;
              m_commits_3mo := None; m_prs_30d := None; m_issues_30d := None |} in
  let t := {| snapshots := []; snapshots_seq := 0;
              growth_metrics := []; growth_metrics_seq := 0 |} in
  List.length (filter (snapshot_key 1 738000)
            (snapshots (save_snapshot clk 1 m (save_snapshot clk 1 m0 t)))) = 1%nat.
Proof.
  intros clk m0 m t.
  exact (proj1 (proj2 (proj2 (save_snapshot_upsert clk 1 m t)) clk m0 eq_refl)).
Defined.

(** C2. The growth rate is [None] exactly when the previous value is absent
    or zero or the current value is absent; otherwise it is the rounded
    percentage, as the expression of the source evaluates (for operands that
    fit the float mantissa the division cannot fail). *)
Theorem calculate_growth_rate_spec (current previous : option Z) :
  (calculate_growth_rate current previous = Ret None <->
   (previous = None \/ previous = Some 0 \/ current = None)) /\
  (forall c p, current = Some c -> previous = Some p -> p <> 0 ->
     calculate_growth_rate current previous =
     (q <- int_true_divide (c - p) p ;; Ret (Some (py_round2 (q * 100)%float)))) /\
  (forall c p, current = Some c -> previous = Some p -> p <> 0 ->
     Z.abs (c - p) < 2 ^ 53 -> Z.abs p < 2 ^ 53 ->
     calculate_growth_rate current previous =
     Ret (Some (py_round2 (float_of_small (c - p) / float_of_small p * 100)%float))) /\
  calculate_growth_rate (Some 120) (Some 100) = Ret (Some 20%float) /\
  calculate_growth_rate (Some 80) (Some 0) = Ret None /\
  calculate_growth_rate None (Some 100) = Ret None.
Proof.
  assert (G : forall c p, p <> 0 ->
     calculate_growth_rate (Some c) (Some p) =
     (q <- int_true_divide (c - p) p ;; Ret (Some (py_round2 (q * 100)%float)))).
  { intros c p Hp. unfold calculate_growth_rate.
    destruct (Z.eqb_spec p 0); [contradiction|reflexivity]. }
  split; [|split; [|split; [|split; [|split]]]].
  - split.
    + destruct previous as [p|]; [|now left].
      destruct (Z.eq_dec p 0) as [-> | Hp]; [now right; left|].
      destruct current as [c|]; [|now right; right].
      rewrite G by assumption.
      destruct (int_true_divide (c - p) p); cbn; discriminate.
    + intros [-> | [-> | ->] ]; try reflexivity.
      unfold calculate_growth_rate.
      destruct previous as [p|]; [|reflexivity].
      destruct (p =? 0); reflexivity.
  - intros c p -> -> Hp. apply G, Hp.
  - intros c p -> -> Hp Hc Hb. rewrite G by assumption.
    unfold int_true_divide.
    destruct (Z.eqb_spec p 0); [contradiction|].
    destruct (Z.ltb_spec (Z.abs (c - p)) (2 ^ 53)); [|lia].
    destruct (Z.ltb_spec (Z.abs p) (2 ^ 53)); [|lia].
    reflexivity.
  - vm_compute. reflexivity.
  - reflexivity.
  - reflexivity.
Qed.

Lemma calculate_growth_rate_spec_witness :
  calculate_growth_rate (Some 150) (Some 120) = Ret (Some 25%float).
Proof.
  rewrite (proj1 (proj2 (proj2 (calculate_growth_rate_spec (Some 150) (Some 120))))
             150 120 eq_refl eq_refl); [| lia | vm_compute; reflexivity | vm_compute; reflexivity ].
  vm_compute. reflexivity.
Defined.

(** ** The growth calculator *)

Lemma select_snapshot_near_In (repo_id : Z) (d : date) (rows : list snapshot_row)
  (r : snapshot_row) :
  select_snapshot_near repo_id d rows = Some r -> In r rows.
Proof.
  revert r. induction rows as [|x rows IH]; intros r; cbn [select_snapshot_near].
  - discriminate.
  - destruct ((s_repo_id x =? repo_id) && (s_snapshot_date x <=? d)).
    + destruct (select_snapshot_near repo_id d rows) as [b|].
      * destruct (s_snapshot_date x <? s_snapshot_date b); intros [= <-].
        -- right. now apply IH.
        -- now left.
      * intros [= <-]. now left.
    + intros H. right. now apply IH.
Qed.

(** [get_snapshot_near] returns the snapshot nearest on or before the day
    asked for, and nothing exactly when the entity has no snapshot that old. *)
Lemma get_snapshot_near_spec (t : db) (repo_id : Z) (d : date) :
  nearest_on_or_before t repo_id d (get_snapshot_near t repo_id d).
Proof.
  unfold get_snapshot_near, nearest_on_or_before.
  induction (snapshots t) as [|x rows IH]; cbn [select_snapshot_near].
  - intros r' [].
  - destruct (Z.eqb_spec (s_repo_id x) repo_id) as [Hr|Hr];
      destruct (Z.leb_spec (s_snapshot_date x) d) as [Hd|Hd]; cbn [andb].
    + destruct (select_snapshot_near repo_id d rows) as [b|].
      * destruct IH as (Hin & Hb & Hbd & Hmax).
        destruct (Z.ltb_spec (s_snapshot_date x) (s_snapshot_date b)).
        -- repeat split; auto; [now right|].
           intros r' [<-|Hin'] Hr' Hd'; [lia|auto].
        -- repeat split; auto; [now left|].
           intros r' [<-|Hin'] Hr' Hd'; [lia|].
           specialize (Hmax r' Hin' Hr' Hd'). lia.
      * repeat split; auto; [now left|].
        intros r' [<-|Hin'] Hr' Hd'; [lia|]. exfalso. exact (IH r' Hin' Hr' Hd').
    + destruct (select_snapshot_near repo_id d rows) as [b|].
      * destruct IH as (Hin & Hb & Hbd & Hmax). repeat split; auto; [now right|].
        intros r' [<-|Hin'] Hr' Hd'; [lia|auto].
      * intros r' [<-|Hin'] Hr' Hd'; [lia|]. exact (IH r' Hin' Hr' Hd').
    + destruct (select_snapshot_near repo_id d rows) as [b|].
      * destruct IH as (Hin & Hb & Hbd & Hmax). repeat split; auto; [now right|].
        intros r' [<-|Hin'] Hr' Hd'; [contradiction|auto].
      * intros r' [<-|Hin'] Hr' Hd'; [contradiction|]. exact (IH r' Hin' Hr' Hd').
    + destruct (select_snapshot_near repo_id d rows) as [b|].
      * destruct IH as (Hin & Hb & Hbd & Hmax). repeat split; auto; [now right|].
        intros r' [<-|Hin'] Hr' Hd'; [contradiction|auto].
      * intros r' [<-|Hin'] Hr' Hd'; [contradiction|]. exact (IH r' Hin' Hr' Hd').
Qed.

Lemma get_snapshot_near_small (t : db) (repo_id : Z) (d : date) (r : snapshot_row) :
  small_metrics t -> get_snapshot_near t repo_id d = Some r ->
  small (s_stars r) /\ small (s_forks r) /\ small (s_downloads r) /\
  small (s_contributors r).
Proof.
  unfold small_metrics, get_snapshot_near. intros Hs Hr.
  apply select_snapshot_near_In in Hr.
  rewrite Forall_forall in Hs. exact (Hs r Hr).
Qed.

(** On [small] operands the growth rate is computed without an exception. *)
Lemma calculate_growth_rate_returns (current previous : option Z) :
  small current -> small previous ->
  exists o, calculate_growth_rate current previous = Ret o.
Proof.
  intros Hc Hp. unfold calculate_growth_rate.
  destruct previous as [p|]; [|now eexists].
  destruct (Z.eqb_spec p 0); [now eexists|].
  destruct current as [c|]; [|now eexists].
  specialize (Hc c eq_refl). specialize (Hp p eq_refl).
  unfold int_true_divide.
  destruct (Z.eqb_spec p 0); [contradiction|].
  change (2 ^ 52) with 4503599627370496 in Hc, Hp.
  change (2 ^ 53) with 9007199254740992.
  destruct (Z.ltb_spec (Z.abs (c - p)) 9007199254740992); [|lia].
  destruct (Z.ltb_spec (Z.abs p) 9007199254740992); [|lia].
  cbn. now eexists.
Qed.

Lemma growth_against_returns (t : db) (repo_id : Z) (d d' : date)
  (cur : snapshot_row) :
  small_metrics t ->
  get_snapshot_near t repo_id d = Some cur ->
  exists st fk dl ct,
    growth_against cur (get_snapshot_near t repo_id d') = Ret (st, fk, dl, ct) /\
    match get_snapshot_near t repo_id d' with
    | Some e => calculate_growth_rate (s_stars cur) (s_stars e) = Ret st
    | None => st = None
    end.
Proof.
  intros Hs Hcur.
  destruct (get_snapshot_near_small _ _ _ _ Hs Hcur) as (C1 & C2 & C3 & C4).
  unfold growth_against.
  destruct (get_snapshot_near t repo_id d') as [e|] eqn:He.
  - destruct (get_snapshot_near_small _ _ _ _ Hs He) as (E1 & E2 & E3 & E4).
    destruct (calculate_growth_rate_returns _ _ C1 E1) as [st ->].
    destruct (calculate_growth_rate_returns _ _ C2 E2) as [fk ->].
    destruct (calculate_growth_rate_returns _ _ C3 E3) as [dl ->].
    destruct (calculate_growth_rate_returns _ _ C4 E4) as [ct ->].
    cbn. now exists st, fk, dl, ct.
  - now exists None, None, None, None.
Qed.

(** With a current snapshot and [small] metrics the calculator returns a
    record and appends one row for (entity, today) that has no scores. *)
Lemma calculate_growth_metrics_returns (clk : clock) (repo_id : Z) (t : db)
  (cur : snapshot_row) :
  small_metrics t ->
  get_snapshot_near t repo_id (today clk) = Some cur ->
  exists g row,
    calculate_growth_metrics clk repo_id t =
      Ret (Some g,
           {| snapshots := snapshots t;
              snapshots_seq := snapshots_seq t;
              growth_metrics :=
                filter (fun r => negb (growth_key repo_id (today clk) r)) (growth_metrics t)
                ++ [row];
              growth_metrics_seq := growth_metrics_seq t + 1 |}) /\
    g_repo_id row = repo_id /\ g_calculated_at row = today clk /\
    g_traction_score row = None /\ g_investability_score row = None.
Proof.
  intros Hs Hcur.
  destruct (growth_against_returns t repo_id _ (today clk - 7) cur Hs Hcur)
    as (st & fk & dl & ct & Hw & Hst).
  destruct (growth_against_returns t repo_id _ (today clk - 30) cur Hs Hcur)
    as (st' & fk' & dl' & ct' & Hm & _).
  unfold calculate_growth_metrics.
  rewrite Hcur, Hw, Hm. cbn [bind].
  assert (Hacc : exists acc,
    match get_snapshot_near t repo_id (today clk - 7),
          get_snapshot_near t repo_id (today clk - 14) with
    | Some w, Some w2 =>
        prev_wow <- calculate_growth_rate (s_stars w) (s_stars w2) ;;
        match st, prev_wow with
        | Some a, Some b => Ret (Some (py_round2 (a - b)%float))
        | _, _ => Ret None
        end
    | _, _ => Ret None
    end = Ret acc).
  { destruct (get_snapshot_near t repo_id (today clk - 7)) as [w|] eqn:Ew;
      [|now eexists].
    destruct (get_snapshot_near t repo_id (today clk - 14)) as [w2|] eqn:Ew2;
      [|now eexists].
    destruct (get_snapshot_near_small _ _ _ _ Hs Ew) as (W1 & _).
    destruct (get_snapshot_near_small _ _ _ _ Hs Ew2) as (V1 & _).
    destruct (calculate_growth_rate_returns _ _ W1 V1) as [pw ->]. cbn [bind].
    destruct st, pw; now eexists. }
  destruct Hacc as [acc ->]. cbn [bind].
  do 2 eexists. split; [reflexivity|]. cbn. auto.
Qed.

(** C3. When the entity has a current snapshot, the growth calculator
    returns a record whose star acceleration is [round(wow - wow_prev, 2)],
    with [wow] the week-over-week star growth as of today and [wow_prev] the
    one as of seven days earlier (nearest snapshot on or before T-7d against
    nearest on or before T-14d), and is [None] as soon as one of the two is
    undefined. A week-over-week growth of 20.0 after one of 8.0 gives 12.0. *)
Theorem stars_acceleration_spec (clk : clock) (repo_id : Z) (t : db)
  (cur : snapshot_row) :
  small_metrics t ->
  get_snapshot_near t repo_id (today clk) = Some cur ->
  exists g t' wow wow_prev,
    calculate_growth_metrics clk repo_id t = Ret (Some g, t') /\
    spec_stars_wow t repo_id (today clk) = Ret wow /\
    spec_stars_wow t repo_id (today clk - 7) = Ret wow_prev /\
    stars_wow g = wow /\
    stars_acceleration g =
      match wow, wow_prev with
      | Some a, Some b => Some (py_round2 (a - b)%float)
      | _, _ => None
      end /\
    py_round2 (20 - 8)%float = 12%float.
Proof.
  intros Hs Hcur.
  assert (Ex : py_round2 (20 - 8)%float = 12%float) by (vm_compute; reflexivity).
  destruct (growth_against_returns t repo_id _ (today clk - 7) cur Hs Hcur)
    as (st & fk & dl & ct & Hw & Hst).
  destruct (growth_against_returns t repo_id _ (today clk - 30) cur Hs Hcur)
    as (st' & fk' & dl' & ct' & Hm & _).
  unfold calculate_growth_metrics, spec_stars_wow.
  replace (today clk - 7 - 7) with (today clk - 14) by lia.
  rewrite Hcur, Hw, Hm. cbn [bind].
  destruct (get_snapshot_near t repo_id (today clk - 7)) as [w|] eqn:Ew.
  - destruct (get_snapshot_near t repo_id (today clk - 14)) as [w2|] eqn:Ew2.
    + destruct (get_snapshot_near_small _ _ _ _ Hs Ew) as (W1 & _).
      destruct (get_snapshot_near_small _ _ _ _ Hs Ew2) as (V1 & _).
      destruct (calculate_growth_rate_returns _ _ W1 V1) as [pw Hpw].
      rewrite Hpw, Hst. cbn [bind].
      destruct st as [a|], pw as [b|]; cbn [bind];
        do 4 eexists; (split; [reflexivity|]);
        cbn [stars_wow stars_acceleration];
        repeat (split; [reflexivity|]); exact Ex.
    + rewrite Hst. cbn [bind].
      do 4 eexists. split; [reflexivity|].
      cbn [stars_wow stars_acceleration].
      repeat (split; [reflexivity|]).
      split; [destruct st; reflexivity | exact Ex].
  - subst st. cbn [bind].
    do 4 eexists. split; [reflexivity|].
    cbn [stars_wow stars_acceleration].
    repeat (split; [reflexivity|]). exact Ex.
Qed.

Lemma sample_db_small : small_metrics sample_db.
Proof.
  unfold small_metrics, sample_db, sample_snapshot; cbn [snapshots].
  repeat constructor; cbn; intros v [= <-]; reflexivity.
Qed.

Lemma stars_acceleration_spec_witness :
  exists g t' wow wow_prev,
    calculate_growth_metrics sample_clock 1 sample_db = Ret (Some g, t') /\
    spec_stars_wow sample_db 1 (today sample_clock) = Ret wow /\
    spec_stars_wow sample_db 1 (today sample_clock - 7) = Ret wow_prev /\
    stars_wow g = wow /\
    stars_acceleration g =
      match wow, wow_prev with
      | Some a, Some b => Some (py_round2 (a - b)%float)
      | _, _ => None
      end /\
    py_round2 (20 - 8)%float = 12%float.
Proof.
  apply (stars_acceleration_spec sample_clock 1 sample_db (sample_snapshot 3 739000 1296)).
  - exact sample_db_small.
  - reflexivity.
Defined.

(** The sample ledger run through the calculator: week-over-week growth
    20.0, acceleration 12.0. *)
Example calculate_growth_metrics_sample :
  match calculate_growth_metrics sample_clock 1 sample_db with
  | Ret (Some g, _) =>
      stars_wow g = Some 20%float /\ stars_acceleration g = Some 12%float /\
      stars_mom g = None
  | _ => False
  end.
Proof. vm_compute. repeat split. Qed.

(** ** Scores on a recomputed growth record *)

Lemma max_calculated_at_last (repo_id : Z) (d : date) (rows : list growth_row)
  (row : growth_row) :
  g_repo_id row = repo_id -> g_calculated_at row = d ->
  (forall r', In r' rows -> g_repo_id r' = repo_id -> g_calculated_at r' <= d) ->
  max_calculated_at repo_id (rows ++ [row]) = Some d.
Proof.
  intros Hr Hd. induction rows as [|x rows IH]; intros Hle; cbn.
  - rewrite Hr, Z.eqb_refl, Hd. reflexivity.
  - rewrite IH by (intros; apply Hle; [now right|assumption]).
    destruct (Z.eqb_spec (g_repo_id x) repo_id) as [E|E]; [|reflexivity].
    f_equal. specialize (Hle x (or_introl eq_refl) E). lia.
Qed.

Lemma filter_map_unchanged {A} (key : A -> bool) (set : A -> A) (l : list A) :
  (forall x, key x = false -> set x = x) ->
  (forall x, In x l -> key x = false) ->
  filter key (map set l) = [].
Proof.
  intros Hset. induction l as [|x l IH]; intros Hk; cbn; auto.
  rewrite Hset by (apply Hk; now left).
  rewrite (Hk x) by now left.
  apply IH. intros; apply Hk; now right.
Qed.

(** C9. Recomputing growth for an (entity, date) that already has a growth
    record leaves one record for that key, written without the two score
    columns: both scores are null afterwards, whatever they were. The
    pipeline's later update attaches scores to it again. *)
Theorem growth_recompute_resets_scores (clk : clock) (repo_id : Z) (t : db)
  (cur : snapshot_row) (old : growth_row) :
  small_metrics t ->
  get_snapshot_near t repo_id (today clk) = Some cur ->
  In old (growth_metrics t) ->
  growth_key repo_id (today clk) old = true ->
  exists g t' r,
    calculate_growth_metrics clk repo_id t = Ret (Some g, t') /\
    filter (growth_key repo_id (today clk)) (growth_metrics t') = [r] /\
    g_traction_score r = None /\
    g_investability_score r = None /\
    forall traction investability,
      (forall r', In r' (growth_metrics t) -> g_repo_id r' = repo_id ->
                  g_calculated_at r' <= today clk) ->
      exists r2,
        filter (growth_key repo_id (today clk))
          (growth_metrics (update_growth_scores repo_id traction investability t')) = [r2] /\
        g_traction_score r2 = Some traction /\
        g_investability_score r2 = Some investability.
Proof.
  intros Hs Hcur _ _.
  destruct (calculate_growth_metrics_returns clk repo_id t cur Hs Hcur) as (g & row & Hc & Hrow).
  destruct Hrow as (Hrepo & Hdate & Ht & Hi).
  exists g. eexists. exists row. split; [exact Hc|]. cbn [growth_metrics].
  assert (Hkey : growth_key repo_id (today clk) row = true).
  { unfold growth_key. now rewrite Hrepo, Hdate, !Z.eqb_refl. }
  split; [|split; [exact Ht|split; [exact Hi|]]].
  - rewrite filter_app, filter_negb_disjoint. cbn. now rewrite Hkey.
  - intros traction investability Hle.
    unfold update_growth_scores. cbn [growth_metrics].
    rewrite (max_calculated_at_last repo_id (today clk)); auto.
    2:{ intros r' Hin. apply filter_In in Hin as [Hin _]. now apply Hle. }
    rewrite map_app, filter_app.
    rewrite filter_map_unchanged.
    + cbn [map filter app]. rewrite Hkey.
      unfold growth_key at 1. cbn [g_repo_id g_calculated_at].
      rewrite Hrepo, Hdate, !Z.eqb_refl. cbn [andb].
      eexists. split; [reflexivity|]. cbn. auto.
    + intros x Hx. now rewrite Hx.
    + intros x Hin. apply filter_In in Hin as [_ Hn].
      now apply negb_true_iff in Hn.
Qed.

Lemma growth_recompute_resets_scores_witness :
  exists g t' r,
    calculate_growth_metrics sample_clock 1 sample_db = Ret (Some g, t') /\
    filter (growth_key 1 (today sample_clock)) (growth_metrics t') = [r] /\
    g_traction_score r = None /\
    g_investability_score r = None /\
    forall traction investability,
      (forall r', In r' (growth_metrics sample_db) -> g_repo_id r' = 1 ->
                  g_calculated_at r' <= today sample_clock) ->
      exists r2,
        filter (growth_key 1 (today sample_clock))
          (growth_metrics (update_growth_scores 1 traction investability t')) = [r2] /\
        g_traction_score r2 = Some traction /\
        g_investability_score r2 = Some investability.
Proof.
  apply (growth_recompute_resets_scores sample_clock 1 sample_db
           (sample_snapshot 3 739000 1296) sample_growth_row).
  - exact sample_db_small.
  - reflexivity.
  - now left.
  - reflexivity.
Defined.

(** The sample record carries scores 500 and 42 before the recomputation
    and none after it. *)
Example recompute_sample_scores :
  match calculate_growth_metrics sample_clock 1 sample_db with
  | Ret (_, t') =>
      map (fun r => (g_traction_score r, g_investability_score r)) (growth_metrics sample_db)
        = [(Some 500, Some 42)] /\
      map (fun r => (g_traction_score r, g_investability_score r)) (growth_metrics t')
        = [(None, None)]
  | Exc _ => False
  end.
Proof. vm_compute. split; reflexivity. Qed.

End DatabaseProperties.

(** * Properties of the classifiers *)

Section ClassifierProperties.
Import Analysis.

Lemma str_eqb_eq (a b : str) : str_eqb a b = true <-> a = b.
Proof.
  revert b. induction a as [|x a IH]; intros [|y b]; cbn; try (split; congruence).
  rewrite andb_true_iff, N.eqb_eq, IH. split; [intros [-> ->] | intros [= -> ->]]; auto.
Qed.

Lemma str_eqb_refl (a : str) : str_eqb a a = true.
Proof. now apply str_eqb_eq. Qed.

Lemma str_eqb_neq (a b : str) : str_eqb a b = false <-> a <> b.
Proof.
  rewrite <- str_eqb_eq. destruct (str_eqb a b); split; congruence.
Qed.

(** A keyword is in the text exactly when it occurs at some position. *)
Lemma contains_occurrences (pat text : str) :
  contains pat text = (0 <? occurrences pat text)%nat.
Proof.
  induction text as [|c text IH]; cbn [contains occurrences].
  - destruct (startswith pat []); reflexivity.
  - rewrite IH. destruct (startswith pat (c :: text)); cbn [orb Nat.add].
    + reflexivity.
    + reflexivity.
Qed.

Lemma py_sum_from (l : list Z) (a : Z) : fold_left Z.add l a = a + py_sum l.
Proof.
  unfold py_sum. revert a. induction l as [|x l IH]; intros a; cbn.
  - lia.
  - rewrite IH, (IH x). lia.
Qed.

Lemma py_sum_cons (x : Z) (l : list Z) : py_sum (x :: l) = x + py_sum l.
Proof. unfold py_sum at 1. cbn. apply py_sum_from. Qed.

Lemma py_sum_ones {A} (l : list A) :
  py_sum (map (fun _ => 1) l) = Z.of_nat (List.length l).
Proof.
  induction l as [|x l IH]; [reflexivity|].
  cbn [map List.length]. rewrite py_sum_cons, IH. lia.
Qed.

(** The score of a keyword list is the number of its entries present. *)
Lemma keyword_score_length (keywords : list str) (text : str) :
  keyword_score keywords text =
  Z.of_nat (List.length (filter (fun kw => contains kw text) keywords)).
Proof. apply py_sum_ones. Qed.

(** Each keyword adds one when it occurs, however often it occurs. *)
Lemma keyword_score_min (keywords : list str) (text : str) :
  keyword_score keywords text =
  py_sum (map (fun kw => Z.of_nat (Nat.min 1 (occurrences kw text))) keywords).
Proof.
  rewrite keyword_score_length.
  induction keywords as [|kw keywords IH]; [reflexivity|].
  cbn [filter map]. rewrite py_sum_cons, <- IH, contains_occurrences.
  destruct (occurrences kw text) as [|n]; cbn [Nat.ltb Nat.leb List.length Nat.min]; lia.
Qed.

Lemma keyword_score_bounds (keywords : list str) (text : str) :
  0 <= keyword_score keywords text <= Z.of_nat (List.length keywords).
Proof.
  rewrite keyword_score_length.
  pose proof (filter_length_le (fun kw => contains kw text) keywords). lia.
Qed.

Lemma keyword_score_zero (keywords : list str) (text : str) :
  keyword_score keywords text = 0 <->
  forall kw, In kw keywords -> contains kw text = false.
Proof.
  rewrite keyword_score_length. split.
  - intros H kw Hin. destruct (contains kw text) eqn:E; [|reflexivity].
    assert (Hf : In kw (filter (fun kw => contains kw text) keywords))
      by (apply filter_In; auto).
    destruct (filter (fun kw => contains kw text) keywords); [destruct Hf|discriminate].
  - intros H. induction keywords as [|kw keywords IH]; [reflexivity|].
    cbn [filter]. rewrite (H kw) by now left.
    apply IH. intros; apply H; now right.
Qed.

Lemma distinct_strs_NoDup (l : list str) : distinct_strs l = true -> NoDup l.
Proof.
  induction l as [|x l IH]; cbn; [constructor|].
  rewrite andb_true_iff, forallb_forall. intros [Hx Hl].
  constructor; [|now apply IH].
  intros Hin. specialize (Hx x Hin). now rewrite str_eqb_refl in Hx.
Qed.

(** Two distinct present entries, against the count of present entries. *)
Lemma two_present (keywords : list str) (text : str) :
  NoDup keywords ->
  (2 <= keyword_score keywords text <->
   exists kw1 kw2, kw1 <> kw2 /\ In kw1 keywords /\ In kw2 keywords /\
                   contains kw1 text = true /\ contains kw2 text = true).
Proof.
  intros Hnd. rewrite keyword_score_length.
  pose proof (NoDup_filter (fun kw => contains kw text) Hnd) as Hf.
  assert (Hin : forall kw, In kw (filter (fun kw => contains kw text) keywords) <->
                           In kw keywords /\ contains kw text = true)
    by (intros kw0; rewrite filter_In; reflexivity).
  destruct (filter (fun kw => contains kw text) keywords) as [|a [|b l]].
  - split; [cbn; lia|]. intros (k1 & _ & _ & H1 & _ & C1 & _).
    exfalso. apply (proj2 (Hin k1)); auto.
  - split; [cbn; lia|]. intros (k1 & k2 & N & H1 & H2 & C1 & C2).
    exfalso. apply N.
    destruct (proj2 (Hin k1) (conj H1 C1)) as [<-|[]].
    destruct (proj2 (Hin k2) (conj H2 C2)) as [<-|[]]. reflexivity.
  - split; [|cbn [List.length]; lia]. intros _.
    exists a, b.
    destruct (proj1 (Hin a) (or_introl eq_refl)) as [Ha Ca].
    destruct (proj1 (Hin b) (or_intror (or_introl eq_refl))) as [Hb Cb].
    repeat split; auto.
    inversion Hf as [|? ? Hna _]; subst. intros ->. apply Hna. now left.
Qed.

Lemma keyword_score_mono (keywords : list str) (text text' : str) :
  (forall kw, In kw keywords -> contains kw text' = true -> contains kw text = true) ->
  keyword_score keywords text' <= keyword_score keywords text.
Proof.
  rewrite !keyword_score_length.
  induction keywords as [|kw keywords IH]; intros H; [reflexivity|].
  assert (IH' := IH (fun k Hk => H k (or_intror Hk))).
  cbn [filter]. destruct (contains kw text') eqn:E.
  - rewrite (H kw (or_introl eq_refl) E). cbn [List.length]. lia.
  - destruct (contains kw text); cbn [List.length]; lia.
Qed.

Lemma category_keywords_distinct :
  forallb (fun ck => distinct_strs (snd ck)) CATEGORY_KEYWORDS = true.
Proof. vm_compute. reflexivity. Qed.

(** C10. For each category of the classifier, the keywords of its list are
    pairwise distinct and its score adds, for every keyword, one if the
    keyword occurs in the text and nothing otherwise, however many times it
    occurs: the score is the number of distinct keywords present. A text
    that brings no keyword beyond those of another text (the same keywords
    repeated, say) never scores higher. *)
Theorem keyword_score_counts_once (category : str) (keywords : list str) (text : str) :
  In (category, keywords) CATEGORY_KEYWORDS ->
  NoDup keywords /\
  keyword_score keywords text =
    py_sum (map (fun kw => Z.of_nat (Nat.min 1 (occurrences kw text))) keywords) /\
  keyword_score keywords text =
    Z.of_nat (List.length (filter (fun kw => (0 <? occurrences kw text)%nat) keywords)) /\
  0 <= keyword_score keywords text <= Z.of_nat (List.length keywords) /\
  forall text',
    (forall kw, In kw keywords ->
                (0 < occurrences kw text')%nat -> (0 < occurrences kw text)%nat) ->
    keyword_score keywords text' <= keyword_score keywords text.
Proof.
  intros Hin. split; [|split; [|split; [|split]]].
  - apply distinct_strs_NoDup.
    pose proof category_keywords_distinct as H.
    rewrite forallb_forall in H. exact (H _ Hin).
  - apply keyword_score_min.
  - rewrite keyword_score_length. do 2 f_equal.
    apply filter_ext. intros kw. apply contains_occurrences.
  - apply keyword_score_bounds.
  - intros text' H. apply keyword_score_mono.
    intros kw Hkw. rewrite !contains_occurrences, !Nat.ltb_lt. now apply H.
Qed.

(** The word "model" three times scores like the word once. *)
Lemma keyword_score_counts_once_witness :
  let keywords := snd (nth 0 CATEGORY_KEYWORDS ([], [])) in
  occurrences (lit "model") (lit "model model model") = 3%nat /\
  keyword_score keywords (lit "model model model") = 1 /\
  keyword_score keywords (lit "model") = 1.
Proof.
  intros keywords.
  assert (Hin : In (lit "ai-ml", keywords) CATEGORY_KEYWORDS) by (now left).
  pose proof (keyword_score_counts_once (lit "ai-ml") keywords
                (lit "model model model") Hin) as (_ & H & _).
  pose proof (keyword_score_counts_once (lit "ai-ml") keywords
                (lit "model") Hin) as (_ & H' & _).
  split; [vm_compute; reflexivity|].
  split; [rewrite H | rewrite H']; vm_compute; reflexivity.
Defined.

(** ** The commercial signal detector *)

Lemma existsb_contains (keywords : list str) (text : str) :
  existsb (fun kw => contains kw text) keywords = true <->
  exists kw, In kw keywords /\ contains kw text = true.
Proof. apply existsb_exists. Qed.

Lemma enterprise_keywords_distinct : distinct_strs enterprise_keywords = true.
Proof. vm_compute. reflexivity. Qed.

(** C8. The commercial score lies in [0, 10] and is the sum of 2 for a
    pricing keyword, 3 for two distinct enterprise keywords, 2 for a cloud
    keyword, 2 for a company keyword and 1 for a homepage whose lower-cased
    form does not contain [github.com]; each flag depends on its own
    keyword list only, and the homepage point comes with the docs-site
    flag. *)
Theorem detect_commercial_signals_spec (lower : str -> str)
  (description readme homepage : option str) :
  let s := detect_commercial_signals lower description readme homepage in
  let text := commercial_text lower description readme in
  let present keywords := exists kw, In kw keywords /\ contains kw text = true in
  0 <= commercial_score s <= 10 /\
  commercial_score s =
    (if has_pricing s then 2 else 0) + (if has_enterprise s then 3 else 0) +
    (if has_cloud s then 2 else 0) + (if has_company s then 2 else 0) +
    (if has_docs_site s then 1 else 0) /\
  (has_pricing s = true <-> present pricing_keywords) /\
  (has_enterprise s = true <->
   exists kw1 kw2, kw1 <> kw2 /\ In kw1 enterprise_keywords /\ In kw2 enterprise_keywords /\
                   contains kw1 text = true /\ contains kw2 text = true) /\
  (has_cloud s = true <-> present cloud_keywords) /\
  (has_company s = true <-> present company_keywords) /\
  (has_docs_site s = true <->
   exists h, homepage = Some h /\ h <> [] /\ lower h <> [] /\
             contains (lit "github.com") (lower h) = false).
Proof.
  cbv zeta. unfold detect_commercial_signals.
  cbn [commercial_score has_pricing has_enterprise has_cloud has_company has_docs_site].
  set (text := commercial_text lower description readme).
  split; [|split; [|split; [|split; [|split; [|split]]]]].
  - destruct (existsb _ pricing_keywords), (2 <=? keyword_score enterprise_keywords text),
      (existsb _ cloud_keywords), (existsb _ company_keywords);
      match goal with |- context [if ?b then _ else _] => destruct b end; lia.
  - destruct (existsb _ pricing_keywords), (2 <=? keyword_score enterprise_keywords text),
      (existsb _ cloud_keywords), (existsb _ company_keywords);
      match goal with |- context [if ?b then _ else _] => destruct b end; lia.
  - apply existsb_contains.
  - rewrite Z.leb_le. apply two_present.
    apply distinct_strs_NoDup, enterprise_keywords_distinct.
  - apply existsb_contains.
  - apply existsb_contains.
  - destruct homepage as [[|c h]|]; cbn [truthy_opt_str truthy_str str_or_empty].
    + split; [discriminate|]. intros (h & [= <-] & N & _). now destruct N.
    + rewrite andb_true_iff, negb_true_iff. split.
      * intros [T C]. exists (c :: h).
        split; [reflexivity|]. split; [discriminate|]. split; [|exact C].
        intros E. rewrite E in T. discriminate.
      * intros (h' & [= <-] & _ & N & C). split; [|exact C].
        destruct (lower (c :: h)); [now destruct N|reflexivity].
    + split; [discriminate|]. intros (h & [=] & _).
Qed.

(** A description with a pricing, a cloud and a company phrase, and two
    enterprise features, with a homepage of its own: all five signals. *)
Example detect_commercial_signals_sample :
  detect_commercial_signals ascii_lower
    (Some (lit "Managed Cloud with SSO and SAML. See our Pricing. Backed by investors."))
    None (Some (lit "https://acme.dev")) =
  {| has_company := true; has_pricing := true; has_enterprise := true;
     has_cloud := true; has_docs_site := true; commercial_score := 10 |}.
Proof. vm_compute. reflexivity. Qed.

Example detect_commercial_signals_github_homepage :
  detect_commercial_signals ascii_lower (Some (lit "A parser with SSO")) None
    (Some (lit "https://GitHub.com/acme/parser")) =
  {| has_company := false; has_pricing := false; has_enterprise := false;
     has_cloud := false; has_docs_site := false; commercial_score := 0 |}.
Proof. vm_compute. reflexivity. Qed.

(** ** The category classifier *)

Lemma dict_set_fresh (k : str) (v : Z) (d : dict) :
  ~ In k (map fst d) -> dict_set k v d = d ++ [(k, v)].
Proof.
  induction d as [|[k' v'] d IH]; cbn; intros H; [reflexivity|].
  destruct (str_eqb k' k) eqn:E.
  - apply str_eqb_eq in E. exfalso. apply H. now left.
  - rewrite IH; [reflexivity|]. intros Hin. apply H. now right.
Qed.

(** With distinct category names the loop stores the positive scores in
    table order. *)
Lemma category_scores_eq (table : list (str * list str)) (text : str) (acc : dict) :
  NoDup (map fst acc ++ map fst table) ->
  category_scores table text acc = acc ++ positive_scores table text.
Proof.
  revert acc. induction table as [|[k kws] table IH]; intros acc Hnd.
  - cbn. now rewrite app_nil_r.
  - cbn [category_scores positive_scores flat_map fst snd map] in *.
    destruct (0 <? keyword_score kws text).
    + rewrite dict_set_fresh.
      * rewrite IH; [now rewrite <- app_assoc|].
        rewrite map_app, <- app_assoc. exact Hnd.
      * intros Hin. apply NoDup_remove_2 in Hnd. apply Hnd.
        apply in_or_app. now left.
    + rewrite IH; [reflexivity|]. now apply NoDup_remove_1 in Hnd.
Qed.

(** [max] returns the first entry that is largest: entries before it are
    strictly smaller, entries after it are not larger. *)
Lemma max_from_spec (rest : dict) (best : str * Z) :
  exists pre v post,
    best :: rest = pre ++ (max_from best rest, v) :: post /\
    (forall e, In e pre -> snd e < v) /\
    (forall e, In e post -> snd e <= v) /\
    snd best <= v.
Proof.
  revert best. induction rest as [|kv rest IH]; intros best; cbn [max_from].
  - exists [], (snd best), []. destruct best; cbn.
    split; [reflexivity|]. split; [intros ? []|]. split; [intros ? []|lia].
  - destruct (Z.ltb_spec (snd best) (snd kv)) as [Hlt|Hge].
    + destruct (IH kv) as (pre & v & post & E & Hpre & Hpost & Hb).
      exists (best :: pre), v, post. rewrite E.
      split; [reflexivity|]. split; [|split; [exact Hpost|lia]].
      intros e [<-|Hin]; [lia|auto].
    + destruct (IH best) as (pre & v & post & E & Hpre & Hpost & Hb).
      destruct pre as [|b pre]; cbn [app] in E; injection E as E1 E2.
      * exists [], v, (kv :: post). rewrite <- E1, E2.
        split; [reflexivity|]. split; [intros ? []|]. split; [|exact Hb].
        intros e [<-|Hin]; [|auto].
        pose proof (f_equal snd E1) as Ev. cbn [snd] in Ev. lia.
      * subst b. exists (best :: kv :: pre), v, post.
        assert (Hbv : snd best < v) by (apply Hpre; now left).
        split; [cbn [app]; do 2 f_equal; exact E2|].
        split; [|split; [exact Hpost|exact Hb]].
        intros e [<-|[<-|Hin]]; [exact Hbv|lia|apply Hpre; now right].
Qed.

Lemma positive_scores_app (l1 l2 : list (str * list str)) (text : str) :
  positive_scores (l1 ++ l2) text = positive_scores l1 text ++ positive_scores l2 text.
Proof. apply flat_map_app. Qed.

Lemma positive_scores_In (table : list (str * list str)) (text : str)
  (e : str * list str) :
  In e table -> 0 < keyword_score (snd e) text ->
  In (fst e, keyword_score (snd e) text) (positive_scores table text).
Proof.
  intros Hin Hpos. unfold positive_scores. apply in_flat_map.
  exists e. split; [assumption|].
  destruct (Z.ltb_spec 0 (keyword_score (snd e) text)); [now left|lia].
Qed.

(** An entry of [scores] comes from one row of the table, and splits the
    table where it splits [scores]. *)
Lemma positive_scores_split (table : list (str * list str)) (text : str)
  (pre' post' : dict) (c : str) (v : Z) :
  positive_scores table text = pre' ++ (c, v) :: post' ->
  exists pre kws post,
    table = pre ++ (c, kws) :: post /\ v = keyword_score kws text /\ 0 < v /\
    positive_scores pre text = pre' /\ positive_scores post text = post'.
Proof.
  revert pre'. induction table as [|[k kws] table IH]; intros pre' E.
  - cbn in E. now destruct pre'.
  - cbn [positive_scores flat_map fst snd] in E.
    fold (positive_scores table text) in E.
    assert (Hcons : forall pre,
      positive_scores ((k, kws) :: pre) text =
      (if 0 <? keyword_score kws text then [(k, keyword_score kws text)] else [])
      ++ positive_scores pre text) by reflexivity.
    destruct (Z.ltb_spec 0 (keyword_score kws text)) as [Hpos|Hneg].
    + destruct pre' as [|e pre']; cbn [app] in E.
      * injection E as -> <- E2.
        exists [], kws, table. cbn [app]. auto.
      * injection E as E1 E2.
        destruct (IH pre' E2) as (pre & kws' & post & -> & Hv & Hp & Hpre & Hpost).
        exists ((k, kws) :: pre), kws', post.
        split; [reflexivity|]. split; [exact Hv|]. split; [exact Hp|].
        split; [|exact Hpost].
        rewrite Hcons, Hpre, <- E1.
        destruct (Z.ltb_spec 0 (keyword_score kws text)); [reflexivity|lia].
    + cbn [app] in E.
      destruct (IH pre' E) as (pre & kws' & post & -> & Hv & Hp & Hpre & Hpost).
      exists ((k, kws) :: pre), kws', post.
      split; [reflexivity|]. split; [exact Hv|]. split; [exact Hp|].
      split; [|exact Hpost].
      rewrite Hcons, Hpre.
      destruct (Z.ltb_spec 0 (keyword_score kws text)); [lia|reflexivity].
Qed.

Lemma category_names_distinct : distinct_strs (map fst CATEGORY_KEYWORDS) = true.
Proof. vm_compute. reflexivity. Qed.

(** C7. The classifier answers [other] when no keyword of any category is
    in the text. Otherwise it answers a category of the table whose score is
    positive, larger than the score of every category listed before it and
    at least the score of every category listed after it: the highest score
    wins and a tie goes to the category earliest in the table. *)
Theorem categorize_repo_spec (lower : str -> str) (description : option str)
  (topics : option (list str)) (readme : option str) :
  let text := category_text lower description topics readme in
  let c := categorize_repo lower description topics readme in
  ((forall category keywords kw,
      In (category, keywords) CATEGORY_KEYWORDS -> In kw keywords ->
      contains kw text = false) ->
   c = lit "other") /\
  (forall category keywords kw,
      In (category, keywords) CATEGORY_KEYWORDS -> In kw keywords ->
      contains kw text = true ->
      exists pre kws post,
        CATEGORY_KEYWORDS = pre ++ (c, kws) :: post /\
        0 < keyword_score kws text /\
        (forall e, In e pre -> keyword_score (snd e) text < keyword_score kws text) /\
        (forall e, In e post -> keyword_score (snd e) text <= keyword_score kws text)).
Proof.
  cbv zeta. unfold categorize_repo.
  set (text := category_text lower description topics readme).
  rewrite category_scores_eq
    by (cbn [map app]; apply distinct_strs_NoDup, category_names_distinct).
  cbn [app].
  destruct (positive_scores CATEGORY_KEYWORDS text) as [|first rest] eqn:P.
  - split; [reflexivity|].
    intros category keywords kw Hin Hkw Hc. exfalso.
    assert (Hpos : 0 < keyword_score (snd (category, keywords)) text).
    { cbn [snd]. pose proof (keyword_score_bounds keywords text) as [H0 _].
      destruct (Z.eq_dec (keyword_score keywords text) 0) as [E|E]; [|lia].
      rewrite keyword_score_zero in E. rewrite (E kw Hkw) in Hc. discriminate. }
    pose proof (positive_scores_In _ text _ Hin Hpos) as H.
    rewrite P in H. destruct H.
  - destruct (max_from_spec rest first) as (pre' & v & post' & E & Hpre & Hpost & _).
    rewrite <- P in E.
    destruct (positive_scores_split _ _ _ _ _ _ E)
      as (pre & kws & post & Ht & Hv & Hp & Epre & Epost).
    subst v.
    assert (Hin : In (max_from first rest, kws) CATEGORY_KEYWORDS).
    { rewrite Ht. apply in_or_app. right. now left. }
    split.
    + intros Hnone. exfalso.
      assert (Z0 : keyword_score kws text = 0).
      { apply keyword_score_zero. intros kw Hkw. exact (Hnone _ _ kw Hin Hkw). }
      lia.
    + intros _ _ _ _ _ _. exists pre, kws, post.
      split; [exact Ht|]. split; [exact Hp|]. split.
      * intros e He.
        destruct (Z.ltb_spec 0 (keyword_score (snd e) text)) as [H|H]; [|lia].
        apply (Hpre (fst e, keyword_score (snd e) text)).
        rewrite <- Epre. now apply positive_scores_In.
      * intros e He.
        destruct (Z.ltb_spec 0 (keyword_score (snd e) text)) as [H|H]; [|lia].
        apply (Hpost (fst e, keyword_score (snd e) text)).
        rewrite <- Epost. now apply positive_scores_In.
Qed.

(** The assertions of the module's self-test, and a tie: [pipeline] is a
    keyword of [infrastructure] and of [data], and the earlier one wins. *)
Lemma categorize_repo_spec_witness :
  categorize_repo ascii_lower (Some (lit "A machine learning framework for NLP")) None None
    = lit "ai-ml" /\
  categorize_repo ascii_lower (Some (lit "Kubernetes deployment automation")) None None
    = lit "infrastructure" /\
  categorize_repo ascii_lower (Some (lit "React component library")) None None
    = lit "frontend" /\
  categorize_repo ascii_lower (Some (lit "A pipeline")) None None = lit "infrastructure" /\
  categorize_repo ascii_lower (Some (lit "Nothing to see")) None None = lit "other" /\
  exists pre kws post,
    CATEGORY_KEYWORDS =
      pre ++ (categorize_repo ascii_lower (Some (lit "A pipeline")) None None, kws) :: post /\
    0 < keyword_score kws (lit "a pipeline").
Proof.
  repeat (split; [vm_compute; reflexivity|]).
  destruct (proj2 (categorize_repo_spec ascii_lower (Some (lit "A pipeline")) None None)
              (lit "data") (snd (nth 3 CATEGORY_KEYWORDS ([], []))) (lit "pipeline"))
    as (pre & kws & post & E & Hp & _).
  - do 3 right. now left.
  - vm_compute. tauto.
  - vm_compute. reflexivity.
  - exists pre, kws, post. split; [exact E|exact Hp].
Defined.

(** ** The non-investable filter *)

(** The assertions of the module's self-test. *)
Example is_non_investable_repo_samples :
  fst (is_non_investable_repo ascii_lower (lit "awesome-python")
         (Some (lit "A curated list of Python frameworks"))) = true /\
  is_non_investable_repo ascii_lower (lit "actual-startup")
    (Some (lit "A real product that does something")) = (false, None) /\
  is_non_investable_repo ascii_lower (lit "leetcode-solutions")
    (Some (lit "Interview prep materials")) = (true, Some (lit "name matches 'leetcode'")) /\
  is_non_investable_repo ascii_lower (lit "acme-db")
    (Some (lit "My personal notes")) = (true, Some (lit "description matches 'my personal'")).
Proof. vm_compute. repeat split. Qed.

End ClassifierProperties.

(** * Properties of the scorers *)

Section ScorerProperties.
Import Analysis.

Variable lower : str -> str.
Variable fromisoformat : str -> option datetime.

(** C4. Both scorers return a score in [0, 100], for every metric record
    and every other argument. *)
Theorem scores_within_bounds (utcnow1 utcnow2 utcnow : Z) (metrics : metrics)
  (growth_metrics : option Database.growth_dict) (funding_status category : option str)
  (repo_name description : option str) (created_at : option created_arg)
  (commercial_signals : option signals) :
  0 <= calculate_investability_score lower fromisoformat utcnow1 utcnow2 metrics
         growth_metrics funding_status category repo_name description created_at <= 100 /\
  0 <= calculate_series_a_fit fromisoformat utcnow metrics funding_status created_at
         commercial_signals <= 100.
Proof.
  unfold calculate_investability_score, calculate_series_a_fit. lia.
Qed.

(** The clamp is at work in both directions: the points can add up to more
    than 100 and to less than 0. *)
Example investability_points_above :
  investability_points ascii_lower no_fromisoformat sample_utcnow sample_utcnow
    top_metrics (Some top_growth) (Some (lit "unknown")) (Some (lit "ai-ml")) None None
    (Some (CreatedDatetime (created_days_ago 100 None))) = 125 /\
  calculate_investability_score ascii_lower no_fromisoformat sample_utcnow sample_utcnow
    top_metrics (Some top_growth) (Some (lit "unknown")) (Some (lit "ai-ml")) None None
    (Some (CreatedDatetime (created_days_ago 100 None))) = 100.
Proof. vm_compute. split; reflexivity. Qed.

Example investability_points_below :
  investability_points ascii_lower no_fromisoformat sample_utcnow sample_utcnow
    no_metrics None None None (Some (lit "awesome-tools"))
    (Some (lit "A curated list of awesome tools")) None = -45 /\
  calculate_investability_score ascii_lower no_fromisoformat sample_utcnow sample_utcnow
    no_metrics None None None (Some (lit "awesome-tools"))
    (Some (lit "A curated list of awesome tools")) None = 0.
Proof. vm_compute. split; reflexivity. Qed.

Example series_a_points_above :
  let cs := {| has_company := true; has_pricing := true; has_enterprise := true;
               has_cloud := true; has_docs_site := true; commercial_score := 10 |} in
  series_a_points no_fromisoformat sample_utcnow top_metrics (Some (lit "seed"))
    (Some (CreatedDatetime (created_days_ago 400 None))) (Some cs) = 130 /\
  calculate_series_a_fit no_fromisoformat sample_utcnow top_metrics (Some (lit "seed"))
    (Some (CreatedDatetime (created_days_ago 400 None))) (Some cs) = 100.
Proof. vm_compute. split; reflexivity. Qed.

Example series_a_points_below :
  series_a_points no_fromisoformat sample_utcnow no_metrics (Some (lit "series-b"))
    (Some (CreatedDatetime (created_days_ago 1200 None))) None = -5 /\
  calculate_series_a_fit no_fromisoformat sample_utcnow no_metrics (Some (lit "series-b"))
    (Some (CreatedDatetime (created_days_ago 1200 None))) None = 0.
Proof. vm_compute. split; reflexivity. Qed.

(** A project with 1200 stars gets the breakout bonus at 100 days and not
    at 400 days. *)
Example recency_bonus_samples :
  let m := {| m_stars := Some 1200; m_forks := None; m_contributors := None;
              m_dependents := None; m_downloads := None; m_download_source := None;
              m_commits_3mo := None; m_prs_30d := None; m_issues_30d := None |} in
  recency_bonus no_fromisoformat sample_utcnow m
    (Some (CreatedDatetime (created_days_ago 100 (Some 0)))) = 10 /\
  recency_bonus no_fromisoformat sample_utcnow m
    (Some (CreatedDatetime (created_days_ago 400 (Some 0)))) = 0.
Proof. vm_compute. split; reflexivity. Qed.

(** ** The age penalty *)

(** C5. The age penalty of the investability scorer is 0 or -10 and never
    -15: the test for more than 730 days comes first, so a project of unknown
    or unfunded status older than three years also gets -10, and the branch
    for more than 1095 days is never reached. A timezone-aware creation date
    gets no penalty at all, because the statement that first computes the
    age raises and the block is skipped. The sample project, created 1200
    days ago, scores 15 where a penalty of -15 would give 10. *)
Theorem age_penalty_brackets (utcnow : Z) (funding_status : option str)
  (created_at : option created_arg) :
  let penalty := age_penalty fromisoformat utcnow funding_status created_at in
  (penalty = 0 \/ penalty = -10) /\
  (forall c d,
      created_at = Some c -> truthy_created created_at = true ->
      parse_created fromisoformat c = Ret d ->
      unknown_or_unfunded funding_status = true ->
      tzinfo d = None -> 730 < days_between utcnow d ->
      penalty = -10) /\
  (forall c d,
      created_at = Some c -> parse_created fromisoformat c = Ret d ->
      tzinfo d <> None ->
      penalty = 0) /\
  days_between sample_utcnow (created_days_ago 1200 None) = 1200 /\
  age_penalty no_fromisoformat sample_utcnow (Some (lit "unknown"))
    (Some (CreatedDatetime (created_days_ago 1200 None))) = -10 /\
  calculate_investability_score ascii_lower no_fromisoformat sample_utcnow sample_utcnow
    sample_metrics None (Some (lit "unknown")) None None None
    (Some (CreatedDatetime (created_days_ago 1200 None))) = 15 /\
  calculate_investability_score ascii_lower no_fromisoformat sample_utcnow sample_utcnow
    sample_metrics None (Some (lit "unknown")) None None None None = 25.
Proof.
  cbv zeta. split; [|split; [|split]].
  - unfold age_penalty. destruct created_at as [c|]; [|now left].
    destruct (truthy_created (Some c) && unknown_or_unfunded funding_status);
      [|now left].
    destruct (parse_created fromisoformat c) as [d|e]; cbn; [|now left].
    destruct (tzinfo d); cbn; [now left|].
    destruct (Z.ltb_spec 730 (days_between utcnow d)); [right; reflexivity|].
    destruct (Z.ltb_spec 1095 (days_between utcnow d)); [lia|left; reflexivity].
  - intros c d -> Ht Hp Hf Htz Hage. unfold age_penalty.
    rewrite Ht, Hf, Hp. cbn. rewrite Htz. cbn.
    destruct (Z.ltb_spec 730 (days_between utcnow d)); [reflexivity|lia].
  - intros c d -> Hp Htz. unfold age_penalty.
    destruct (truthy_created (Some c) && unknown_or_unfunded funding_status);
      [|reflexivity].
    rewrite Hp. cbn. destruct (tzinfo d); [reflexivity|contradiction].
  - vm_compute. repeat split; reflexivity.
Qed.

(** ** The non-investable penalty *)

(** C6. When the name and the description are both given and not empty and
    the filter flags the entity, the scorer takes 30 points off the score it
    clamps at the end; when the name or the description is missing or
    empty, it takes nothing off, the guard of the penalty block being
    [if repo_name and description]. *)
Theorem non_investable_penalty_spec (utcnow1 utcnow2 : Z) (metrics : metrics)
  (growth_metrics : option Database.growth_dict) (funding_status category : option str)
  (repo_name description : option str) (created_at : option created_arg) :
  let points := investability_points lower fromisoformat utcnow1 utcnow2 metrics
                  growth_metrics funding_status category in
  (forall name desc,
      repo_name = Some name -> description = Some desc ->
      name <> [] -> desc <> [] ->
      fst (is_non_investable_repo lower name (Some desc)) = true ->
      points repo_name description created_at = points None None created_at - 30) /\
  (truthy_opt_str repo_name = false \/ truthy_opt_str description = false ->
      points repo_name description created_at = points None None created_at).
Proof.
  cbv zeta. unfold investability_points. split.
  - intros name desc -> -> Hn Hd Hf.
    assert (P : non_investable_penalty lower (Some name) (Some desc) = -30).
    { unfold non_investable_penalty.
      destruct name; [contradiction|]. destruct desc; [contradiction|].
      cbn [truthy_opt_str truthy_str andb str_or_empty].
      destruct (is_non_investable_repo lower _ _) as [b r]. cbn in Hf. now rewrite Hf. }
    rewrite P. cbn [non_investable_penalty truthy_opt_str andb]. lia.
  - intros H.
    assert (P : non_investable_penalty lower repo_name description = 0).
    { unfold non_investable_penalty. destruct H as [-> | ->]; [reflexivity|].
      now rewrite andb_false_r. }
    rewrite P. cbn [non_investable_penalty truthy_opt_str andb]. lia.
Qed.

End ScorerProperties.

(** A project created 1200 days ago: -10 without a timezone, nothing with one. *)
Lemma age_penalty_brackets_witness :
  Analysis.age_penalty no_fromisoformat sample_utcnow (Some (lit "unfunded"))
    (Some (Analysis.CreatedDatetime (created_days_ago 1200 None))) = -10 /\
  Analysis.age_penalty no_fromisoformat sample_utcnow (Some (lit "unfunded"))
    (Some (Analysis.CreatedDatetime (created_days_ago 1200 (Some 0)))) = 0.
Proof.
  split.
  - apply (proj1 (proj2 (age_penalty_brackets no_fromisoformat sample_utcnow (Some (lit "unfunded"))
                           (Some (Analysis.CreatedDatetime (created_days_ago 1200 None)))))
             (Analysis.CreatedDatetime (created_days_ago 1200 None)) (created_days_ago 1200 None));
      try reflexivity.
  - apply (proj1 (proj2 (proj2 (age_penalty_brackets no_fromisoformat sample_utcnow (Some (lit "unfunded"))
                           (Some (Analysis.CreatedDatetime (created_days_ago 1200 (Some 0)))))))
             (Analysis.CreatedDatetime (created_days_ago 1200 (Some 0)))
             (created_days_ago 1200 (Some 0)));
      try reflexivity. discriminate.
Defined.

(** A flagged name without a description: the filter flags it, the scorer
    leaves the score as it is. *)
Lemma flagged_without_description :
  fst (Analysis.is_non_investable_repo ascii_lower (lit "awesome-python") None) = true /\
  Analysis.investability_points ascii_lower no_fromisoformat sample_utcnow sample_utcnow
    sample_metrics None None None (Some (lit "awesome-python")) None None = 20 /\
  Analysis.investability_points ascii_lower no_fromisoformat sample_utcnow sample_utcnow
    sample_metrics None None None None None None = 20 /\
  ~ (forall name description,
       fst (Analysis.is_non_investable_repo ascii_lower name description) = true ->
       Analysis.investability_points ascii_lower no_fromisoformat sample_utcnow sample_utcnow
         sample_metrics None None None (Some name) description None =
       Analysis.investability_points ascii_lower no_fromisoformat sample_utcnow sample_utcnow
         sample_metrics None None None None None None - 30).
Proof.
  assert (F : fst (Analysis.is_non_investable_repo ascii_lower (lit "awesome-python") None) = true)
    by (vm_compute; reflexivity).
  split; [exact F|]. split; [vm_compute; reflexivity|]. split; [vm_compute; reflexivity|].
  intros H. specialize (H (lit "awesome-python") None F).
  vm_compute in H. discriminate.
Qed.


(** The self-test of the module: a curated list with 5000 stars scores
    below 30. *)
Lemma non_investable_penalty_spec_witness :
  let m := {| m_stars := Some 5000; m_forks := None; m_contributors := Some 1;
              m_dependents := None; m_downloads := None; m_download_source := None;
              m_commits_3mo := Some 5; m_prs_30d := Some 0; m_issues_30d := None |} in
  Analysis.investability_points ascii_lower no_fromisoformat sample_utcnow sample_utcnow m
    None None None (Some (lit "awesome-tools"))
    (Some (lit "A curated list of awesome tools")) None =
  Analysis.investability_points ascii_lower no_fromisoformat sample_utcnow sample_utcnow m
    None None None None None None - 30 /\
  Analysis.calculate_investability_score ascii_lower no_fromisoformat sample_utcnow
    sample_utcnow m None None None (Some (lit "awesome-tools"))
    (Some (lit "A curated list of awesome tools")) None = 0.
Proof.
  intros m. split.
  - apply (proj1 (non_investable_penalty_spec ascii_lower no_fromisoformat
                    sample_utcnow sample_utcnow m None None None
                    (Some (lit "awesome-tools"))
                    (Some (lit "A curated list of awesome tools")) None)
             (lit "awesome-tools") (lit "A curated list of awesome tools"));
      try reflexivity; try discriminate.
  - vm_compute. reflexivity.
Defined.

(** * Further properties of the ledger *)

Section LedgerProperties.
Import Database.

Lemma filter_keeps_distinct_keys {R K : Type} (key : R -> K) (keep : R -> bool)
  (rows : list R) (Hrows : NoDup (map key rows)) :
  NoDup (map key (filter keep rows)).
Proof.
  induction rows as [|r rows IH]; cbn in *; [constructor|].
  apply NoDup_cons_iff in Hrows as [Hfresh Hrest].
  destruct (keep r); cbn; [|auto].
  apply NoDup_cons_iff. split; [|auto].
  rewrite in_map_iff. intros (r' & Ekey & Hin).
  apply filter_In in Hin as [Hin _].
  apply Hfresh. rewrite <- Ekey. now apply in_map.
Qed.

Lemma NoDup_snoc {A} (l : list A) (x : A) :
  NoDup l -> ~ In x l -> NoDup (l ++ [x]).
Proof.
  intros Hl Hx. apply NoDup_app; [assumption|repeat constructor; intros []|].
  intros a Ha [<-|[]]. now apply Hx.
Qed.

(** The rows [save_snapshot] leaves: the old ones of other keys, then the
    new one. *)
Lemma save_snapshot_rows (clk : clock) (repo_id : Z) (m : metrics) (t : db) :
  exists row,
    snapshots (save_snapshot clk repo_id m t) =
      filter (fun r => negb (snapshot_key repo_id (today clk) r)) (snapshots t) ++ [row] /\
    s_repo_id row = repo_id /\ s_snapshot_date row = today clk /\
    s_stars row = m_stars m /\ s_forks row = m_forks m /\
    s_contributors row = m_contributors m /\ s_dependents row = m_dependents m /\
    s_downloads row = m_downloads m /\ s_download_source row = m_download_source m /\
    s_commits_30d row = m_commits_3mo m /\ s_prs_30d row = m_prs_30d m /\
    s_issues_30d row = m_issues_30d m /\
    growth_metrics (save_snapshot clk repo_id m t) = growth_metrics t.
Proof.
  eexists. unfold save_snapshot. cbn [snapshots growth_metrics].
  split; [reflexivity|]. cbn. repeat split.
Qed.

(** What a run of the growth calculator that returns has done: nothing when
    the entity has no snapshot on or before today, else one growth row
    replaced. *)
Lemma calculate_growth_metrics_inv (clk : clock) (repo_id : Z) (t t' : db)
  (o : option growth_dict) :
  calculate_growth_metrics clk repo_id t = Ret (o, t') ->
  (get_snapshot_near t repo_id (today clk) = None /\ o = None /\ t' = t) \/
  (exists cur g,
      get_snapshot_near t repo_id (today clk) = Some cur /\ o = Some g /\
      repo_id_of g = repo_id /\ calculated_at g = today clk /\
      snapshots t' = snapshots t /\ snapshots_seq t' = snapshots_seq t /\
      growth_metrics t' =
        filter (fun r => negb (growth_key repo_id (today clk) r)) (growth_metrics t)
        ++ [growth_row_of (growth_metrics_seq t + 1) g]).
Proof.
  unfold calculate_growth_metrics.
  destruct (get_snapshot_near t repo_id (today clk)) as [cur|].
  - intros H. right. exists cur.
    destruct (growth_against cur (get_snapshot_near t repo_id (today clk - 7)))
      as [[[[a1 a2] a3] a4]|]; cbn [bind] in H; [|discriminate].
    destruct (growth_against cur (get_snapshot_near t repo_id (today clk - 30)))
      as [[[[b1 b2] b3] b4]|]; cbn [bind] in H; [|discriminate].
    match type of H with
    | bind ?c _ = _ => destruct c as [acc|]; cbn [bind] in H; [|discriminate]
    end.
    injection H as <- <-. eexists. split; [reflexivity|]. split; [reflexivity|].
    cbn. repeat split.
  - intros [= <- <-]. now left.
Qed.

Lemma snapshot_key_iff (repo_id : Z) (d : date) (r : snapshot_row) :
  snapshot_key repo_id d r = true <-> (s_repo_id r, s_snapshot_date r) = (repo_id, d).
Proof.
  unfold snapshot_key. rewrite andb_true_iff, !Z.eqb_eq.
  split; [intros [-> ->]; reflexivity|intros [= -> ->]; auto].
Qed.

Lemma growth_key_iff (repo_id : Z) (d : date) (r : growth_row) :
  growth_key repo_id d r = true <-> (g_repo_id r, g_calculated_at r) = (repo_id, d).
Proof.
  unfold growth_key. rewrite andb_true_iff, !Z.eqb_eq.
  split; [intros [-> ->]; reflexivity|intros [= -> ->]; auto].
Qed.

Lemma replaced_keys_unique {A} (key : A -> Z * Z) (keyb : A -> bool) (k : Z * Z)
  (l : list A) (x : A) :
  (forall r, keyb r = true <-> key r = k) -> key x = k ->
  NoDup (map key l) ->
  NoDup (map key (filter (fun r => negb (keyb r)) l ++ [x])).
Proof.
  intros Hk Hx Hnd. rewrite map_app. cbn [map].
  apply NoDup_snoc; [now apply filter_keeps_distinct_keys|].
  intros Hin. apply in_map_iff in Hin as (y & Ey & Hy).
  apply filter_In in Hy as [_ Hy]. apply negb_true_iff in Hy.
  assert (Hy' : keyb y = true) by (apply Hk; congruence).
  congruence.
Qed.

Lemma filter_map_unchanged_nil {A} (keyb : A -> bool) (l : list A) :
  (forall x, In x l -> keyb x = false) -> filter keyb l = [].
Proof.
  induction l as [|x l IH]; cbn; intros H; [reflexivity|].
  rewrite (H x) by now left. apply IH. intros; apply H; now right.
Qed.

(** X1. The UNIQUE constraints are kept by every writer: after
    [save_snapshot], after a run of the growth calculator that returns, and
    after the score update, no two snapshots share (entity, date) and no two
    growth records share (entity, calculation date). *)
Theorem unique_keys_preserved (clk : clock) (repo_id : Z) (m : metrics) (t : db) :
  unique_keys t ->
  unique_keys (save_snapshot clk repo_id m t) /\
  (forall o t', calculate_growth_metrics clk repo_id t = Ret (o, t') -> unique_keys t') /\
  (forall traction investability,
      unique_keys (update_growth_scores repo_id traction investability t)).
Proof.
  intros [Hs Hg]. split; [|split].
  - destruct (save_snapshot_rows clk repo_id m t) as (row & Er & Hr & Hd & H).
    split.
    + unfold snapshot_keys. rewrite Er.
      apply (replaced_keys_unique _ (snapshot_key repo_id (today clk)) (repo_id, today clk));
        [apply snapshot_key_iff|now rewrite Hr, Hd|exact Hs].
    + unfold growth_keys. cbn [save_snapshot growth_metrics]. exact Hg.
  - intros o t' H. apply calculate_growth_metrics_inv in H as [(_ & _ & ->)|H];
      [now split|].
    destruct H as (cur & g & _ & _ & Hr & Hd & Es & _ & Eg). split.
    + unfold snapshot_keys. rewrite Es. exact Hs.
    + unfold growth_keys. rewrite Eg.
      apply (replaced_keys_unique _ (growth_key repo_id (today clk)) (repo_id, today clk));
        [apply growth_key_iff|cbn; now rewrite Hr, Hd|exact Hg].
  - intros traction investability. split; [exact Hs|].
    unfold growth_keys, update_growth_scores. cbn [growth_metrics].
    rewrite map_map. unfold growth_keys in Hg.
    erewrite map_ext; [exact Hg|].
    intros r. destruct (max_calculated_at repo_id (growth_metrics t)); [|reflexivity].
    destruct (growth_key repo_id d r); reflexivity.
Qed.

Lemma sample_db_unique : unique_keys sample_db.
Proof.
  split; cbn; repeat constructor; cbn; intuition discriminate.
Qed.

Lemma unique_keys_preserved_witness :
  unique_keys (save_snapshot sample_clock 1 sample_metrics sample_db) /\
  (forall o t', calculate_growth_metrics sample_clock 1 sample_db = Ret (o, t') ->
                unique_keys t') /\
  (forall traction investability,
      unique_keys (update_growth_scores 1 traction investability sample_db)).
Proof.
  exact (unique_keys_preserved sample_clock 1 sample_metrics sample_db sample_db_unique).
Defined.

(** X2. A snapshot just written is the one the growth calculator reads:
    after [save_snapshot], the snapshot nearest on or before any day [d] from
    today on is the new row with the metrics written, provided the entity
    has no snapshot dated after today and up to [d]. *)
Theorem save_snapshot_then_nearest (clk : clock) (repo_id : Z) (m : metrics) (t : db)
  (d : date) :
  today clk <= d ->
  (forall r, In r (snapshots t) -> s_repo_id r = repo_id ->
             s_snapshot_date r <= d -> s_snapshot_date r <= today clk) ->
  exists row,
    get_snapshot_near (save_snapshot clk repo_id m t) repo_id d = Some row /\
    s_snapshot_date row = today clk /\
    s_stars row = m_stars m /\ s_forks row = m_forks m /\
    s_contributors row = m_contributors m /\ s_dependents row = m_dependents m /\
    s_downloads row = m_downloads m /\ s_download_source row = m_download_source m /\
    s_commits_30d row = m_commits_3mo m /\ s_prs_30d row = m_prs_30d m /\
    s_issues_30d row = m_issues_30d m.
Proof.
  intros Hd Hlate.
  destruct (save_snapshot_rows clk repo_id m t) as (row & Er & Hr & Hdate & Hm).
  pose proof (get_snapshot_near_spec (save_snapshot clk repo_id m t) repo_id d) as Hn.
  unfold nearest_on_or_before in Hn.
  assert (Hin : In row (snapshots (save_snapshot clk repo_id m t))).
  { rewrite Er. apply in_or_app. right. now left. }
  destruct (get_snapshot_near (save_snapshot clk repo_id m t) repo_id d) as [r|].
  - destruct Hn as (Hrin & Hrr & Hrd & Hmax).
    assert (r = row) as ->.
    { rewrite Er in Hrin. apply in_app_or in Hrin as [Hold|[<-|[]]]; [|reflexivity].
      apply filter_In in Hold as [Hold Hk]. apply negb_true_iff in Hk.
      specialize (Hmax row Hin Hr ltac:(lia)).
      specialize (Hlate r Hold Hrr Hrd).
      assert (Hk' : snapshot_key repo_id (today clk) r = true)
        by (apply snapshot_key_iff; f_equal; lia).
      congruence. }
    exists row. split; [reflexivity|]. split; [exact Hdate|].
    repeat (split; [apply Hm|]). apply Hm.
  - exfalso. apply (Hn row Hin Hr). lia.
Qed.

Lemma save_snapshot_then_nearest_witness :
  exists row,
    get_snapshot_near (save_snapshot sample_clock 1 sample_metrics sample_db) 1 739000
      = Some row /\
    s_snapshot_date row = 739000 /\ s_stars row = Some 10000.
Proof.
  destruct (save_snapshot_then_nearest sample_clock 1 sample_metrics sample_db 739000)
    as (row & H & Hd & Hs & _).
  - cbn. lia.
  - cbn. intros r [<-|[<-|[<-|[]]]] _; cbn; lia.
  - exists row. split; [exact H|]. split; [exact Hd|exact Hs].
Defined.

(** X3. The growth calculator returns no record, and leaves the database as
    it is, exactly when the entity has no snapshot dated today or earlier. *)
Theorem no_snapshot_no_growth (clk : clock) (repo_id : Z) (t : db) :
  calculate_growth_metrics clk repo_id t = Ret (None, t) <->
  (forall r, In r (snapshots t) -> s_repo_id r = repo_id ->
             today clk < s_snapshot_date r).
Proof.
  pose proof (get_snapshot_near_spec t repo_id (today clk)) as Hn.
  split.
  - intros H. apply calculate_growth_metrics_inv in H as [(E & _)|H].
    + rewrite E in Hn. cbn in Hn. intros r Hin Hr.
      specialize (Hn r Hin Hr). lia.
    + destruct H as (cur & g & _ & [=] & _).
  - intros H. unfold calculate_growth_metrics.
    destruct (get_snapshot_near t repo_id (today clk)) as [r|]; [|reflexivity].
    cbn in Hn. destruct Hn as (Hin & Hr & Hd & _).
    specialize (H r Hin Hr). lia.
Qed.

(** X4. A first observation has no growth: when the entity has a snapshot
    for today but none dated seven days ago or earlier, the calculator
    returns a record whose nine growth values are all [None], and it still
    writes a growth row for today. *)
Theorem first_observation_growth (clk : clock) (repo_id : Z) (t : db)
  (cur : snapshot_row) :
  get_snapshot_near t repo_id (today clk) = Some cur ->
  (forall r, In r (snapshots t) -> s_repo_id r = repo_id ->
             today clk - 7 < s_snapshot_date r) ->
  exists g t',
    calculate_growth_metrics clk repo_id t = Ret (Some g, t') /\
    stars_wow g = None /\ stars_mom g = None /\ stars_acceleration g = None /\
    forks_wow g = None /\ forks_mom g = None /\
    downloads_wow g = None /\ downloads_mom g = None /\
    contributors_wow g = None /\ contributors_mom g = None /\
    exists row, In row (growth_metrics t') /\ growth_key repo_id (today clk) row = true.
Proof.
  intros Hcur Hnew.
  assert (Hnone : forall d, d <= today clk - 7 -> get_snapshot_near t repo_id d = None).
  { intros d Hd. pose proof (get_snapshot_near_spec t repo_id d) as Hn.
    destruct (get_snapshot_near t repo_id d) as [r|]; [|reflexivity].
    cbn in Hn. destruct Hn as (Hin & Hr & Hrd & _).
    specialize (Hnew r Hin Hr). lia. }
  unfold calculate_growth_metrics.
  rewrite Hcur, (Hnone (today clk - 7)), (Hnone (today clk - 30)) by lia.
  cbn [growth_against bind].
  do 2 eexists. split; [reflexivity|]. cbn [stars_wow stars_mom stars_acceleration
    forks_wow forks_mom downloads_wow downloads_mom contributors_wow contributors_mom
    growth_metrics].
  repeat (split; [reflexivity|]).
  eexists. split; [apply in_or_app; right; left; reflexivity|].
  unfold growth_key. cbn. now rewrite !Z.eqb_refl.
Qed.

Lemma first_observation_growth_witness :
  let t := save_snapshot sample_clock 7 sample_metrics sample_db in
  exists g t',
    calculate_growth_metrics sample_clock 7 t = Ret (Some g, t') /\
    stars_wow g = None /\ stars_mom g = None /\ stars_acceleration g = None.
Proof.
  intros t.
  destruct (first_observation_growth sample_clock 7 t
              (sample_snapshot_of sample_clock 4 7 sample_metrics))
    as (g & t' & H & H1 & H2 & H3 & _).
  - reflexivity.
  - cbn. intros r [<-|[<-|[<-|[<-|[]]]]]; cbn; intros; try discriminate; lia.
  - exists g, t'. auto.
Defined.

(** X5. A run of the growth calculator never touches the snapshot table,
    and of the growth table it changes the record of (entity, today) only. *)
Theorem growth_calculation_frame (clk : clock) (repo_id : Z) (t t' : db)
  (o : option growth_dict) :
  calculate_growth_metrics clk repo_id t = Ret (o, t') ->
  snapshots t' = snapshots t /\
  forall repo_id' d', (repo_id', d') <> (repo_id, today clk) ->
    filter (growth_key repo_id' d') (growth_metrics t') =
    filter (growth_key repo_id' d') (growth_metrics t).
Proof.
  intros H. apply calculate_growth_metrics_inv in H as [(_ & _ & ->)|H]; [now split|].
  destruct H as (cur & g & _ & _ & Hr & Hd & Es & _ & Eg).
  split; [exact Es|]. intros repo_id' d' N. rewrite Eg, filter_app.
  rewrite filter_negb_frame.
  - cbn [filter]. destruct (growth_key repo_id' d' _) eqn:K; [|apply app_nil_r].
    apply growth_key_iff in K. cbn in K. rewrite Hr, Hd in K. congruence.
  - intros x Hx. apply growth_key_iff in Hx.
    destruct (growth_key repo_id (today clk) x) eqn:K; [|reflexivity].
    apply growth_key_iff in K. congruence.
Qed.

Lemma growth_calculation_frame_witness :
  exists o t',
    calculate_growth_metrics sample_clock 1 sample_db = Ret (o, t') /\
    snapshots t' = snapshots sample_db.
Proof.
  destruct (calculate_growth_metrics sample_clock 1 sample_db) as [[o t']|e] eqn:E.
  - exists o, t'. split; [reflexivity|].
    exact (proj1 (growth_calculation_frame sample_clock 1 sample_db t' o E)).
  - vm_compute in E. discriminate.
Defined.

(** ** Reading the latest growth record *)







(** ** Reading the history *)

Lemma insert_by_date_perm (r : snapshot_row) (l : list snapshot_row) :
  Permutation (insert_by_date r l) (r :: l).
Proof.
  induction l as [|x l IH]; cbn; [reflexivity|].
  destruct (s_snapshot_date r <? s_snapshot_date x); [reflexivity|].
  rewrite IH. apply perm_swap.
Qed.

Lemma order_by_date_perm (l : list snapshot_row) : Permutation (order_by_date l) l.
Proof.
  induction l as [|x l IH]; cbn; [reflexivity|].
  fold (order_by_date l). rewrite insert_by_date_perm. now apply perm_skip.
Qed.

Lemma insert_by_date_sorted (r : snapshot_row) (l : list snapshot_row) :
  StronglySorted date_le l -> StronglySorted date_le (insert_by_date r l).
Proof.
  induction 1 as [|x l Hs IH Hx]; cbn.
  - repeat constructor.
  - destruct (Z.ltb_spec (s_snapshot_date r) (s_snapshot_date x)) as [Hlt|Hge].
    + constructor; [now constructor|].
      constructor; [unfold date_le; lia|].
      rewrite Forall_forall in *. intros y Hy. specialize (Hx y Hy).
      unfold date_le in *. lia.
    + constructor; [exact IH|].
      rewrite Forall_forall in *. intros y Hy.
      apply (Permutation_in _ (insert_by_date_perm r l)) in Hy as [<-|Hy];
        [exact Hge|now apply Hx].
Qed.

Lemma order_by_date_sorted (l : list snapshot_row) :
  StronglySorted date_le (order_by_date l).
Proof.
  induction l as [|x l IH]; cbn; [constructor|].
  now apply insert_by_date_sorted.
Qed.

Lemma sorted_strict (l : list snapshot_row) :
  StronglySorted date_le l -> NoDup (map s_snapshot_date l) ->
  StronglySorted date_lt l.
Proof.
  induction 1 as [|x l Hs IH Hx]; cbn; intros Hnd; [constructor|].
  inversion Hnd as [|? ? Hn Hl]; subst.
  constructor; [now apply IH|].
  rewrite Forall_forall in *. intros y Hy. specialize (Hx y Hy).
  unfold date_le, date_lt in *.
  destruct (Z.eq_dec (s_snapshot_date x) (s_snapshot_date y)) as [E|E]; [|lia].
  exfalso. apply Hn. rewrite E. now apply in_map.
Qed.

(** X7. [get_snapshots] returns exactly the snapshots of the entity dated
    within the window (today minus [days], or later), each once, in ascending
    date order; under the UNIQUE constraint the dates are strictly
    ascending, one snapshot per day. *)
Theorem get_snapshots_spec (clk : clock) (repo_id days : Z) (t : db) :
  let result := get_snapshots clk repo_id days t in
  Permutation result
    (filter (fun r => (s_repo_id r =? repo_id) && (today clk - days <=? s_snapshot_date r))
       (snapshots t)) /\
  (forall r, In r result <->
             In r (snapshots t) /\ s_repo_id r = repo_id /\
             today clk - days <= s_snapshot_date r) /\
  StronglySorted date_le result /\
  (unique_keys t -> StronglySorted date_lt result).
Proof.
  cbv zeta. unfold get_snapshots.
  set (window := filter _ (snapshots t)).
  assert (Hw : forall r, In r window <->
                         In r (snapshots t) /\ s_repo_id r = repo_id /\
                         today clk - days <= s_snapshot_date r).
  { intros r. unfold window. rewrite filter_In, andb_true_iff, Z.eqb_eq, Z.leb_le.
    tauto. }
  split; [apply order_by_date_perm|]. split; [|split].
  - intros r. rewrite <- Hw. split; apply Permutation_in;
      [apply order_by_date_perm|symmetry; apply order_by_date_perm].
  - apply order_by_date_sorted.
  - intros [Hs _]. apply sorted_strict; [apply order_by_date_sorted|].
    apply (Permutation_NoDup (l := map s_snapshot_date window));
      [apply Permutation_map; symmetry; apply order_by_date_perm|].
    apply (NoDup_map_inv (pair repo_id)). rewrite map_map.
    erewrite map_ext_in.
    + unfold window. apply filter_keeps_distinct_keys. exact Hs.
    + intros r Hr. apply Hw in Hr as (_ & -> & _). reflexivity.
Qed.

Lemma get_snapshots_spec_witness :
  map s_snapshot_date (get_snapshots sample_clock 1 10 sample_db) = [738993; 739000] /\
  StronglySorted date_lt (get_snapshots sample_clock 1 10 sample_db).
Proof.
  split; [vm_compute; reflexivity|].
  exact (proj2 (proj2 (proj2 (get_snapshots_spec sample_clock 1 10 sample_db)))
           sample_db_unique).
Defined.

Lemma unique_filter_length {A} (key : A -> Z * Z) (keyb : A -> bool) (k : Z * Z)
  (l : list A) :
  (forall r, keyb r = true <-> key r = k) -> NoDup (map key l) ->
  List.length (filter keyb l) = if existsb keyb l then 1%nat else 0%nat.
Proof.
  intros Hk. induction l as [|x l IH]; cbn; intros Hnd; [reflexivity|].
  inversion Hnd as [|? ? Hn Hl]; subst.
  destruct (keyb x) eqn:Kx; cbn.
  - assert (E : filter keyb l = []).
    { apply filter_map_unchanged_nil. intros y Hy.
      destruct (keyb y) eqn:Ky; [|reflexivity].
      exfalso. apply Hn. apply Hk in Kx, Ky. rewrite Kx, <- Ky. now apply in_map. }
    now rewrite E.
  - now apply IH.
Qed.

(** X8. Under the UNIQUE constraint [save_snapshot] adds one snapshot when
    the entity has none for today and keeps the number of snapshots when it
    has one. *)
Theorem save_snapshot_count (clk : clock) (repo_id : Z) (m : metrics) (t : db) :
  unique_keys t ->
  get_snapshot_count (save_snapshot clk repo_id m t) =
  get_snapshot_count t +
  (if existsb (snapshot_key repo_id (today clk)) (snapshots t) then 0 else 1).
Proof.
  intros [Hs _]. unfold get_snapshot_count.
  destruct (save_snapshot_rows clk repo_id m t) as (row & -> & _).
  rewrite length_app. cbn [List.length].
  pose proof (filter_length (snapshot_key repo_id (today clk)) (snapshots t)) as Hl.
  rewrite (unique_filter_length _ _ (repo_id, today clk) _
             (snapshot_key_iff repo_id (today clk)) Hs) in Hl.
  destruct (existsb (snapshot_key repo_id (today clk)) (snapshots t)); lia.
Qed.

Lemma save_snapshot_count_witness :
  get_snapshot_count (save_snapshot sample_clock 1 sample_metrics sample_db) = 3 /\
  get_snapshot_count (save_snapshot sample_clock 2 sample_metrics sample_db) = 4.
Proof.
  split.
  - rewrite (save_snapshot_count sample_clock 1 sample_metrics sample_db sample_db_unique).
    reflexivity.
  - rewrite (save_snapshot_count sample_clock 2 sample_metrics sample_db sample_db_unique).
    reflexivity.
Defined.

End LedgerProperties.


(** * Properties of table [repos] *)

Section RepoProperties.
Import Database.

Lemma find_map_preserved {A} (p : A -> bool) (f : A -> A) (l : list A) :
  (forall x, p (f x) = p x) -> find p (map f l) = option_map f (find p l).
Proof.
  intros H. induction l as [|x l IH]; [reflexivity|].
  cbn. rewrite H. destruct (p x); [reflexivity|exact IH].
Qed.

Lemma find_app_last {A} (p : A -> bool) (l : list A) (x : A) :
  find p l = None -> p x = true -> find p (l ++ [x]) = Some x.
Proof.
  intros Hn Hx. induction l as [|y l IH]; cbn in *; [now rewrite Hx|].
  destruct (p y); [discriminate|now apply IH].
Qed.

Lemma update_repo_column {B} (col : repo_row -> B) (repo_id : Z)
  (set : repo_row -> repo_row) (t : repos_table) :
  (forall r, col (set r) = col r) ->
  map col (repos (update_repo repo_id set t)) = map col (repos t).
Proof.
  intros H. unfold update_repo. cbn [repos]. rewrite map_map.
  apply map_ext. intros r. destruct (r_id r =? repo_id); [apply H|reflexivity].
Qed.

Lemma update_repo_In (repo_id : Z) (set : repo_row -> repo_row) (t : repos_table)
  (r' : repo_row) :
  (forall r, r_id (set r) = r_id r) ->
  In r' (repos (update_repo repo_id set t)) -> r_id r' = repo_id ->
  exists r, In r (repos t) /\ r_id r = repo_id /\ r' = set r.
Proof.
  intros Hid Hin Hr. unfold update_repo in Hin. cbn [repos] in Hin.
  apply in_map_iff in Hin as (r & E & Hin). exists r.
  destruct (Z.eqb_spec (r_id r) repo_id) as [Er|Er].
  - auto.
  - subst r'. contradiction.
Qed.


(** After a call for [owner], [name], looking the full name up finds a row
    with the id returned. *)
Lemma get_or_create_repo_found (clk : repo_clock) (owner name : str)
  (description language : option str) (t : repos_table) :
  exists row,
    find (fun r => str_eqb (r_full_name r) (owner ++ lit "/" ++ name))
      (repos (snd (get_or_create_repo clk owner name description language t))) = Some row /\
    r_id row = fst (get_or_create_repo clk owner name description language t) /\
    (find (fun r => str_eqb (r_full_name r) (owner ++ lit "/" ++ name)) (repos t) = None ->
     r_description row = description /\ r_language row = language /\
     r_is_big_tech row = Some false /\ r_is_excluded row = Some false).
Proof.
  unfold get_or_create_repo.
  destruct (find _ (repos t)) as [row|] eqn:F; cbn [fst snd].
  - unfold update_repo. cbn [repos].
    rewrite find_map_preserved, F.
    + cbn [option_map]. eexists. split; [reflexivity|]. split; [|discriminate].
      destruct (r_id row =? r_id row); reflexivity.
    + intros x. destruct (r_id x =? r_id row); reflexivity.
  - cbn [repos]. eexists. split.
    + apply find_app_last; [exact F|]. cbn. apply str_eqb_refl.
    + cbn. auto.
Qed.



(** X10. [get_or_create_repo] keeps the constraints of the table, and the
    id it returns is the id of a row under the full name [owner/name]; a row
    it creates starts with the description and language given and with both
    flags false. *)
Theorem get_or_create_repo_unique (clk : repo_clock) (owner name : str)
  (description language : option str) (t : repos_table) :
  unique_repos t ->
  let result := get_or_create_repo clk owner name description language t in
  unique_repos (snd result) /\
  exists row,
    In row (repos (snd result)) /\ r_id row = fst result /\
    r_full_name row = owner ++ lit "/" ++ name /\
    ((forall r, In r (repos t) -> r_full_name r <> owner ++ lit "/" ++ name) ->
     r_description row = description /\ r_language row = language /\
     r_is_big_tech row = Some false /\ r_is_excluded row = Some false /\
     List.length (repos (snd result)) = S (List.length (repos t))).
Proof.
  intros (Hn & Hi & Hs). cbv zeta.
  destruct (get_or_create_repo_found clk owner name description language t)
    as (row & F & Hid & Hnew).
  split.
  - unfold get_or_create_repo.
    destruct (find _ (repos t)) as [r0|] eqn:F0; cbn [snd].
    + split; [|split].
      * rewrite update_repo_column by reflexivity. exact Hn.
      * rewrite update_repo_column by reflexivity. exact Hi.
      * intros r Hr. unfold update_repo in Hr. cbn [repos repos_seq] in *.
        apply in_map_iff in Hr as (r1 & <- & Hr1). specialize (Hs r1 Hr1).
        destruct (r_id r1 =? r_id r0); cbn; exact Hs.
    + unfold unique_repos. cbn [repos repos_seq]. split; [|split].
      * rewrite map_app. cbn [map r_full_name]. apply NoDup_snoc; [exact Hn|].
        intros Hin. apply in_map_iff in Hin as (r & Er & Hr).
        apply (find_none _ _ F0) in Hr. rewrite Er, str_eqb_refl in Hr. discriminate.
      * rewrite map_app. cbn [map r_id]. apply NoDup_snoc; [exact Hi|].
        intros Hin. apply in_map_iff in Hin as (r & Er & Hr).
        specialize (Hs r Hr). lia.
      * intros r Hr. apply in_app_or in Hr as [Hr|[<-|[]]];
          [specialize (Hs r Hr); lia|cbn; lia].
  - exists row. apply find_some in F as [Hin Hf]. apply str_eqb_eq in Hf.
    split; [exact Hin|]. split; [exact Hid|]. split; [exact Hf|].
    intros Hfresh.
    assert (F0 : find (fun r => str_eqb (r_full_name r) (owner ++ lit "/" ++ name))
                   (repos t) = None).
    { destruct (find _ (repos t)) as [r0|] eqn:F0; [|reflexivity].
      apply find_some in F0 as [Hr0 E0]. apply str_eqb_eq in E0.
      now destruct (Hfresh r0 Hr0). }
    destruct (Hnew F0) as (H1 & H2 & H3 & H4).
    repeat (split; [assumption|]).
    unfold get_or_create_repo. rewrite F0. cbn [snd repos].
    rewrite length_app. cbn. lia.
Qed.

Lemma empty_repos_unique : unique_repos empty_repos.
Proof. repeat split; try constructor. intros r []. Qed.

Lemma get_or_create_repo_unique_witness :
  let result := get_or_create_repo sample_repo_clock (lit "acme") (lit "db")
                  (Some (lit "A database")) None empty_repos in
  unique_repos (snd result) /\ fst result = 1 /\
  map r_full_name (repos (snd result)) = [lit "acme/db"].
Proof.
  intros result. split; [|split; vm_compute; reflexivity].
  exact (proj1 (get_or_create_repo_unique sample_repo_clock (lit "acme") (lit "db")
                  (Some (lit "A database")) None empty_repos empty_repos_unique)).
Defined.




(** X12. The two ways to flag a big-tech owner differ, and so do the two
    ways to store funding: [mark_as_big_tech] sets [is_big_tech] and
    [is_excluded] to the same value, while [update_repo_metadata] sets
    [is_big_tech] and leaves [is_excluded] as it was; [update_repo_funding]
    always overwrites the amount, with NULL when none is given, while
    [update_repo_metadata] keeps the stored amount when none is given. *)
Theorem repo_update_paths (clk : repo_clock) (repo_id : Z) (flag : bool)
  (funding_status : option str) (status : str) (t : repos_table) (r' : repo_row) :
  r_id r' = repo_id ->
  (In r' (repos (mark_as_big_tech repo_id (Some flag) t)) ->
   r_is_big_tech r' = Some flag /\ r_is_excluded r' = Some flag) /\
  (In r' (repos (update_repo_metadata clk repo_id None None None (Some flag) None None t)) ->
   r_is_big_tech r' = Some flag /\
   exists r, In r (repos t) /\ r_id r = repo_id /\ r_is_excluded r' = r_is_excluded r) /\
  (In r' (repos (update_repo_funding repo_id funding_status None t)) ->
   r_funding_status r' = funding_status /\ r_funding_amount r' = None) /\
  (In r' (repos (update_repo_metadata clk repo_id None (Some status) None None None None t)) ->
   r_funding_status r' = Some status /\
   exists r, In r (repos t) /\ r_id r = repo_id /\ r_funding_amount r' = r_funding_amount r).
Proof.
  intros Hid. repeat split.
  - unfold mark_as_big_tech in H.
    apply update_repo_In in H as (r & _ & _ & ->); [reflexivity|reflexivity|exact Hid].
  - unfold mark_as_big_tech in H.
    apply update_repo_In in H as (r & _ & _ & ->); [reflexivity|reflexivity|exact Hid].
  - unfold update_repo_metadata in H. cbn [is_given orb] in H.
    apply update_repo_In in H as (r & _ & _ & ->); [reflexivity|reflexivity|exact Hid].
  - unfold update_repo_metadata in H. cbn [is_given orb] in H.
    apply update_repo_In in H as (r & Hr & Hrid & ->); [|reflexivity|exact Hid].
    exists r. auto.
  - unfold update_repo_funding in H.
    apply update_repo_In in H as (r & _ & _ & ->); [reflexivity|reflexivity|exact Hid].
  - unfold update_repo_funding in H.
    apply update_repo_In in H as (r & _ & _ & ->); [reflexivity|reflexivity|exact Hid].
  - unfold update_repo_metadata in H. cbn [is_given orb] in H.
    apply update_repo_In in H as (r & _ & _ & ->); [reflexivity|reflexivity|exact Hid].
  - unfold update_repo_metadata in H. cbn [is_given orb] in H.
    apply update_repo_In in H as (r & Hr & Hrid & ->); [|reflexivity|exact Hid].
    exists r. auto.
Qed.

Lemma repo_update_paths_witness :
  map (fun r => (r_is_big_tech r, r_is_excluded r))
    (repos (mark_as_big_tech 1 (Some true) sample_repos)) = [(Some true, Some true)] /\
  map (fun r => (r_is_big_tech r, r_is_excluded r))
    (repos (update_repo_metadata sample_repo_clock 1 None None None (Some true) None None
              sample_repos)) = [(Some true, Some false)] /\
  forall r', In r' (repos (mark_as_big_tech 1 (Some true) sample_repos)) ->
             r_is_big_tech r' = Some true /\ r_is_excluded r' = Some true.
Proof.
  split; [vm_compute; reflexivity|]. split; [vm_compute; reflexivity|].
  intros r' H.
  assert (Hid : r_id r' = 1) by (destruct H as [<-|[]]; reflexivity).
  exact (proj1 (repo_update_paths sample_repo_clock 1 true None (lit "seed")
                  sample_repos r' Hid) H).
Defined.

End RepoProperties.

(** * Further properties of the classifiers *)

Section MoreClassifierProperties.
Import Analysis.

Variable lower : str -> str.

(** X13. The non-investable filter flags an entity exactly when a name
    pattern occurs in the lower-cased name or a description pattern occurs in
    the lower-cased description; a reason is given exactly when it flags; a
    matching name pattern is the reason even if the description matches too;
    and a missing description counts as an empty one. *)
Theorem is_non_investable_repo_spec (name : str) (description : option str) :
  let r := is_non_investable_repo lower name description in
  let by_name := exists p, In p name_patterns /\ contains p (lower name) = true in
  let by_description :=
    exists p, In p description_patterns /\
              contains p (lower (str_or_empty description)) = true in
  (fst r = true <-> by_name \/ by_description) /\
  (snd r = None <-> fst r = false) /\
  (by_name ->
   exists p, In p name_patterns /\ contains p (lower name) = true /\
             snd r = Some (lit "name matches '" ++ p ++ lit "'")) /\
  (by_description -> ~ by_name ->
   exists p, In p description_patterns /\
             contains p (lower (str_or_empty description)) = true /\
             snd r = Some (lit "description matches '" ++ p ++ lit "'")) /\
  is_non_investable_repo lower name None = is_non_investable_repo lower name (Some []).
Proof.
  cbv zeta. unfold is_non_investable_repo.
  destruct (find (fun pattern => contains pattern (lower name)) name_patterns)
    as [p|] eqn:Fn.
  - pose proof (find_some _ _ Fn) as [Hin Hc]. cbn [fst snd].
    split; [split; [intros _; left; now exists p|reflexivity]|].
    split; [split; discriminate|].
    split; [intros _; now exists p|].
    split; [|reflexivity].
    intros _ Hno. exfalso. apply Hno. now exists p.
  - pose proof (find_none _ _ Fn) as Hnone.
    assert (Hno : ~ exists p, In p name_patterns /\ contains p (lower name) = true).
    { intros (p & Hin & Hc). rewrite (Hnone p Hin) in Hc. discriminate. }
    destruct (find (fun pattern => contains pattern (lower (str_or_empty description)))
                description_patterns) as [p|] eqn:Fd; cbn [fst snd].
    + pose proof (find_some _ _ Fd) as [Hin Hc].
      split; [split; [intros _; right; now exists p|reflexivity]|].
      split; [split; discriminate|].
      split; [intros H; now destruct Hno|].
      split; [|reflexivity].
      intros _ _. now exists p.
    + pose proof (find_none _ _ Fd) as Hnoned.
      assert (Hnod : ~ exists p, In p description_patterns /\
                       contains p (lower (str_or_empty description)) = true).
      { intros (p & Hin & Hc). rewrite (Hnoned p Hin) in Hc. discriminate. }
      split; [split; [discriminate|intros [H|H]; contradiction]|].
      split; [split; reflexivity|].
      split; [intros H; contradiction|].
      split; [intros H; contradiction|reflexivity].
Qed.

(** The classifier answers a category of the table or [other]. *)
Lemma categorize_repo_member (description : option str) (topics : option (list str))
  (readme : option str) :
  In (categorize_repo lower description topics readme) category_names.
Proof.
  unfold categorize_repo.
  set (text := category_text lower description topics readme).
  rewrite category_scores_eq
    by (cbn [map app]; apply distinct_strs_NoDup, category_names_distinct).
  cbn [app].
  destruct (positive_scores CATEGORY_KEYWORDS text) as [|first rest] eqn:P.
  - do 9 right. now left.
  - destruct (max_from_spec rest first) as (pre' & v & post' & E & _).
    rewrite <- P in E.
    destruct (positive_scores_split _ _ _ _ _ _ E) as (pre & kws & post & Ht & _).
    assert (Hin : In (max_from first rest) (map fst CATEGORY_KEYWORDS)).
    { rewrite Ht, map_app. apply in_or_app. right. now left. }
    change category_names with (map fst CATEGORY_KEYWORDS ++ [lit "other"]).
    apply in_or_app. now left.
Qed.

(** X14. The classifier's answer is always one of the nine category names
    of the table or [other]; an empty topic list counts as no topic list and
    an empty README as no README, and without description, topics and README
    the answer is [other]. *)
Theorem categorize_repo_closed (description : option str) (topics : option (list str))
  (readme : option str) :
  In (categorize_repo lower description topics readme) category_names /\
  categorize_repo lower description (Some []) readme =
    categorize_repo lower description None readme /\
  categorize_repo lower description topics (Some []) =
    categorize_repo lower description topics None /\
  categorize_repo lower None topics readme =
    categorize_repo lower (Some []) topics readme /\
  (lower [] = [] -> categorize_repo lower None None None = lit "other").
Proof.
  split; [apply categorize_repo_member|].
  split; [reflexivity|]. split; [reflexivity|]. split; [reflexivity|].
  intros E. unfold categorize_repo, category_text.
  cbn [str_or_empty truthy_opt_str]. rewrite E. vm_compute. reflexivity.
Qed.

End MoreClassifierProperties.

Lemma is_non_investable_repo_spec_witness :
  snd (Analysis.is_non_investable_repo ascii_lower (lit "awesome-cheatsheet")
         (Some (lit "A curated list"))) <> None /\
  exists p, In p Analysis.name_patterns /\
            snd (Analysis.is_non_investable_repo ascii_lower (lit "awesome-cheatsheet")
                   (Some (lit "A curated list")))
            = Some (lit "name matches '" ++ p ++ lit "'").
Proof.
  pose proof (is_non_investable_repo_spec ascii_lower (lit "awesome-cheatsheet")
                (Some (lit "A curated list"))) as (_ & _ & H & _).
  destruct H as (p & Hin & _ & Hr).
  - exists (lit "awesome-"). split; [now left|vm_compute; reflexivity].
  - split; [rewrite Hr; discriminate|]. now exists p.
Defined.

Lemma categorize_repo_closed_witness :
  Analysis.categorize_repo ascii_lower None None None = lit "other".
Proof.
  exact (proj2 (proj2 (proj2 (proj2
           (categorize_repo_closed ascii_lower None None None)))) eq_refl).
Defined.

(** * Further properties of the funding resolver and the scorers *)

Lemma known_funded_stages :
  forallb (fun e => existsb (str_eqb (fst (fst (snd e))))
                      (map lit ["seed"; "series-a"; "series-b"; "series-c"; "series-d"]%string))
    Analysis.known_funded = true.
Proof. vm_compute. reflexivity. Qed.

Lemma known_funded_get_stage (key : str) (status amount source : str) :
  Analysis.known_funded_get key = Some (status, amount, source) ->
  In status (map lit ["seed"; "series-a"; "series-b"; "series-c"; "series-d"]%string).
Proof.
  unfold Analysis.known_funded_get.
  destruct (find _ Analysis.known_funded) as [e|] eqn:F; [|discriminate].
  intros [= E]. apply find_some in F as [Hin _].
  pose proof known_funded_stages as H. rewrite forallb_forall in H.
  specialize (H e Hin). rewrite E in H. cbn [fst snd] in H.
  apply existsb_exists in H as (x & Hx & Ex). apply str_eqb_eq in Ex. now subst.
Qed.

Section ResolverProperties.
Import Analysis.

Variable lower : str -> str.

(** The stage the resolver answers is one of six. *)
Lemma detect_funding_status_stage (owner repo : str) (description : option str) :
  In (fst (fst (detect_funding_status lower owner repo description))) detected_stages.
Proof.
  unfold detect_funding_status.
  destruct (known_funded_get (lower owner)) as [[[status amount] source]|] eqn:K.
  - cbn [fst]. apply known_funded_get_stage in K.
    change detected_stages with
      (map lit ["seed"; "series-a"; "series-b"; "series-c"; "series-d"]%string
       ++ [lit "unknown"]).
    apply in_or_app. now left.
  - match goal with |- context [if ?c then _ else _] => destruct c end; cbn [fst].
    + now left.
    + do 5 right. now left.
Qed.

(** X15. The funding resolver looks the lower-cased owner up first: a known
    owner gets the stage, amount and source of the table whatever the
    description says. Otherwise a description naming the accelerator gives
    [seed], and anything else [unknown]. The stage is one of seed, series-a
    to series-d and unknown, never [unfunded] or [acquired], and the amount
    and the source are absent exactly when the stage is [unknown]. *)
Theorem detect_funding_status_spec (owner repo : str) (description : option str) :
  let r := detect_funding_status lower owner repo description in
  let status := fst (fst r) in
  let yc := truthy_opt_str description &&
            (contains (lit "y combinator") (lower (str_or_empty description)) ||
             contains (lit "(yc") (lower (str_or_empty description))) in
  In status detected_stages /\
  status <> lit "unfunded" /\ status <> lit "acquired" /\
  (forall stage amount source,
      known_funded_get (lower owner) = Some (stage, amount, source) ->
      r = (stage, Some amount, Some source)) /\
  (known_funded_get (lower owner) = None ->
   r = if yc then (lit "seed", Some (lit "YC-backed"), Some (lit "YC"))
       else (lit "unknown", None, None)) /\
  (status = lit "unknown" <-> snd (fst r) = None) /\
  (snd (fst r) = None <-> snd r = None).
Proof.
  cbv zeta.
  pose proof (detect_funding_status_stage owner repo description) as Hin.
  split; [exact Hin|].
  split; [intros E; rewrite E in Hin; vm_compute in Hin; intuition discriminate|].
  split; [intros E; rewrite E in Hin; vm_compute in Hin; intuition discriminate|].
  unfold detect_funding_status.
  destruct (known_funded_get (lower owner)) as [[[stage amount] source]|] eqn:K.
  - split; [intros ? ? ? [= <- <- <-]; reflexivity|].
    split; [discriminate|]. cbn [fst snd].
    split; [|split; discriminate].
    split; [|discriminate]. intros ->.
    apply known_funded_get_stage in K. vm_compute in K. intuition discriminate.
  - split; [discriminate|].
    split.
    + intros _. destruct (truthy_opt_str description); reflexivity.
    + destruct (truthy_opt_str description); cbn [andb];
        [destruct (_ || _)|]; cbn [fst snd];
        (split; split; try reflexivity; try discriminate).
Qed.

(** X16. A detected funding stage always moves the Series-A score: [seed]
    adds 15, [unknown] adds 10 and every other stage takes 20 off; and in the
    investability scorer the funding-gap bonus and the age penalty can only
    apply to a detected stage when it is [unknown]. *)
Theorem detected_funding_points (owner repo : str) (description : option str) :
  let status := fst (fst (detect_funding_status lower owner repo description)) in
  funding_points (Some status) =
    (if str_eqb status (lit "seed") then 15
     else if str_eqb status (lit "unknown") then 10 else -20) /\
  unknown_or_unfunded (Some status) = str_eqb status (lit "unknown").
Proof.
  cbv zeta.
  pose proof (detect_funding_status_stage owner repo description) as Hin.
  destruct Hin as [<-|[<-|[<-|[<-|[<-|[<-|[]]]]]]]; vm_compute; split; reflexivity.
Qed.

End ResolverProperties.

Lemma detect_funding_status_spec_witness :
  Analysis.detect_funding_status ascii_lower (lit "Supabase") (lit "supabase")
    (Some (lit "Backed by Y Combinator")) =
  (lit "series-c", Some (lit "$116M"), Some (lit "Known")) /\
  Analysis.detect_funding_status ascii_lower (lit "acme") (lit "db")
    (Some (lit "Backed by Y Combinator")) =
  (lit "seed", Some (lit "YC-backed"), Some (lit "YC")).
Proof.
  pose proof (detect_funding_status_spec ascii_lower (lit "Supabase") (lit "supabase")
                (Some (lit "Backed by Y Combinator"))) as (_ & _ & _ & H & _).
  pose proof (detect_funding_status_spec ascii_lower (lit "acme") (lit "db")
                (Some (lit "Backed by Y Combinator"))) as (_ & _ & _ & _ & H' & _).
  split.
  - apply H. vm_compute. reflexivity.
  - rewrite H' by (vm_compute; reflexivity). vm_compute. reflexivity.
Defined.

Section MoreScorerProperties.
Import Analysis.

Variable lower : str -> str.
Variable fromisoformat : str -> option datetime.

Ltac split_tests :=
  repeat match goal with
         | |- context [?a <=? ?b] => destruct (Z.leb_spec a b)
         | |- context [?a <? ?b] => destruct (Z.ltb_spec a b)
         end.

Lemma star_points_mono (a b : Z) : a <= b -> star_points a <= star_points b.
Proof. intros H. unfold star_points. split_tests; lia. Qed.

Lemma download_points_mono (a b : Z) : a <= b -> download_points a <= download_points b.
Proof. intros H. unfold download_points. split_tests; lia. Qed.

Lemma dependent_points_mono (a b : Z) : a <= b -> dependent_points a <= dependent_points b.
Proof. intros H. unfold dependent_points. split_tests; lia. Qed.

Lemma contributor_points_mono (a b : Z) :
  a <= b -> contributor_points a <= contributor_points b.
Proof. intros H. unfold contributor_points. split_tests; lia. Qed.

Lemma activity_points_mono (p c p' c' : Z) :
  p <= p' -> c <= c' -> activity_points p c <= activity_points p' c'.
Proof.
  intros Hp Hc. unfold activity_points.
  destruct (Z.leb_spec 50 p), (Z.leb_spec 200 c), (Z.leb_spec 50 p'), (Z.leb_spec 200 c');
    cbn [orb]; try lia;
  destruct (Z.leb_spec 20 p), (Z.leb_spec 100 c), (Z.leb_spec 20 p'), (Z.leb_spec 100 c');
    cbn [orb]; try lia;
  destruct (Z.leb_spec 5 p), (Z.leb_spec 30 c), (Z.leb_spec 5 p'), (Z.leb_spec 30 c');
    cbn [orb]; lia.
Qed.

Lemma funding_gap_points_mono (f : option str) (s d s' d' : Z) :
  s <= s' -> d <= d' -> funding_gap_points f s d <= funding_gap_points f s' d'.
Proof.
  intros Hs Hd. unfold funding_gap_points. destruct f as [f|]; [|lia].
  destruct (str_eqb f (lit "unfunded") || str_eqb f (lit "unknown")); [|lia].
  destruct (Z.leb_spec 5000 s), (Z.leb_spec 10000 d), (Z.leb_spec 5000 s'),
    (Z.leb_spec 10000 d'); cbn [orb]; try lia;
  destruct (Z.leb_spec 1000 s), (Z.leb_spec 1000 s'); lia.
Qed.

Lemma single_maintainer_penalty_mono (c p m c' p' m' : Z) :
  c <= c' -> p <= p' -> m <= m' ->
  single_maintainer_penalty c p m <= single_maintainer_penalty c' p' m'.
Proof.
  intros Hc Hp Hm. unfold single_maintainer_penalty.
  destruct (Z.leb_spec c 1), (Z.ltb_spec p 5), (Z.ltb_spec m 20),
    (Z.leb_spec c' 1), (Z.ltb_spec p' 5), (Z.ltb_spec m' 20); cbn [andb]; lia.
Qed.

Lemma recency_bonus_mono (utcnow : Z) (a b : metrics) (created_at : option created_arg) :
  int_or_zero (m_stars a) <= int_or_zero (m_stars b) ->
  int_or_zero (m_dependents a) <= int_or_zero (m_dependents b) ->
  recency_bonus fromisoformat utcnow a created_at <=
  recency_bonus fromisoformat utcnow b created_at.
Proof.
  intros Hs Hd. unfold recency_bonus.
  destruct created_at as [c|]; [|lia].
  destruct (truthy_created (Some c)); [|lia].
  destruct (parse_created fromisoformat c) as [d|e]; cbn; [|lia].
  destruct (days_between utcnow d <? 180); [|lia].
  destruct (Z.leb_spec 1000 (int_or_zero (m_stars a))),
    (Z.leb_spec 20 (int_or_zero (m_dependents a))),
    (Z.leb_spec 1000 (int_or_zero (m_stars b))),
    (Z.leb_spec 20 (int_or_zero (m_dependents b))); cbn [orb]; try lia;
  destruct (Z.leb_spec 500 (int_or_zero (m_stars a))),
    (Z.leb_spec 10 (int_or_zero (m_dependents a))),
    (Z.leb_spec 500 (int_or_zero (m_stars b))),
    (Z.leb_spec 10 (int_or_zero (m_dependents b))); cbn [orb]; lia.
Qed.

(** X17. More traction never lowers the investability score: if every
    metric the scorer reads is at least as large in a second record, all
    other arguments and clock readings being equal, the points and the score
    for the second record are at least those for the first. *)
Theorem investability_monotone (utcnow1 utcnow2 : Z) (a b : metrics)
  (growth_metrics : option Database.growth_dict) (funding_status category : option str)
  (repo_name description : option str) (created_at : option created_arg) :
  metrics_le a b ->
  investability_points lower fromisoformat utcnow1 utcnow2 a growth_metrics
    funding_status category repo_name description created_at <=
  investability_points lower fromisoformat utcnow1 utcnow2 b growth_metrics
    funding_status category repo_name description created_at /\
  calculate_investability_score lower fromisoformat utcnow1 utcnow2 a growth_metrics
    funding_status category repo_name description created_at <=
  calculate_investability_score lower fromisoformat utcnow1 utcnow2 b growth_metrics
    funding_status category repo_name description created_at.
Proof.
  intros (Hs & Hdl & Hdp & Hc & Hp & Hm).
  assert (P : investability_points lower fromisoformat utcnow1 utcnow2 a growth_metrics
                funding_status category repo_name description created_at <=
              investability_points lower fromisoformat utcnow1 utcnow2 b growth_metrics
                funding_status category repo_name description created_at).
  { unfold investability_points.
    pose proof (star_points_mono _ _ Hs).
    pose proof (download_points_mono _ _ Hdl).
    pose proof (dependent_points_mono _ _ Hdp).
    pose proof (contributor_points_mono _ _ Hc).
    pose proof (activity_points_mono _ _ _ _ Hp Hm).
    pose proof (funding_gap_points_mono funding_status _ _ _ _ Hs Hdl).
    pose proof (single_maintainer_penalty_mono _ _ _ _ _ _ Hc Hp Hm).
    pose proof (recency_bonus_mono utcnow2 a b created_at Hs Hdp).
    lia. }
  split; [exact P|]. unfold calculate_investability_score. lia.
Qed.

Lemma growth_points_bounds (g : option Database.growth_dict) :
  0 <= growth_points g <= 25 /\ (g = None -> growth_points g = 0).
Proof.
  split; [|intros ->; reflexivity].
  unfold growth_points. destruct g as [g|]; [|lia].
  repeat match goal with |- context [if ?c then _ else _] => destruct c end; lia.
Qed.

Lemma non_investable_penalty_bounds (repo_name description : option str) :
  -30 <= non_investable_penalty lower repo_name description <= 0.
Proof.
  unfold non_investable_penalty.
  destruct (truthy_opt_str repo_name && truthy_opt_str description); [|lia].
  destruct (is_non_investable_repo lower _ _) as [[|] r]; lia.
Qed.

Lemma age_penalty_bounds (utcnow : Z) (f : option str) (c : option created_arg) :
  -10 <= age_penalty fromisoformat utcnow f c <= 0.
Proof.
  unfold age_penalty. destruct c as [c|]; [|lia].
  destruct (truthy_created (Some c) && unknown_or_unfunded f); [|lia].
  destruct (parse_created fromisoformat c) as [d|e]; cbn; [|lia].
  destruct (tzinfo d); cbn; [lia|].
  destruct (Z.ltb_spec 730 (days_between utcnow d)); [lia|].
  destruct (Z.ltb_spec 1095 (days_between utcnow d)); lia.
Qed.

Lemma recency_bonus_bounds (utcnow : Z) (m : metrics) (c : option created_arg) :
  0 <= recency_bonus fromisoformat utcnow m c <= 10.
Proof.
  unfold recency_bonus. destruct c as [c|]; [|lia].
  destruct (truthy_created (Some c)); [|lia].
  destruct (parse_created fromisoformat c) as [d|e]; cbn; [|lia].
  repeat match goal with |- context [if ?c then _ else _] => destruct c end; lia.
Qed.

(** The points are at most 125, or 100 without growth data, less what the
    non-investable penalty takes off. *)
Lemma investability_points_upper (utcnow1 utcnow2 : Z) (metrics : metrics)
  (growth_metrics : option Database.growth_dict) (funding_status category : option str)
  (repo_name description : option str) (created_at : option created_arg) :
  let points := investability_points lower fromisoformat utcnow1 utcnow2 metrics
                  growth_metrics funding_status category repo_name description
                  created_at in
  points <= 125 + non_investable_penalty lower repo_name description /\
  (growth_metrics = None ->
   points <= 100 + non_investable_penalty lower repo_name description).
Proof.
  cbv zeta. unfold investability_points.
  pose proof (growth_points_bounds growth_metrics) as [Hg Hg0].
  pose proof (age_penalty_bounds utcnow1 funding_status created_at).
  pose proof (recency_bonus_bounds utcnow2 metrics created_at).
  assert (star_points (int_or_zero (m_stars metrics)) <= 15)
    by (unfold star_points; split_tests; lia).
  assert (download_points (int_or_zero (m_downloads metrics)) <= 20)
    by (unfold download_points; split_tests; lia).
  assert (dependent_points (int_or_zero (m_dependents metrics)) <= 25)
    by (unfold dependent_points; split_tests; lia).
  assert (contributor_points (int_or_zero (m_contributors metrics)) <= 10)
    by (unfold contributor_points; split_tests; lia).
  assert (activity_points (int_or_zero (m_prs_30d metrics))
            (int_or_zero (m_commits_3mo metrics)) <= 10)
    by (unfold activity_points;
        repeat match goal with |- context [if ?c then _ else _] => destruct c end; lia).
  assert (funding_gap_points funding_status (int_or_zero (m_stars metrics))
            (int_or_zero (m_downloads metrics)) <= 5)
    by (unfold funding_gap_points; destruct funding_status;
        repeat match goal with |- context [if ?c then _ else _] => destruct c end; lia).
  assert (hot_category_points category <= 5)
    by (unfold hot_category_points; destruct category;
        repeat match goal with |- context [if ?c then _ else _] => destruct c end; lia).
  assert (single_maintainer_penalty (int_or_zero (m_contributors metrics))
            (int_or_zero (m_prs_30d metrics))
            (int_or_zero (m_commits_3mo metrics)) <= 0)
    by (unfold single_maintainer_penalty;
        repeat match goal with |- context [if ?c then _ else _] => destruct c end; lia).
  split; [lia|]. intros E. specialize (Hg0 E). lia.
Qed.

(** X18. Before the clamp the investability points lie between -55 and
    125, and without growth data they cannot exceed 100: the upper clamp can
    only cut a score computed with growth data, and the lower clamp only one
    that carries a penalty. *)
Theorem investability_points_bounds (utcnow1 utcnow2 : Z) (metrics : metrics)
  (growth_metrics : option Database.growth_dict) (funding_status category : option str)
  (repo_name description : option str) (created_at : option created_arg) :
  let points := investability_points lower fromisoformat utcnow1 utcnow2 metrics
                  growth_metrics funding_status category repo_name description
                  created_at in
  -55 <= points <= 125 /\
  (growth_metrics = None -> points <= 100) /\
  (non_investable_penalty lower repo_name description = 0 ->
   single_maintainer_penalty (int_or_zero (m_contributors metrics))
     (int_or_zero (m_prs_30d metrics)) (int_or_zero (m_commits_3mo metrics)) = 0 ->
   age_penalty fromisoformat utcnow1 funding_status created_at = 0 ->
   0 <= points).
Proof.
  cbv zeta. unfold investability_points.
  pose proof (growth_points_bounds growth_metrics) as [Hg Hg0].
  pose proof (non_investable_penalty_bounds repo_name description).
  pose proof (age_penalty_bounds utcnow1 funding_status created_at).
  pose proof (recency_bonus_bounds utcnow2 metrics created_at).
  assert (0 <= star_points (int_or_zero (m_stars metrics)) <= 15)
    by (unfold star_points; split_tests; lia).
  assert (0 <= download_points (int_or_zero (m_downloads metrics)) <= 20)
    by (unfold download_points; split_tests; lia).
  assert (0 <= dependent_points (int_or_zero (m_dependents metrics)) <= 25)
    by (unfold dependent_points; split_tests; lia).
  assert (0 <= contributor_points (int_or_zero (m_contributors metrics)) <= 10)
    by (unfold contributor_points; split_tests; lia).
  assert (0 <= activity_points (int_or_zero (m_prs_30d metrics))
                 (int_or_zero (m_commits_3mo metrics)) <= 10)
    by (unfold activity_points;
        repeat match goal with |- context [if ?c then _ else _] => destruct c end; lia).
  assert (0 <= funding_gap_points funding_status (int_or_zero (m_stars metrics))
                 (int_or_zero (m_downloads metrics)) <= 5)
    by (unfold funding_gap_points; destruct funding_status;
        repeat match goal with |- context [if ?c then _ else _] => destruct c end; lia).
  assert (0 <= hot_category_points category <= 5)
    by (unfold hot_category_points; destruct category;
        repeat match goal with |- context [if ?c then _ else _] => destruct c end; lia).
  assert (-15 <= single_maintainer_penalty (int_or_zero (m_contributors metrics))
                   (int_or_zero (m_prs_30d metrics))
                   (int_or_zero (m_commits_3mo metrics)) <= 0)
    by (unfold single_maintainer_penalty;
        repeat match goal with |- context [if ?c then _ else _] => destruct c end; lia).
  split; [lia|]. split; [intros E; specialize (Hg0 E); lia|]. lia.
Qed.

(** X19. The age penalty and the breakout bonus never meet: when the clock
    does not run backwards between the two readings, a creation date that
    draws the age penalty draws no breakout bonus. *)
Theorem age_penalty_excludes_bonus (utcnow1 utcnow2 : Z) (metrics : metrics)
  (funding_status : option str) (created_at : option created_arg) :
  utcnow1 <= utcnow2 ->
  age_penalty fromisoformat utcnow1 funding_status created_at <> 0 ->
  recency_bonus fromisoformat utcnow2 metrics created_at = 0.
Proof.
  intros Hclock. unfold age_penalty, recency_bonus.
  destruct created_at as [c|]; [|congruence].
  destruct (truthy_created (Some c)); cbn [andb]; [|congruence].
  destruct (unknown_or_unfunded funding_status); [|congruence].
  destruct (parse_created fromisoformat c) as [d|e]; cbn; [|congruence].
  destruct (tzinfo d); cbn; [congruence|].
  destruct (Z.ltb_spec 730 (days_between utcnow1 d)) as [Hold|Hyoung].
  - intros _.
    assert (days_between utcnow1 d <= days_between utcnow2 d)
      by (unfold days_between; apply Z.div_le_mono; lia).
    destruct (Z.ltb_spec (days_between utcnow2 d) 180); [lia|reflexivity].
  - destruct (Z.ltb_spec 1095 (days_between utcnow1 d)); [lia|congruence].
Qed.

Lemma commercial_points_range (description readme homepage : option str) :
  0 <= commercial_points
         (Some (detect_commercial_signals lower description readme homepage)) <= 20.
Proof.
  unfold commercial_points, detect_commercial_signals.
  cbn [commercial_score has_pricing has_enterprise has_cloud has_company has_docs_site].
  repeat match goal with |- context [if ?c then _ else _] => destruct c end; lia.
Qed.

(** X20. What the commercial signals of a repository add to its Series-A
    score: 7 for a pricing signal, 8 for an enterprise signal, 2 each for a
    cloud and a company signal and 1 for a homepage of its own, between 0
    and 20 in all. *)
Theorem commercial_points_detected (description readme homepage : option str) :
  let s := detect_commercial_signals lower description readme homepage in
  commercial_points (Some s) =
    (if has_pricing s then 7 else 0) + (if has_enterprise s then 8 else 0) +
    (if has_cloud s then 2 else 0) + (if has_company s then 2 else 0) +
    (if has_docs_site s then 1 else 0) /\
  0 <= commercial_points (Some s) <= 20.
Proof.
  cbv zeta. unfold commercial_points, detect_commercial_signals.
  cbn [commercial_score has_pricing has_enterprise has_cloud has_company has_docs_site].
  repeat match goal with |- context [if ?c then _ else _] => destruct c end; lia.
Qed.

Lemma series_a_blocks_bounds (utcnow : Z) (metrics : metrics) (f : option str)
  (c : option created_arg) :
  -15 <= star_range_points (int_or_zero (m_stars metrics)) <= 15 /\
  -15 <= team_size_points (int_or_zero (m_contributors metrics)) <= 10 /\
  0 <= usage_points (int_or_zero (m_dependents metrics))
         (int_or_zero (m_downloads metrics)) <= 15 /\
  -10 <= age_points fromisoformat utcnow c <= 10 /\
  -20 <= funding_points f <= 15.
Proof.
  split; [unfold star_range_points;
          repeat match goal with |- context [if ?c then _ else _] => destruct c end; lia|].
  split; [unfold team_size_points;
          repeat match goal with |- context [if ?c then _ else _] => destruct c end; lia|].
  split; [unfold usage_points;
          repeat match goal with |- context [if ?c then _ else _] => destruct c end; lia|].
  split.
  - unfold age_points. destruct c as [c|]; [|lia].
    destruct (truthy_created (Some c)); [|lia].
    destruct (parse_created fromisoformat c) as [d|e]; cbn [bind try_except_pass]; [|lia].
    destruct (int_true_divide (days_between utcnow d) 30);
      cbn [bind try_except_pass]; [|lia].
    repeat match goal with |- context [if ?c then _ else _] => destruct c end; lia.
  - unfold funding_points. destruct f; [|lia].
    repeat match goal with |- context [if ?c then _ else _] => destruct c end; lia.
Qed.

(** X21. With the commercial signals detected from the repository, the
    Series-A points before the clamp lie between -10 and 135; both clamps
    are needed. *)
Theorem series_a_points_bounds (utcnow : Z) (metrics : metrics)
  (funding_status : option str) (created_at : option created_arg)
  (description readme homepage : option str) :
  -10 <= series_a_points fromisoformat utcnow metrics funding_status created_at
           (Some (detect_commercial_signals lower description readme homepage)) <= 135.
Proof.
  unfold series_a_points.
  pose proof (series_a_blocks_bounds utcnow metrics funding_status created_at)
    as (H1 & H2 & H3 & H4 & H5).
  pose proof (commercial_points_range description readme homepage) as H6.
  lia.
Qed.

End MoreScorerProperties.

Lemma age_penalty_excludes_bonus_witness :
  Analysis.recency_bonus no_fromisoformat (sample_utcnow + 5) top_metrics
    (Some (Analysis.CreatedDatetime (created_days_ago 800 None))) = 0.
Proof.
  apply (age_penalty_excludes_bonus no_fromisoformat sample_utcnow (sample_utcnow + 5)
           top_metrics (Some (lit "unknown"))
           (Some (Analysis.CreatedDatetime (created_days_ago 800 None)))).
  - unfold sample_utcnow. lia.
  - vm_compute. discriminate.
Defined.

Lemma investability_points_bounds_witness :
  0 <= Analysis.investability_points ascii_lower no_fromisoformat sample_utcnow
         sample_utcnow sample_metrics None (Some (lit "seed")) None
         (Some (lit "acme-db")) (Some (lit "A database")) None <= 100.
Proof.
  pose proof (investability_points_bounds ascii_lower no_fromisoformat sample_utcnow
                sample_utcnow sample_metrics None (Some (lit "seed")) None
                (Some (lit "acme-db")) (Some (lit "A database")) None) as (_ & H1 & H2).
  split.
  - apply H2; vm_compute; reflexivity.
  - apply H1. reflexivity.
Defined.

Lemma investability_monotone_witness :
  Analysis.calculate_investability_score ascii_lower no_fromisoformat sample_utcnow
    sample_utcnow sample_metrics None (Some (lit "unknown")) None None None None <=
  Analysis.calculate_investability_score ascii_lower no_fromisoformat sample_utcnow
    sample_utcnow top_metrics None (Some (lit "unknown")) None None None None.
Proof.
  apply (investability_monotone ascii_lower no_fromisoformat sample_utcnow sample_utcnow
           sample_metrics top_metrics None (Some (lit "unknown")) None None None None).
  unfold metrics_le. cbn. lia.
Defined.

(** * Properties of the enrichment and of the pipeline *)

Section PipelineProperties.
Import Database Analysis Dashboard.

Variable lower : str -> str.
Variable fromisoformat : str -> option datetime.

Lemma commercial_score_range (description readme homepage : option str) :
  0 <= commercial_score (detect_commercial_signals lower description readme homepage) <= 10.
Proof.
  unfold detect_commercial_signals. cbn [commercial_score].
  repeat match goal with |- context [if ?c then _ else _] => destruct c end; lia.
Qed.

Lemma non_investable_reason_flag (name : str) (description : option str) :
  snd (is_non_investable_repo lower name description) = None <->
  fst (is_non_investable_repo lower name description) = false.
Proof.
  unfold is_non_investable_repo.
  destruct (find _ name_patterns); [split; discriminate|].
  destruct (find _ description_patterns); split; try discriminate; reflexivity.
Qed.

Lemma detect_funding_status_amount (owner repo : str) (description : option str) :
  snd (fst (detect_funding_status lower owner repo description)) = None <->
  fst (fst (detect_funding_status lower owner repo description)) = lit "unknown".
Proof.
  unfold detect_funding_status.
  destruct (known_funded_get (lower owner)) as [[[stage amount] source]|] eqn:K.
  - cbn [fst snd]. split; [discriminate|]. intros ->.
    apply known_funded_get_stage in K. vm_compute in K. intuition discriminate.
  - match goal with |- context [if ?c then _ else _] => destruct c end; cbn [fst snd].
    + split; [discriminate|]. intros E. vm_compute in E. discriminate.
    + split; reflexivity.
Qed.

(** X22. The record the enrichment returns is well formed: the category is
    one of the ten names and the funding stage one of the six, both scores
    lie in [0, 100] and the commercial score in [0, 10], a reason is given
    exactly when the entity is flagged, an amount exactly when the stage is
    not [unknown], and a README already present is kept, the download being
    used only when there is none. A flagged entity with a name and a
    description scores at most 95, and at most 70 without growth data. *)
Theorem enrich_repo_data_well_formed (fetched_readme : option str)
  (utcnow1 utcnow2 utcnow3 : Z) (repo_data : repo_data) :
  let e := enrich_repo_data lower fromisoformat fetched_readme utcnow1 utcnow2 utcnow3
             repo_data in
  In (e_category e) category_names /\
  In (e_funding_status e) detected_stages /\
  0 <= e_investability_score e <= 100 /\
  0 <= e_series_a_fit e <= 100 /\
  0 <= e_commercial_score e <= 10 /\
  (e_non_investable_reason e = None <-> e_is_non_investable e = false) /\
  (e_funding_amount e = None <-> e_funding_status e = lit "unknown") /\
  e_readme e =
    (if truthy_opt_str (rd_readme repo_data) then rd_readme repo_data
     else fetched_readme) /\
  (e_is_non_investable e = true -> rd_name repo_data <> [] ->
   truthy_opt_str (rd_description repo_data) = true ->
   e_investability_score e <= 95 /\
   (rd_growth_metrics repo_data = None -> e_investability_score e <= 70)).
Proof.
  cbv zeta. unfold enrich_repo_data.
  pose proof (detect_funding_status_stage lower (rd_owner repo_data) (rd_name repo_data)
                (rd_description repo_data)) as Hstage.
  pose proof (detect_funding_status_amount (rd_owner repo_data) (rd_name repo_data)
                (rd_description repo_data)) as Hamount.
  pose proof (non_investable_reason_flag (rd_name repo_data) (rd_description repo_data))
    as Hreason.
  destruct (detect_funding_status lower (rd_owner repo_data) (rd_name repo_data)
              (rd_description repo_data)) as [[status amount] source].
  assert (Hpen : fst (is_non_investable_repo lower (rd_name repo_data)
                        (rd_description repo_data)) = true ->
                 rd_name repo_data <> [] ->
                 truthy_opt_str (rd_description repo_data) = true ->
                 non_investable_penalty lower (Some (rd_name repo_data))
                   (rd_description repo_data) = -30).
  { intros Hf Hn Hd. unfold non_investable_penalty.
    cbn [truthy_opt_str str_or_empty]. rewrite Hd.
    destruct (rd_name repo_data); [contradiction|]. cbn [truthy_str andb].
    destruct (is_non_investable_repo lower _ _) as [b r]. cbn in Hf. now rewrite Hf. }
  destruct (is_non_investable_repo lower (rd_name repo_data) (rd_description repo_data))
    as [flag reason].
  cbn [fst snd] in *.
  cbn [e_category e_funding_status e_investability_score e_series_a_fit
       e_commercial_score e_non_investable_reason e_is_non_investable
       e_funding_amount e_readme].
  split; [apply categorize_repo_member|].
  split; [exact Hstage|].
  split; [unfold calculate_investability_score; lia|].
  split; [unfold calculate_series_a_fit; lia|].
  split; [apply commercial_score_range|].
  split; [exact Hreason|]. split; [exact Hamount|]. split; [reflexivity|].
  intros Hf Hn Hd. specialize (Hpen Hf Hn Hd).
  pose proof (investability_points_upper lower fromisoformat utcnow1 utcnow2
                (rd_metrics repo_data) (rd_growth_metrics repo_data) (Some status)
                (Some (categorize_repo lower (rd_description repo_data)
                         (rd_topics repo_data)
                         (if truthy_opt_str (rd_readme repo_data)
                          then rd_readme repo_data else fetched_readme)))
                (Some (rd_name repo_data)) (rd_description repo_data)
                (rd_created_at repo_data)) as [H95 H70].
  cbv zeta in H95, H70. rewrite Hpen in H95, H70.
  unfold calculate_investability_score.
  split; [lia|]. intros E. specialize (H70 E). lia.
Qed.

(** ** The run of the pipeline on a fetched record *)

Lemma save_snapshot_small (clk : clock) (repo_id : Z) (m : metrics) (t : db) :
  small_metrics t -> small_record m -> small_metrics (save_snapshot clk repo_id m t).
Proof.
  unfold small_metrics. intros Ht (H1 & H2 & H3 & H4).
  unfold save_snapshot. cbn [snapshots]. apply Forall_app. split.
  - rewrite Forall_forall in *. intros r Hr. apply filter_In in Hr as [Hr _]. auto.
  - constructor; [cbn; auto|constructor].
Qed.

Lemma save_snapshot_has_current (clk : clock) (repo_id : Z) (m : metrics) (t : db)
  (d : date) :
  today clk <= d ->
  exists cur, get_snapshot_near (save_snapshot clk repo_id m t) repo_id d = Some cur.
Proof.
  intros Hd.
  pose proof (get_snapshot_near_spec (save_snapshot clk repo_id m t) repo_id d) as Hn.
  unfold nearest_on_or_before in Hn.
  destruct (get_snapshot_near (save_snapshot clk repo_id m t) repo_id d) as [r|];
    [now exists r|].
  exfalso. unfold save_snapshot in Hn. cbn [snapshots] in Hn.
  eapply Hn; [apply in_or_app; right; left; reflexivity|reflexivity|cbn; lia].
Qed.

Lemma add_weighted_int (v : option Z) (weight x : Z) :
  add_weighted v weight (Int x) = Ret (Int (x + int_or_zero v * weight)).
Proof.
  unfold add_weighted. destruct v as [v|]; cbn [int_or_zero].
  - destruct (Z.eqb_spec v 0) as [->|_]; [|reflexivity].
    replace (x + 0 * weight) with x by lia. reflexivity.
  - replace (x + 0 * weight) with x by lia. reflexivity.
Qed.

Lemma traction_score_integers (metrics : metrics) :
  no_downloads metrics ->
  traction_score metrics =
  Ret (int_or_zero (m_dependents metrics) * 10 + int_or_zero (m_commits_3mo metrics) * 5 +
       int_or_zero (m_contributors metrics) * 20 + int_or_zero (m_prs_30d metrics) * 50).
Proof.
  intros Hd. unfold traction_score.
  rewrite add_weighted_int. cbn [bind].
  assert (E : forall score : num,
    match m_downloads metrics with
    | Some d => if d =? 0 then Ret score
                else q <- int_true_divide d 100 ;; num_add score (Float q)
    | None => Ret score
    end = Ret score).
  { intros score. destruct Hd as [-> | ->]; reflexivity. }
  rewrite E. cbn [bind].
  repeat (rewrite add_weighted_int; cbn [bind]).
  cbn [int_of_num]. f_equal; lia.
Qed.

(** X23. Without a download count the traction score is computed on
    integers only and is the weighted sum of the four counts, an absent count
    weighing nothing. *)
Theorem traction_score_without_downloads (metrics : metrics) :
  no_downloads metrics ->
  traction_score metrics =
  Ret (int_or_zero (m_dependents metrics) * 10 + int_or_zero (m_commits_3mo metrics) * 5 +
       int_or_zero (m_contributors metrics) * 20 + int_or_zero (m_prs_30d metrics) * 50).
Proof.
  exact (traction_score_integers metrics).
Qed.

(** The result of a run, written out, when the metrics are small, there is
    no download count and the day of the growth calculation is not before
    the day of the snapshot. *)
Lemma analyze_and_store_repo_returns (clk : run_clocks) (fetched_readme : option str)
  (fetched : repo_data) (language : option str) (st : store) :
  small_metrics (st_db st) -> small_record (rd_metrics fetched) ->
  no_downloads (rd_metrics fetched) ->
  today (c_snapshot clk) <= today (c_growth clk) ->
  let e := enrich_repo_data lower fromisoformat fetched_readme
             (c_enrich1 clk) (c_enrich2 clk) (c_enrich3 clk) fetched in
  let created := get_or_create_repo (c_repo clk) (rd_owner fetched) (rd_name fetched)
                   (rd_description fetched) language (st_repos st) in
  let repo_id := fst created in
  let db1 := save_snapshot (c_snapshot clk) repo_id (rd_metrics fetched) (st_db st) in
  exists g db2 traction,
    calculate_growth_metrics (c_growth clk) repo_id db1 = Ret (Some g, db2) /\
    traction_score (rd_metrics fetched) = Ret traction /\
    analyze_and_store_repo lower fromisoformat clk fetched_readme fetched language st =
    Ret ({| a_repo_id := repo_id;
            a_enriched := e;
            a_growth := Some g;
            a_investability_score :=
              calculate_investability_score lower fromisoformat (c_enrich1 clk)
                (c_enrich2 clk) (rd_metrics fetched) (Some g)
                (Some (e_funding_status e)) (Some (e_category e)) None None None;
            a_traction_score := traction |},
         {| st_repos :=
              update_repo_metadata (c_metadata clk) repo_id
                (Some (e_category e)) (Some (e_funding_status e)) (e_funding_amount e)
                (Some (e_is_big_tech e)) (rd_description fetched) language (snd created);
            st_db :=
              update_growth_scores repo_id traction
                (calculate_investability_score lower fromisoformat (c_enrich1 clk)
                   (c_enrich2 clk) (rd_metrics fetched) (Some g)
                   (Some (e_funding_status e)) (Some (e_category e)) None None None)
                db2 |}).
Proof.
  intros Hs Hm Hd Hclock. cbv zeta.
  unfold analyze_and_store_repo.
  destruct (get_or_create_repo (c_repo clk) (rd_owner fetched) (rd_name fetched)
              (rd_description fetched) language (st_repos st)) as [repo_id repos1].
  cbn [fst snd].
  destruct (save_snapshot_has_current (c_snapshot clk) repo_id (rd_metrics fetched)
              (st_db st) (today (c_growth clk)) Hclock) as [cur Hcur].
  destruct (calculate_growth_metrics_returns (c_growth clk) repo_id _ cur
              (save_snapshot_small (c_snapshot clk) repo_id _ _ Hs Hm) Hcur)
    as (g & row & Hg & _).
  rewrite Hg. cbn [bind].
  rewrite (traction_score_integers _ Hd). cbn [bind].
  do 3 eexists. split; [reflexivity|]. split; reflexivity.
Qed.

(** X24. A run on a fetched record without a download count, on small
    metrics, returns, always with a growth record, and the investability
    score it returns is the one recomputed with that growth record and
    without name, description and creation date: the clamped sum of the
    traction, growth, funding-gap, category and single-maintainer blocks
    alone. The non-investable penalty, the age penalty and the breakout bonus
    never reach the score the pipeline returns and stores. *)
Theorem analyze_and_store_repo_score (clk : run_clocks) (fetched_readme : option str)
  (fetched : repo_data) (language : option str) (st : store) :
  small_metrics (st_db st) -> small_record (rd_metrics fetched) ->
  no_downloads (rd_metrics fetched) ->
  today (c_snapshot clk) <= today (c_growth clk) ->
  exists a st' g,
    analyze_and_store_repo lower fromisoformat clk fetched_readme fetched language st
      = Ret (a, st') /\
    a_growth a = Some g /\
    let m := rd_metrics fetched in
    let stars := int_or_zero (m_stars m) in
    let downloads := int_or_zero (m_downloads m) in
    let contributors := int_or_zero (m_contributors m) in
    let prs := int_or_zero (m_prs_30d m) in
    let commits := int_or_zero (m_commits_3mo m) in
    a_investability_score a =
      Z.max 0 (Z.min
        (star_points stars + download_points downloads +
         dependent_points (int_or_zero (m_dependents m)) +
         contributor_points contributors + activity_points prs commits +
         growth_points (Some g) +
         funding_gap_points (Some (e_funding_status (a_enriched a))) stars downloads +
         hot_category_points (Some (e_category (a_enriched a))) +
         single_maintainer_penalty contributors prs commits)
        100) /\
    a_traction_score a =
      int_or_zero (m_dependents m) * 10 + commits * 5 + contributors * 20 + prs * 50.
Proof.
  intros Hs Hm Hd Hclock.
  destruct (analyze_and_store_repo_returns clk fetched_readme fetched language st
              Hs Hm Hd Hclock) as (g & db2 & traction & _ & Ht & ->).
  do 2 eexists. exists g. split; [reflexivity|]. split; [reflexivity|].
  cbv zeta. cbn [a_investability_score a_traction_score a_enriched].
  split.
  - unfold calculate_investability_score, investability_points.
    cbn [non_investable_penalty age_penalty recency_bonus truthy_opt_str andb].
    f_equal. f_equal. lia.
  - rewrite (traction_score_integers _ Hd) in Ht. now injection Ht as <-.
Qed.




End PipelineProperties.

Lemma enrich_repo_data_well_formed_witness :
  let e := Analysis.enrich_repo_data ascii_lower no_fromisoformat None sample_utcnow
             sample_utcnow sample_utcnow sample_fetched in
  Analysis.e_is_non_investable e = true /\ Analysis.e_investability_score e <= 70.
Proof.
  intros e.
  pose proof (enrich_repo_data_well_formed ascii_lower no_fromisoformat None sample_utcnow
                sample_utcnow sample_utcnow sample_fetched) as H.
  cbv zeta in H. destruct H as (_ & _ & _ & _ & _ & _ & _ & _ & H).
  split; [vm_compute; reflexivity|].
  apply H; try reflexivity. vm_compute. discriminate.
Defined.

Lemma sample_metrics_small : small_record sample_metrics.
Proof. repeat split; intros v [= <-]; reflexivity. Qed.

Lemma traction_score_without_downloads_witness :
  Dashboard.traction_score sample_metrics = Ret 100.
Proof.
  rewrite (traction_score_without_downloads sample_metrics (or_introl eq_refl)).
  reflexivity.
Defined.

Lemma analyze_and_store_repo_score_witness :
  exists a st' g,
    Dashboard.analyze_and_store_repo ascii_lower no_fromisoformat sample_run_clocks None
      sample_fetched None sample_store = Ret (a, st') /\
    Dashboard.a_growth a = Some g /\
    Dashboard.a_traction_score a = 100.
Proof.
  destruct (analyze_and_store_repo_score ascii_lower no_fromisoformat sample_run_clocks
              None sample_fetched None sample_store)
    as (a & st' & g & H & Hg & _ & Ht).
  - exact sample_db_small.
  - exact sample_metrics_small.
  - left. reflexivity.
  - cbn. lia.
  - exists a, st', g. split; [exact H|]. split; [exact Hg|]. rewrite Ht. reflexivity.
Defined.



(** The sample run: a curated list is flagged and scores 0 in the
    enrichment, and 33 in the score the run returns and stores, which is
    recomputed without its name and description. *)
Example analyze_and_store_repo_sample :
  match Dashboard.analyze_and_store_repo ascii_lower no_fromisoformat sample_run_clocks
          None sample_fetched None sample_store with
  | Ret (a, st') =>
      Analysis.e_is_non_investable (Dashboard.a_enriched a) = true /\
      Analysis.e_investability_score (Dashboard.a_enriched a) = 0 /\
      Dashboard.a_investability_score a = 33 /\
      Dashboard.a_traction_score a = 100 /\
      option_map Database.g_investability_score
        (Database.get_latest_growth_metrics (Dashboard.st_db st') (Dashboard.a_repo_id a))
        = Some (Some 33)
  | Exc _ => False
  end.
Proof. vm_compute. repeat split. Qed.
